(** * The client side of the MAVLink FTP engine

    A shallow embedding of [src/mavsdk/core/mavlink_ftp_client.cpp]:
    the work queue, the download and upload state machines, the
    retry timer and the older single-operation entry points.

    Conventions.
    - Fixed-width integers are [Z] with the wrap written out ([u8], [u16],
      [u32]).
    - A method of the class becomes a function on the [Engine] record; what
      the method does to the outside world (a frame handed to the transport,
      a timer call, a user callback) is returned as a list of [Action]s, in
      program order.
    - The local filesystem is an external collaborator: what it answers in
      one step is the [Env] argument of that step.
    - Log lines are not modelled. *)

From Stdlib Require Import ZArith List String Ascii Bool Lia.
Import ListNotations.
Local Open Scope Z_scope.

(** Splits a conjunction into its conjuncts, and nothing else. *)
Ltac conjuncts := repeat match goal with |- _ /\ _ => split end.

(** ** Fixed-width arithmetic *)

Definition u8 (x : Z) : Z := x mod 256.
Definition u16 (x : Z) : Z := x mod 65536.
Definition u32 (x : Z) : Z := x mod 4294967296.

(** ** Constants of the header *)

(** Modelled from the spec: [max_data_length] is declared in
    mavlink_ftp_client.h, which is not part of the sources at hand; the
    spec gives the data region of a payload as 239 bytes. *)
Definition max_data_length : Z := 239.

(** Modelled from the spec: [RETRIES] is declared in mavlink_ftp_client.h;
    the spec gives the default retry count as 4. *)
Definition RETRIES : Z := 4.

(** Modelled from the spec: the [Opcode] enumerators of
    mavlink_ftp_client.h, with the numbers the spec lists. *)
Definition CMD_NONE : Z := 0.
Definition CMD_TERMINATE_SESSION : Z := 1.
Definition CMD_RESET_SESSIONS : Z := 2.
Definition CMD_LIST_DIRECTORY : Z := 3.
Definition CMD_OPEN_FILE_RO : Z := 4.
Definition CMD_READ_FILE : Z := 5.
Definition CMD_CREATE_FILE : Z := 6.
Definition CMD_WRITE_FILE : Z := 7.
Definition CMD_REMOVE_FILE : Z := 8.
Definition CMD_CREATE_DIRECTORY : Z := 9.
Definition CMD_REMOVE_DIRECTORY : Z := 10.
Definition CMD_OPEN_FILE_WO : Z := 11.
Definition CMD_TRUNCATE_FILE : Z := 12.
Definition CMD_RENAME : Z := 13.
Definition CMD_CALC_FILE_CRC32 : Z := 14.
Definition CMD_BURST_READ_FILE : Z := 15.
Definition RSP_ACK : Z := 128.
Definition RSP_NAK : Z := 129.

(** Modelled from the spec: the wire values of [enum class ServerResult :
    uint8_t] of mavlink_ftp_client.h, numbered in the order in which the
    spec lists the codes of the first NAK data byte.  The two further
    enumerators that [_translate] names, [ERR_TIMEOUT] and
    [ERR_FILE_IO_ERROR], have no number in the spec and are parameters of
    the model below. *)
Definition SUCCESS : Z := 0.
Definition ERR_FAIL : Z := 1.
Definition ERR_FAIL_ERRNO : Z := 2.
Definition ERR_INVALID_DATA_SIZE : Z := 3.
Definition ERR_INVALID_SESSION : Z := 4.
Definition ERR_NO_SESSIONS_AVAILABLE : Z := 5.
Definition ERR_EOF : Z := 6.
Definition ERR_UNKOWN_COMMAND : Z := 7.
Definition ERR_FAIL_FILE_EXISTS : Z := 8.
Definition ERR_FAIL_FILE_PROTECTED : Z := 9.
Definition ERR_FAIL_FILE_DOES_NOT_EXIST : Z := 10.

(** [ENOENT] of <errno.h>. *)
Definition ENOENT : Z := 2.

(** The results handed to user callbacks ([operator<<] at the end of the
    source names every enumerator). *)
Inductive ClientResult : Type :=
| Unknown | Success | Next | Timeout | Busy | FileIoError | FileExists
| FileDoesNotExist | FileProtected | InvalidParameter | Unsupported
| ProtocolError | NoSystem.

Definition ClientResult_eqb (a b : ClientResult) : bool :=
  match a, b with
  | Unknown, Unknown | Success, Success | Next, Next | Timeout, Timeout
  | Busy, Busy | FileIoError, FileIoError | FileExists, FileExists
  | FileDoesNotExist, FileDoesNotExist | FileProtected, FileProtected
  | InvalidParameter, InvalidParameter | Unsupported, Unsupported
  | ProtocolError, ProtocolError | NoSystem, NoSystem => true
  | _, _ => false
  end.

(** ** Strings and bytes *)

Definition bytes_of_string (s : string) : list Z :=
  map (fun c => Z.of_N (N_of_ascii c)) (list_ascii_of_string s).

Definition str_length (s : string) : Z := Z.of_nat (String.length s).

(** [c_str]: the bytes of a [std::string] up to its first NUL, as [strncpy]
    sees them. *)
Fixpoint c_str (bs : list Z) : list Z :=
  match bs with
  | [] => []
  | b :: r => if b =? 0 then [] else b :: c_str r
  end.

(** [strncpy(dst + at, src, n)] on a byte buffer: the first [n] bytes at
    [at] become [src] followed by NUL padding; writes past the end of the
    modelled buffer are cut off. *)
Definition strncpy (dst : list Z) (at_ : nat) (src : list Z) (n : nat) : list Z :=
  let written := firstn n (c_str src ++ repeat 0 n) in
  firstn (List.length dst)
         (firstn at_ dst ++ written ++ skipn (at_ + n) dst).

(** [memcpy]-like read of a stream into the start of a buffer. *)
Definition read_into (dst : list Z) (src : list Z) : list Z :=
  firstn (List.length dst) (src ++ skipn (List.length src) dst).

(** [*(reinterpret_cast<uint32_t*>(data))] on a little-endian host. *)
Definition read_u32 (d : list Z) : Z :=
  nth 0 d 0 + 256 * nth 1 d 0 + 65536 * nth 2 d 0 + 16777216 * nth 3 d 0.

(** Modelled from the spec: [path_separator] and [fs_filename] live in
    fs.h / fs.cpp, which are not part of the sources at hand; the spec
    writes the upload target as remote_folder/basename(local). *)
Definition path_separator : string := "/"%string.

Fixpoint fs_filename_from (s acc : string) : string :=
  match s with
  | EmptyString => acc
  | String c r =>
      if Ascii.eqb c "/"%char then fs_filename_from r EmptyString
      else fs_filename_from r (acc ++ String c EmptyString)%string
  end.

Definition fs_filename (path : string) : string :=
  fs_filename_from path EmptyString.

(** ** The payload *)

(** Modelled from the spec: [struct PayloadHeader] is declared in
    mavlink_ftp_client.h; the fields are those of the spec's payload
    table, 12 header bytes and [max_data_length] data bytes. *)
Module PayloadHeader.
Record t : Type := mk {
    seq_number : Z;      (* uint16_t *)
    session : Z;         (* uint8_t *)
    opcode : Z;          (* uint8_t *)
    size : Z;            (* uint8_t *)
    req_opcode : Z;      (* uint8_t *)
    burst_complete : Z;  (* uint8_t *)
    padding : Z;         (* uint8_t *)
    offset : Z;          (* uint32_t *)
    data : list Z        (* uint8_t[max_data_length] *)
  }.

  (** [PayloadHeader{}] *)
Definition zero : t :=
    mk 0 0 0 0 0 0 0 0 (repeat 0 (Z.to_nat max_data_length)).

Definition set_seq_number (p : t) (v : Z) : t :=
    mk v (session p) (opcode p) (size p) (req_opcode p) (burst_complete p)
       (padding p) (offset p) (data p).
Definition set_session (p : t) (v : Z) : t :=
    mk (seq_number p) v (opcode p) (size p) (req_opcode p) (burst_complete p)
       (padding p) (offset p) (data p).
Definition set_opcode (p : t) (v : Z) : t :=
    mk (seq_number p) (session p) v (size p) (req_opcode p) (burst_complete p)
       (padding p) (offset p) (data p).
Definition set_size (p : t) (v : Z) : t :=
    mk (seq_number p) (session p) (opcode p) v (req_opcode p) (burst_complete p)
       (padding p) (offset p) (data p).
Definition set_offset (p : t) (v : Z) : t :=
    mk (seq_number p) (session p) (opcode p) (size p) (req_opcode p)
       (burst_complete p) (padding p) v (data p).
Definition set_data (p : t) (v : list Z) : t :=
    mk (seq_number p) (session p) (opcode p) (size p) (req_opcode p)
       (burst_complete p) (padding p) (offset p) v.
End PayloadHeader.

(** The decoded [mavlink_file_transfer_protocol_t]: the addressing fields
    and the payload bytes viewed as a [PayloadHeader]. *)
Record FtpMessage : Type := mkFtpMessage {
  target_system : Z;
  target_component : Z;
  msg_payload : PayloadHeader.t
}.

Record ProgressData : Type := mkProgressData {
  pd_bytes_transferred : Z;
  pd_total_bytes : Z
}.

(** [ProgressData{}], what a terminal callback receives as [{}]. *)
Definition no_progress : ProgressData := mkProgressData 0 0.

(** ** Work items *)

(** A user callback is known by an identifier; invoking it is an action. *)
Definition CallbackId : Type := nat.

(** Modelled from the spec: [struct DownloadItem], [struct UploadItem] and
    [struct Work] are declared in mavlink_ftp_client.h; the fields are
    those the source reads and writes, and the spec's work-item model. *)
Module DownloadItem.
Record t : Type := mk {
    remote_path : string;
    local_folder : string;
    ofstream : list Z;              (* bytes written to the local file *)
    callback : CallbackId;
    file_size : Z;
    bytes_transferred : Z;
    last_progress_percentage : Z
  }.
Definition set_ofstream (i : t) (v : list Z) : t :=
    mk (remote_path i) (local_folder i) v (callback i) (file_size i)
       (bytes_transferred i) (last_progress_percentage i).
Definition set_file_size (i : t) (v : Z) : t :=
    mk (remote_path i) (local_folder i) (ofstream i) (callback i) v
       (bytes_transferred i) (last_progress_percentage i).
Definition set_bytes_transferred (i : t) (v : Z) : t :=
    mk (remote_path i) (local_folder i) (ofstream i) (callback i)
       (file_size i) v (last_progress_percentage i).
Definition set_last_progress_percentage (i : t) (v : Z) : t :=
    mk (remote_path i) (local_folder i) (ofstream i) (callback i)
       (file_size i) (bytes_transferred i) v.
End DownloadItem.

Module UploadItem.
Record t : Type := mk {
    local_file_path : string;
    remote_folder : string;
    callback : CallbackId;
    file_size : Z;
    bytes_transferred : Z
  }.
Definition set_file_size (i : t) (v : Z) : t :=
    mk (local_file_path i) (remote_folder i) (callback i) v
       (bytes_transferred i).
Definition set_bytes_transferred (i : t) (v : Z) : t :=
    mk (local_file_path i) (remote_folder i) (callback i) (file_size i) v.
End UploadItem.

(** [std::variant<DownloadItem, UploadItem>] *)
Inductive Item : Type :=
| IDownload (item : DownloadItem.t)
| IUpload (item : UploadItem.t).

Module Work.
Record t : Type := mk {
    item : Item;
    payload : PayloadHeader.t;   (* the last request, kept for resending *)
    retries : Z;                 (* unsigned *)
    started : bool;
    last_opcode : Z;
    last_seq_number : Z          (* uint16_t *)
  }.
Definition set_item (w : t) (v : Item) : t :=
    mk v (payload w) (retries w) (started w) (last_opcode w)
       (last_seq_number w).
Definition set_payload (w : t) (v : PayloadHeader.t) : t :=
    mk (item w) v (retries w) (started w) (last_opcode w) (last_seq_number w).
Definition set_retries (w : t) (v : Z) : t :=
    mk (item w) (payload w) v (started w) (last_opcode w) (last_seq_number w).
Definition set_started (w : t) (v : bool) : t :=
    mk (item w) (payload w) (retries w) v (last_opcode w) (last_seq_number w).
Definition set_last_opcode (w : t) (v : Z) : t :=
    mk (item w) (payload w) (retries w) (started w) v (last_seq_number w).
Definition set_last_seq_number (w : t) (v : Z) : t :=
    mk (item w) (payload w) (retries w) (started w) (last_opcode w) v.

  (** Modelled from the spec: [Work{std::move(item)}] runs the member
    initialisers of [struct Work] in mavlink_ftp_client.h.  A new work has
    the default retry count, is not started, and has accepted no response
    (last_seq_number 0). *)
Definition new (i : Item) : t :=
    mk i PayloadHeader.zero RETRIES false CMD_NONE 0.
End Work.

(** ** The engine *)

(** The data members of [MavlinkFtpClient] that the methods below read or
    write, and the two ids they ask [_system_impl] for. *)
Record Engine : Type := mkEngine {
  _work_queue : list Work.t;
  _seq_number : Z;                               (* uint16_t *)
  _session : Z;                                  (* uint8_t *)
  _curr_op : Z;
  _curr_op_result_callback : option CallbackId;
  _curr_dir_items_result_callback : option CallbackId;
  _last_path : string;
  _curr_directory_list : list string;
  own_system_id : Z;       (* _system_impl.get_own_system_id() *)
  own_component_id : Z     (* _system_impl.get_own_component_id() *)
}.

Definition set_work_queue (st : Engine) (q : list Work.t) : Engine :=
  mkEngine q (_seq_number st) (_session st) (_curr_op st)
           (_curr_op_result_callback st) (_curr_dir_items_result_callback st)
           (_last_path st) (_curr_directory_list st)
           (own_system_id st) (own_component_id st).
Definition set_seq_number (st : Engine) (v : Z) : Engine :=
  mkEngine (_work_queue st) v (_session st) (_curr_op st)
           (_curr_op_result_callback st) (_curr_dir_items_result_callback st)
           (_last_path st) (_curr_directory_list st)
           (own_system_id st) (own_component_id st).
Definition set_curr_op (st : Engine) (v : Z) : Engine :=
  mkEngine (_work_queue st) (_seq_number st) (_session st) v
           (_curr_op_result_callback st) (_curr_dir_items_result_callback st)
           (_last_path st) (_curr_directory_list st)
           (own_system_id st) (own_component_id st).
Definition set_curr_op_result_callback (st : Engine) (v : option CallbackId)
  : Engine :=
  mkEngine (_work_queue st) (_seq_number st) (_session st) (_curr_op st)
           v (_curr_dir_items_result_callback st)
           (_last_path st) (_curr_directory_list st)
           (own_system_id st) (own_component_id st).
Definition set_curr_dir_items_result_callback (st : Engine)
  (v : option CallbackId) : Engine :=
  mkEngine (_work_queue st) (_seq_number st) (_session st) (_curr_op st)
           (_curr_op_result_callback st) v
           (_last_path st) (_curr_directory_list st)
           (own_system_id st) (own_component_id st).
Definition set_last_path (st : Engine) (v : string) : Engine :=
  mkEngine (_work_queue st) (_seq_number st) (_session st) (_curr_op st)
           (_curr_op_result_callback st) (_curr_dir_items_result_callback st)
           v (_curr_directory_list st)
           (own_system_id st) (own_component_id st).
Definition set_curr_directory_list (st : Engine) (v : list string) : Engine :=
  mkEngine (_work_queue st) (_seq_number st) (_session st) (_curr_op st)
           (_curr_op_result_callback st) (_curr_dir_items_result_callback st)
           (_last_path st) v
           (own_system_id st) (own_component_id st).

(** [_seq_number++]: the value used and the engine after the increment. *)
Definition next_seq_number (st : Engine) : Z * Engine :=
  (_seq_number st, set_seq_number st (u16 (_seq_number st + 1))).

(** What a method does to its collaborators. *)
Inductive Action : Type :=
| Send (p : PayloadHeader.t)   (* _send_mavlink_ftp_message(p) *)
| StartTimer                   (* start_timer() *)
| StopTimer                    (* stop_timer() *)
| Call (cb : CallbackId) (r : ClientResult) (pd : ProgressData)
                               (* item.callback(r, pd) *)
| CallResult (cb : CallbackId) (r : ClientResult)
                               (* a ResultCallback *)
| CallDirItems (cb : CallbackId) (r : ClientResult) (l : list string).
                               (* a ListDirectoryCallback *)

(** What the local filesystem answers during one step. *)
Record Env : Type := mkEnv {
  fs_exists : bool;      (* fs_exists(item.local_file_path) *)
  stream_ok : bool;      (* the item's stream after open / write / readsome *)
  fs_file_size : Z;      (* fs_file_size(item.local_file_path) *)
  readsome : list Z      (* the bytes ifstream.readsome delivers *)
}.

(** ** The methods of [MavlinkFtpClient] *)

Section Client.

(** The numbers of the two client-side enumerators of [ServerResult]. *)
Variables ERR_TIMEOUT ERR_FILE_IO_ERROR : Z.

(** [_translate]: the [switch] over the server result, case by case. *)
Definition _translate (result : Z) : ClientResult :=
  if result =? SUCCESS then Success
  else if result =? ERR_TIMEOUT then Timeout
  else if result =? ERR_FILE_IO_ERROR then FileIoError
  else if result =? ERR_FAIL_FILE_EXISTS then FileExists
  else if result =? ERR_FAIL_FILE_PROTECTED then FileProtected
  else if result =? ERR_UNKOWN_COMMAND then Unsupported
  else if result =? ERR_FAIL_FILE_DOES_NOT_EXIST then FileDoesNotExist
  else ProtocolError.

Definition result_from_nak (payload : PayloadHeader.t) : ClientResult :=
  let sr := nth 0 (PayloadHeader.data payload) 0 in
  (* PX4 Mavlink FTP returns "File doesn't exist" this way *)
  let sr :=
    if (sr =? ERR_FAIL_ERRNO)
       && (nth 1 (PayloadHeader.data payload) 0 =? ENOENT)
    then ERR_FAIL_FILE_DOES_NOT_EXIST else sr in
  _translate sr.

(** The outcome of a [bool] method working on the head item: its return
    value, the engine, the work, the item and the actions. *)
Definition Outcome (I : Type) : Type :=
  (bool * Engine * Work.t * I * list Action)%type.

Definition download_start (st : Engine) (work : Work.t)
  (item : DownloadItem.t) (env : Env) : Outcome DownloadItem.t :=
  (* item.ofstream.open(local_path, trunc | binary) *)
  let item := DownloadItem.set_ofstream item [] in
  if negb (stream_ok env) then
    (false, st, work, item,
     [Call (DownloadItem.callback item) FileIoError no_progress])
  else
    let item := DownloadItem.set_last_progress_percentage item (-1) in
    let work := Work.set_last_opcode work CMD_OPEN_FILE_RO in
    let p := PayloadHeader.zero in
    let '(seq, st) := next_seq_number st in
    let p := PayloadHeader.set_seq_number p seq in
    let p := PayloadHeader.set_session p 0 in
    let p := PayloadHeader.set_opcode p (Work.last_opcode work) in
    let p := PayloadHeader.set_offset p 0 in
    let p := PayloadHeader.set_data p
               (strncpy (PayloadHeader.data p) 0
                        (bytes_of_string (DownloadItem.remote_path item))
                        (Z.to_nat (max_data_length - 1))) in
    let p := PayloadHeader.set_size p
               (u8 (str_length (DownloadItem.remote_path item) + 1)) in
    let work := Work.set_payload work p in
    (true, st, work, item, [StartTimer; Send p]).

(** The last request of a transfer, shared by [download_continue] and
    [upload_continue] ("Final step" in both). *)
Definition terminate_session_request (st : Engine) (work : Work.t)
  : Engine * Work.t * list Action :=
  let work := Work.set_last_opcode work CMD_TERMINATE_SESSION in
  let p := PayloadHeader.zero in
  let '(seq, st1) := next_seq_number st in
  let p := PayloadHeader.set_seq_number p seq in
  let p := PayloadHeader.set_session p (_session st1) in
  let p := PayloadHeader.set_opcode p (Work.last_opcode work) in
  let p := PayloadHeader.set_offset p 0 in
  let p := PayloadHeader.set_size p 0 in
  (st1, Work.set_payload work p, [StartTimer; Send p]).

(** The first half of [download_continue]: what the ACK brings.  The
    [bool] is false when the method returns early with [false]. *)
Definition download_absorb (item : DownloadItem.t)
  (payload : PayloadHeader.t) (env : Env)
  : bool * DownloadItem.t * list Action :=
  let cb := DownloadItem.callback item in
  if PayloadHeader.req_opcode payload =? CMD_OPEN_FILE_RO then
    (true,
     DownloadItem.set_file_size item (read_u32 (PayloadHeader.data payload)),
     [])
  else if PayloadHeader.req_opcode payload =? CMD_READ_FILE then
    if DownloadItem.bytes_transferred item <? DownloadItem.file_size item then
      (* item.ofstream.write(payload->data, payload->size) *)
      if negb (stream_ok env) then
        (false, item, [Call cb FileIoError no_progress])
      else
        let item :=
          DownloadItem.set_ofstream item
            (DownloadItem.ofstream item
             ++ firstn (Z.to_nat (PayloadHeader.size payload))
                       (PayloadHeader.data payload)) in
        (* size_t += uint8_t; below 2^32 + 239, no wrap *)
        let item :=
          DownloadItem.set_bytes_transferred item
            (DownloadItem.bytes_transferred item
             + PayloadHeader.size payload) in
        (true, item,
         [Call cb Next (mkProgressData (DownloadItem.bytes_transferred item)
                                       (DownloadItem.file_size item))])
    else
      (true, item,
       [Call cb Next (mkProgressData (DownloadItem.bytes_transferred item)
                                     (DownloadItem.file_size item))])
  else (true, item, []).

Definition download_continue (st : Engine) (work : Work.t)
  (item : DownloadItem.t) (payload : PayloadHeader.t) (env : Env)
  : Outcome DownloadItem.t :=
  let '(go_on, item, acts) := download_absorb item payload env in
  if negb go_on then (false, st, work, item, acts)
  else if DownloadItem.bytes_transferred item <? DownloadItem.file_size item
  then
    let work := Work.set_last_opcode work CMD_READ_FILE in
    let p := Work.payload work in
    let '(seq, st) := next_seq_number st in
    let p := PayloadHeader.set_seq_number p seq in
    let p := PayloadHeader.set_session p (_session st) in
    let p := PayloadHeader.set_opcode p (Work.last_opcode work) in
    let p := PayloadHeader.set_offset p
               (u32 (DownloadItem.bytes_transferred item)) in
    let p := PayloadHeader.set_size p
               (u8 (Z.min max_data_length
                          (DownloadItem.file_size item
                           - DownloadItem.bytes_transferred item))) in
    let work := Work.set_payload work p in
    (true, st, work, item, acts ++ [StartTimer; Send p])
  else
    let '(st, work, acts') := terminate_session_request st work in
    (true, st, work, item, acts ++ acts').

Definition upload_start (st : Engine) (work : Work.t)
  (item : UploadItem.t) (env : Env) : Outcome UploadItem.t :=
  let cb := UploadItem.callback item in
  if negb (fs_exists env) then
    (false, st, work, item, [Call cb FileDoesNotExist no_progress])
  else if negb (stream_ok env) then
    (false, st, work, item, [Call cb FileIoError no_progress])
  else
    let item := UploadItem.set_file_size item (fs_file_size env) in
    let remote_file_path :=
      (UploadItem.remote_folder item ++ path_separator
       ++ fs_filename (UploadItem.local_file_path item))%string in
    if str_length remote_file_path >=? max_data_length then
      (false, st, work, item, [Call cb InvalidParameter no_progress])
    else
      let work := Work.set_last_opcode work CMD_OPEN_FILE_WO in
      let p := PayloadHeader.zero in
      let '(seq, st) := next_seq_number st in
      let p := PayloadHeader.set_seq_number p seq in
      let p := PayloadHeader.set_session p 0 in
      let p := PayloadHeader.set_opcode p (Work.last_opcode work) in
      let p := PayloadHeader.set_offset p 0 in
      let p := PayloadHeader.set_data p
                 (strncpy (PayloadHeader.data p) 0
                          (bytes_of_string remote_file_path)
                          (Z.to_nat (max_data_length - 1))) in
      let p := PayloadHeader.set_size p (u8 (str_length remote_file_path + 1)) in
      let work := Work.set_payload work p in
      (true, st, work, item, [StartTimer; Send p]).

Definition upload_continue (st : Engine) (work : Work.t)
  (item : UploadItem.t) (env : Env) : Outcome UploadItem.t :=
  let cb := UploadItem.callback item in
  if UploadItem.bytes_transferred item <? UploadItem.file_size item then
    let work := Work.set_last_opcode work CMD_WRITE_FILE in
    let p := PayloadHeader.zero in
    let '(seq, st) := next_seq_number st in
    let p := PayloadHeader.set_seq_number p seq in
    let p := PayloadHeader.set_session p (_session st) in
    let p := PayloadHeader.set_opcode p (Work.last_opcode work) in
    let p := PayloadHeader.set_offset p
               (u32 (UploadItem.bytes_transferred item)) in
    (* readsome(work.payload.data, max_data_length) *)
    let chunk := firstn (Z.to_nat max_data_length) (readsome env) in
    let bytes_read := Z.of_nat (List.length chunk) in
    let p := PayloadHeader.set_data p (read_into (PayloadHeader.data p) chunk) in
    if negb (stream_ok env) then
      (false, st, Work.set_payload work p, item,
       [Call cb FileIoError no_progress])
    else
      let p := PayloadHeader.set_size p (u8 bytes_read) in
      let item :=
        UploadItem.set_bytes_transferred item
          (UploadItem.bytes_transferred item + bytes_read) in
      (true, st, Work.set_payload work p, item,
       [StartTimer; Send p;
        Call cb Next (mkProgressData (UploadItem.bytes_transferred item)
                                     (UploadItem.file_size item))])
  else
    let '(st, work, acts) := terminate_session_request st work in
    (true, st, work, item,
     acts ++ [Call cb Next (mkProgressData (UploadItem.bytes_transferred item)
                                           (UploadItem.file_size item))]).

Definition item_callback (i : Item) : CallbackId :=
  match i with
  | IDownload item => DownloadItem.callback item
  | IUpload item => UploadItem.callback item
  end.

(** The [std::visit] of [process_mavlink_ftp_message].  The [bool] of the
    result tells whether [work_queue_guard.pop_front()] ran. *)
Definition process_visit (st : Engine) (work : Work.t)
  (payload : PayloadHeader.t) (env : Env)
  : Engine * Work.t * bool * list Action :=
  match Work.item work with
  | IDownload item =>
      if PayloadHeader.opcode payload =? RSP_ACK then
        if (PayloadHeader.req_opcode payload =? CMD_OPEN_FILE_RO)
           || (PayloadHeader.req_opcode payload =? CMD_READ_FILE) then
          (* Whenever we do get an ack, reset the retry counter. *)
          let work := Work.set_retries work RETRIES in
          let '(ok, st, work, item, acts) :=
            download_continue st work item payload env in
          let work := Work.set_item work (IDownload item) in
          if ok then (st, work, false, acts)
          else (st, work, true, acts ++ [StopTimer])
        else if PayloadHeader.req_opcode payload =? CMD_TERMINATE_SESSION then
          (st, work, true,
           [StopTimer; Call (DownloadItem.callback item) Success no_progress])
        else (st, work, false, [])  (* Unexpected ack *)
      else if PayloadHeader.opcode payload =? RSP_NAK then
        (st, work, true,
         [StopTimer;
          Call (DownloadItem.callback item) (result_from_nak payload)
               no_progress])
      else (st, work, false, [])
  | IUpload item =>
      if PayloadHeader.opcode payload =? RSP_ACK then
        if (PayloadHeader.req_opcode payload =? CMD_OPEN_FILE_WO)
           || (PayloadHeader.req_opcode payload =? CMD_WRITE_FILE) then
          let work := Work.set_retries work RETRIES in
          let '(ok, st, work, item, acts) :=
            upload_continue st work item env in
          let work := Work.set_item work (IUpload item) in
          if ok then (st, work, false, acts)
          else (st, work, true, acts ++ [StopTimer])
        else if PayloadHeader.req_opcode payload =? CMD_TERMINATE_SESSION then
          (st, work, true,
           [StopTimer; Call (UploadItem.callback item) Success no_progress])
        else (st, work, false, [])
      else if PayloadHeader.opcode payload =? RSP_NAK then
        (st, work, true,
         [StopTimer;
          Call (UploadItem.callback item) (result_from_nak payload)
               no_progress])
      else (st, work, false, [])
  end.

(** [process_mavlink_ftp_message] from the point where it takes the queue
    guard (the line [LockedQueue<Work>::Guard work_queue_guard(_work_queue)])
    to its end. *)
Definition process_front_work (st : Engine) (payload : PayloadHeader.t)
  (env : Env) : Engine * list Action :=
  match _work_queue st with
  | [] => (st, [])
  | work :: rest =>
      if negb (Work.last_opcode work =? PayloadHeader.req_opcode payload) then
        (st, [])  (* Ignore *)
      else if negb (Work.last_seq_number work =? 0)
              && (Work.last_seq_number work
                  =? PayloadHeader.seq_number payload) then
        (st, [])  (* We have already seen this ack/nak. *)
      else
        let '(st, work, popped, acts) := process_visit st work payload env in
        (* the write goes to the shared Work object, in the queue or not *)
        let work :=
          Work.set_last_seq_number work (PayloadHeader.seq_number payload) in
        (set_work_queue st (if popped then rest else work :: rest), acts)
  end.

Definition process_mavlink_ftp_message (st : Engine) (msg : FtpMessage)
  (env : Env) : Engine * list Action :=
  if negb (target_system msg =? 0)
     && negb (target_system msg =? own_system_id st) then
    (st, [])  (* Received FTP with wrong target system ID! *)
  else if negb (target_component msg =? 0)
          && negb (target_component msg =? own_component_id st) then
    (st, [])  (* Received FTP with wrong target component ID! *)
  else
    let payload := msg_payload msg in
    if PayloadHeader.size payload >? max_data_length then
      (st, [])  (* Received FTP payload with invalid size *)
    else process_front_work st payload env.

Definition do_work (st : Engine) (env : Env) : Engine * list Action :=
  match _work_queue st with
  | [] => (st, [])
  | work :: rest =>
      if Work.started work then (st, [])
      else
        let work := Work.set_started work true in
        match Work.item work with
        | IDownload item =>
            let '(ok, st, work, item, acts) :=
              download_start st work item env in
            let work := Work.set_item work (IDownload item) in
            (set_work_queue st (if ok then work :: rest else rest), acts)
        | IUpload item =>
            let '(ok, st, work, item, acts) :=
              upload_start st work item env in
            let work := Work.set_item work (IUpload item) in
            (set_work_queue st (if ok then work :: rest else rest), acts)
        end
  end.

(** [timeout]: both alternatives of the visitor have the same body. *)
Definition timeout_visit (st : Engine) (work : Work.t) (rest : list Work.t)
  (cb : CallbackId) : Engine * list Action :=
  (* --work->retries on an unsigned *)
  let work := Work.set_retries work (u32 (Work.retries work - 1)) in
  if Work.retries work =? 0 then
    (set_work_queue st rest, [Call cb Timeout no_progress])
  else
    (set_work_queue st (work :: rest), [StartTimer; Send (Work.payload work)]).

Definition timeout (st : Engine) : Engine * list Action :=
  match _work_queue st with
  | [] => (st, [])
  | work :: rest =>
      match Work.item work with
      | IDownload item =>
          timeout_visit st work rest (DownloadItem.callback item)
      | IUpload item =>
          timeout_visit st work rest (UploadItem.callback item)
      end
  end.

(** *** The public entry points *)

(** [DownloadItem{}] and [UploadItem{}] start with empty streams and zero
    counters. *)
Definition download_async (st : Engine) (remote_path local_folder : string)
  (callback : CallbackId) : Engine * list Action :=
  let item := DownloadItem.mk remote_path local_folder [] callback 0 0 0 in
  (set_work_queue st (_work_queue st ++ [Work.new (IDownload item)]), []).

Definition upload_async (st : Engine) (local_file_path remote_folder : string)
  (callback : CallbackId) : Engine * list Action :=
  let item := UploadItem.mk local_file_path remote_folder callback 0 0 in
  (set_work_queue st (_work_queue st ++ [Work.new (IUpload item)]), []).

Definition reset_async (st : Engine) (callback : CallbackId)
  : Engine * list Action :=
  if negb (_curr_op st =? CMD_NONE) then (st, [CallResult callback Busy])
  else
    let p := PayloadHeader.zero in
    let '(seq, st) := next_seq_number st in
    let p := PayloadHeader.set_seq_number p seq in
    let p := PayloadHeader.set_session p (_session st) in
    let st := set_curr_op st CMD_RESET_SESSIONS in
    let p := PayloadHeader.set_opcode p CMD_RESET_SESSIONS in
    let p := PayloadHeader.set_offset p 0 in
    let p := PayloadHeader.set_size p 0 in
    let st := set_curr_op_result_callback st (Some callback) in
    (st, [Send p]).

Definition _list_directory (st : Engine) (offset : Z)
  : Engine * list Action :=
  let p := PayloadHeader.zero in
  let '(seq, st) := next_seq_number st in
  let p := PayloadHeader.set_seq_number p seq in
  let p := PayloadHeader.set_session p 0 in
  let st := set_curr_op st CMD_LIST_DIRECTORY in
  let p := PayloadHeader.set_opcode p CMD_LIST_DIRECTORY in
  let p := PayloadHeader.set_offset p offset in
  let p := PayloadHeader.set_data p
             (strncpy (PayloadHeader.data p) 0
                      (bytes_of_string (_last_path st))
                      (Z.to_nat (max_data_length - 1))) in
  let p := PayloadHeader.set_size p (u8 (str_length (_last_path st) + 1)) in
  let st := if offset =? 0 then set_curr_directory_list st [] else st in
  (st, [Send p]).

Definition list_directory_async (st : Engine) (path : string)
  (callback : CallbackId) (offset : Z) : Engine * list Action :=
  if negb (_curr_op st =? CMD_NONE) && (offset =? 0) then
    (st, [CallDirItems callback Busy []])
  else if str_length path >=? max_data_length then
    (st, [CallDirItems callback InvalidParameter []])
  else
    let st := set_last_path st path in
    let st := set_curr_dir_items_result_callback st (Some callback) in
    _list_directory st offset.

(** The three directory-mutation entry points take the lock and return:
    their call of [_generic_command_async] is commented out. *)
Definition create_directory_async (st : Engine) (path : string)
  (callback : CallbackId) : Engine * list Action := (st, []).

Definition remove_directory_async (st : Engine) (path : string)
  (callback : CallbackId) : Engine * list Action := (st, []).

Definition remove_file_async (st : Engine) (path : string)
  (callback : CallbackId) : Engine * list Action := (st, []).

Definition rename_async (st : Engine) (from_path to_path : string)
  (callback : CallbackId) : Engine * list Action :=
  if negb (_curr_op st =? CMD_NONE) then (st, [CallResult callback Busy])
  else if str_length from_path + str_length to_path + 1 >=? max_data_length
  then (st, [CallResult callback InvalidParameter])
  else
    let p := PayloadHeader.zero in
    let '(seq, st) := next_seq_number st in
    let p := PayloadHeader.set_seq_number p seq in
    let p := PayloadHeader.set_session p 0 in
    let st := set_curr_op st CMD_RENAME in
    let p := PayloadHeader.set_opcode p CMD_RENAME in
    let p := PayloadHeader.set_offset p 0 in
    let p := PayloadHeader.set_data p
               (strncpy (PayloadHeader.data p) 0 (bytes_of_string from_path)
                        (Z.to_nat (max_data_length - 1))) in
    let p := PayloadHeader.set_size p (u8 (str_length from_path + 1)) in
    let p := PayloadHeader.set_data p
               (strncpy (PayloadHeader.data p)
                        (Z.to_nat (PayloadHeader.size p))
                        (bytes_of_string to_path)
                        (Z.to_nat (max_data_length - PayloadHeader.size p))) in
    let p := PayloadHeader.set_size p
               (u8 (PayloadHeader.size p + (str_length to_path + 1))) in
    let st := set_curr_op_result_callback st (Some callback) in
    (st, [Send p]).

(** *** Driving the engine *)

(** What can happen to an engine, one at a time under the queue mutex: a
    [do_work] tick, a decoded inbound message, a timer fire, or a call of a
    public entry point. *)
Inductive Event : Type :=
| EvDoWork (env : Env)
| EvMessage (msg : FtpMessage) (env : Env)
| EvTimeout
| EvDownload (remote_path local_folder : string) (cb : CallbackId)
| EvUpload (local_file_path remote_folder : string) (cb : CallbackId)
| EvReset (cb : CallbackId)
| EvListDirectory (path : string) (cb : CallbackId)
| EvCreateDirectory (path : string) (cb : CallbackId)
| EvRemoveDirectory (path : string) (cb : CallbackId)
| EvRemoveFile (path : string) (cb : CallbackId)
| EvRename (from_path to_path : string) (cb : CallbackId).

Definition step (st : Engine) (ev : Event) : Engine * list Action :=
  match ev with
  | EvDoWork env => do_work st env
  | EvMessage msg env => process_mavlink_ftp_message st msg env
  | EvTimeout => timeout st
  | EvDownload r l cb => download_async st r l cb
  | EvUpload l r cb => upload_async st l r cb
  | EvReset cb => reset_async st cb
  | EvListDirectory p cb => list_directory_async st p cb 0
  | EvCreateDirectory p cb => create_directory_async st p cb
  | EvRemoveDirectory p cb => remove_directory_async st p cb
  | EvRemoveFile p cb => remove_file_async st p cb
  | EvRename f t cb => rename_async st f t cb
  end.

Fixpoint run (st : Engine) (evs : list Event) : Engine * list Action :=
  match evs with
  | [] => (st, [])
  | ev :: evs' =>
      let '(st1, acts1) := step st ev in
      let '(st2, acts2) := run st1 evs' in
      (st2, acts1 ++ acts2)
  end.

(** *** Reading a trace *)

Definition is_send (a : Action) : bool :=
  match a with Send _ => true | _ => false end.

(** Is [a] an invocation of callback [cb], of whatever signature? *)
Definition is_call_of (cb : CallbackId) (a : Action) : bool :=
  match a with
  | Call c _ _ | CallResult c _ | CallDirItems c _ _ => Nat.eqb c cb
  | _ => false
  end.

Definition is_call (a : Action) : bool :=
  match a with
  | Call _ _ _ | CallResult _ _ | CallDirItems _ _ _ => true
  | _ => false
  end.

(** Is [a] a progress tick ([Next]) of callback [cb]? *)
Definition is_next_of (cb : CallbackId) (a : Action) : bool :=
  match a with
  | Call c Next _ => Nat.eqb c cb
  | _ => false
  end.

Definition count {A : Type} (f : A -> bool) (l : list A) : nat :=
  List.length (filter f l).

(** [int percentage = 100 * bytes_read / total_bytes] of
    [_call_op_progress_callback], in [uint32_t] arithmetic. *)
Definition progress_percentage (bytes_read total_bytes : Z) : Z :=
  u32 (100 * bytes_read) / total_bytes.

(** ** Filters of an inbound message, as propositions *)

(** Each target id is the wildcard 0 or the engine's own id. *)
Definition addressed_to (st : Engine) (msg : FtpMessage) : Prop :=
  (target_system msg = 0 \/ target_system msg = own_system_id st)
  /\ (target_component msg = 0 \/ target_component msg = own_component_id st).

(** [msg] gets past every early [return] of [process_mavlink_ftp_message]
    and is visited by the head work [work]. *)
Definition accepted_by (st : Engine) (msg : FtpMessage) (work : Work.t)
  (rest : list Work.t) : Prop :=
  addressed_to st msg
  /\ PayloadHeader.size (msg_payload msg) <= max_data_length
  /\ _work_queue st = work :: rest
  /\ Work.last_opcode work = PayloadHeader.req_opcode (msg_payload msg)
  /\ (Work.last_seq_number work = 0
      \/ Work.last_seq_number work
         <> PayloadHeader.seq_number (msg_payload msg)).

(** Events that come from the transport, the timer or the driver tick, as
    opposed to calls of the public entry points. *)
Definition passive (ev : Event) : bool :=
  match ev with
  | EvDoWork _ | EvMessage _ _ | EvTimeout => true
  | _ => false
  end.

(** ** Concrete engines and messages *)

Definition pad_data (l : list Z) : list Z :=
  firstn (Z.to_nat max_data_length) (l ++ repeat 0 (Z.to_nat max_data_length)).

(** A response as the server builds it: [opcode] is RSP_ACK or RSP_NAK,
    [req] echoes the request. *)
Definition response (seq session opcode req size offset : Z) (d : list Z)
  : FtpMessage :=
  mkFtpMessage 0 0
    (PayloadHeader.mk seq session opcode size req 0 0 offset (pad_data d)).

(** A filesystem on which everything succeeds. *)
Definition env_ok : Env := mkEnv true true 0 [].

(** An idle engine of a ground station (system 245, component 190). *)
Definition idle_engine (seq : Z) : Engine :=
  mkEngine [] seq 0 CMD_NONE None None EmptyString [] 245 190.

(** A download of /a/data.bin, queued on an idle engine. *)
Definition queued_download (seq : Z) : Engine :=
  fst (download_async (idle_engine seq) "/a/data.bin" "/tmp/d" 1%nat).

(** ** Scenarios *)

Definition u32_bytes (v : Z) : list Z :=
  [v mod 256; (v / 256) mod 256; (v / 65536) mod 256; (v / 16777216) mod 256].

(** The server's ACK of OPEN_FILE_RO: session and file size. *)
Definition ack_open (seq sess fsize : Z) : FtpMessage :=
  response seq sess RSP_ACK CMD_OPEN_FILE_RO 4 0 (u32_bytes fsize).

(** The server's ACK of READ_FILE: [n] bytes of value 170 from [off]. *)
Definition ack_read (seq sess off n : Z) : FtpMessage :=
  response seq sess RSP_ACK CMD_READ_FILE n off (repeat 170 (Z.to_nat n)).

(** A NAK with one data byte, the server result. *)
Definition nak (seq req code : Z) : FtpMessage :=
  response seq 0 RSP_NAK req 1 0 [code].

(** The download started: OPEN_FILE_RO is out, with sequence number [seq]. *)
Definition opening (seq : Z) : Engine :=
  fst (run (queued_download seq) [EvDoWork env_ok]).

(** The download in its read loop: the server has acknowledged the open
    with session [sess] and a file of [fsize] bytes. *)
Definition reading (seq sess fsize : Z) : Engine :=
  fst (run (opening seq) [EvMessage (ack_open (u16 (seq + 1)) sess fsize) env_ok]).

(** The read loop after the wrap of the sequence counter: the READ_FILE
    request numbered 65535 was answered by the response numbered 0, and the
    head work has recorded 0 as the last response it accepted. *)
Definition wrapped : Engine :=
  fst (run (reading 65534 0 1000) [EvMessage (ack_read 0 0 0 239) env_ok]).

(** A READ_FILE response addressed to everyone whose size byte is 240. *)
Definition oversized : FtpMessage :=
  response 2 0 RSP_NAK CMD_READ_FILE 240 0 [ERR_FAIL].

(** A path of 239 characters: with its terminator it needs 240 bytes. *)
Definition long_path : string :=
  string_of_list_ascii (repeat "a"%char 239).

(** A path of 238 characters, the longest that fits with its terminator. *)
Definition longest_path : string :=
  string_of_list_ascii (repeat "a"%char 238).

(** A download of a 100000-byte file after its first READ_FILE ACK: 239
    bytes are in, 0 percent. *)
Definition reading_large : Engine :=
  fst (run (reading 0 0 100000) [EvMessage (ack_read 2 0 0 239) env_ok]).

(** The same download after one timer fire: the READ_FILE request has been
    resent once and the head work is left with 3 retries. *)
Definition retried : Engine :=
  fst (run reading_large [EvTimeout]).

(** The payloads handed to the transport during a trace. *)
Definition sent (acts : list Action) : list PayloadHeader.t :=
  flat_map (fun a => match a with Send p => [p] | _ => [] end) acts.

(** Opcode, session, offset and size of a request. *)
Definition request_summary (p : PayloadHeader.t) : Z * Z * Z * Z :=
  (PayloadHeader.opcode p, PayloadHeader.session p, PayloadHeader.offset p,
   PayloadHeader.size p).

(** The results a trace hands to callback [cb] through [Call]. *)
Definition results_of (cb : CallbackId) (acts : list Action)
  : list ClientResult :=
  flat_map (fun a => match a with
                     | Call c r _ => if Nat.eqb c cb then [r] else []
                     | _ => []
                     end) acts.

(** Bytes transferred and file size of a download work. *)
Definition download_progress (w : Work.t) : option (Z * Z) :=
  match Work.item w with
  | IDownload item =>
      Some (DownloadItem.bytes_transferred item, DownloadItem.file_size item)
  | IUpload _ => None
  end.

(** Number of bytes written to the local file of a download work. *)
Definition download_written (w : Work.t) : nat :=
  match Work.item w with
  | IDownload item => List.length (DownloadItem.ofstream item)
  | IUpload _ => 0%nat
  end.

(** The local stream of the head item fails in the step an ACK triggers:
    the [!item.ofstream] after the write of [download_continue], reached
    on a READ_FILE ACK while bytes are missing, and the [!item.ifstream]
    after the [readsome] of [upload_continue], reached while bytes remain
    to be sent. *)
Definition stream_fails (i : Item) (payload : PayloadHeader.t) (env : Env)
  : bool :=
  negb (stream_ok env)
  && match i with
     | IDownload item =>
         (PayloadHeader.req_opcode payload =? CMD_READ_FILE)
         && (DownloadItem.bytes_transferred item
             <? DownloadItem.file_size item)
     | IUpload item =>
         UploadItem.bytes_transferred item <? UploadItem.file_size item
     end.

(** The case labels of the [switch] of [_translate] are pairwise distinct,
    as the language requires of every [switch]. *)
Definition case_labels_distinct : Prop :=
  NoDup [SUCCESS; ERR_TIMEOUT; ERR_FILE_IO_ERROR; ERR_FAIL_FILE_EXISTS;
         ERR_FAIL_FILE_PROTECTED; ERR_UNKOWN_COMMAND;
         ERR_FAIL_FILE_DOES_NOT_EXIST].

(** ** Sequence numbers *)

(** [seq_lt]: the operands are [uint16_t], promoted to [int] before the
    subtractions, so nothing wraps; [numeric_limits<uint16_t>::max() / 2]
    is 32767. *)
Definition seq_lt (a b : Z) : bool :=
  ((a <? b) && (b - a <? 65535 / 2)) || ((a >? b) && (a - b >? 65535 / 2)).

(** ** Reading a step *)

(** A result other than the progress tick. *)
Definition terminal_result (r : ClientResult) : bool :=
  negb (ClientResult_eqb r Next).

Definition is_terminal_call (a : Action) : bool :=
  match a with
  | Call _ r _ | CallResult _ r | CallDirItems _ r _ => terminal_result r
  | _ => false
  end.

(** Every callback invoked in [acts] is [cb]. *)
Definition calls_only (cb : CallbackId) (acts : list Action) : bool :=
  forallb (fun a => implb (is_call a) (is_call_of cb a)) acts.

(** No work behind the head of the queue is started. *)
Definition only_head_started (st : Engine) : Prop :=
  Forall (fun w => Work.started w = false) (tl (_work_queue st)).

(** A step touches the queue and the sequence counter of the engine and
    nothing else. *)
Definition same_frame (st st' : Engine) : Prop :=
  _session st' = _session st
  /\ _curr_op st' = _curr_op st
  /\ _curr_op_result_callback st' = _curr_op_result_callback st
  /\ _curr_dir_items_result_callback st' = _curr_dir_items_result_callback st
  /\ _last_path st' = _last_path st
  /\ _curr_directory_list st' = _curr_directory_list st
  /\ own_system_id st' = own_system_id st
  /\ own_component_id st' = own_component_id st.

(** What one run of a [bool] method on the head item may do: it invokes
    only the item's callback; it returns [false] exactly when it reports a
    terminal result, and then it has sent nothing; when it returns [true]
    it has sent one request, the one it stored in the work, numbered with
    the engine's counter, which it advanced by one. *)
Definition outcome_shape {I : Type} (cbof : I -> CallbackId) (st : Engine)
  (work : Work.t) (item : I) (o : Outcome I) : Prop :=
  let '(ok, st', work', item', acts) := o in
  calls_only (cbof item) acts = true
  /\ cbof item' = cbof item
  /\ count is_terminal_call acts = (if ok then 0 else 1)%nat
  /\ (if ok
      then sent acts = [Work.payload work']
           /\ PayloadHeader.seq_number (Work.payload work') = _seq_number st
           /\ _seq_number st' = u16 (_seq_number st + 1)
      else sent acts = [])
  /\ same_frame st st'
  /\ _work_queue st' = _work_queue st
  /\ Work.started work' = Work.started work
  /\ Work.retries work' = Work.retries work
  /\ Work.last_seq_number work' = Work.last_seq_number work.

(** ** A transfer, as the transport delivers it *)

(** The READ_FILE ACKs that bring [chunks] one after the other: the first
    is numbered [seq] and starts at offset [off], each next one is numbered
    one higher (modulo 65536) and starts where the previous one ended. *)
Fixpoint read_acks (seq off : Z) (chunks : list (list Z)) : list Event :=
  match chunks with
  | [] => []
  | c :: r =>
      EvMessage (response seq 0 RSP_ACK CMD_READ_FILE
                          (Z.of_nat (List.length c)) off c) env_ok
      :: read_acks (u16 (seq + 1)) (off + Z.of_nat (List.length c)) r
  end.

(** The number of bytes in [chunks]. *)
Definition total_length (chunks : list (list Z)) : Z :=
  Z.of_nat (List.length (List.concat chunks)).

(** The ACKs that drive an upload through its write loop: the first
    echoes the request [req] the head is waiting on, the next ones echo
    WRITE_FILE; when the [i]-th arrives the local stream delivers the
    [i]-th of [chunks] to [readsome]. *)
Fixpoint write_acks (seq req : Z) (chunks : list (list Z)) : list Event :=
  match chunks with
  | [] => []
  | c :: r =>
      EvMessage (response seq 0 RSP_ACK req 0 0 []) (mkEnv true true 0 c)
      :: write_acks (u16 (seq + 1)) CMD_WRITE_FILE r
  end.

(** The bytes a request carries: the first [size] bytes of its data. *)
Definition carried (p : PayloadHeader.t) : list Z :=
  firstn (Z.to_nat (PayloadHeader.size p)) (PayloadHeader.data p).

(** The offsets at which [chunks] lie when the first starts at [off]. *)
Fixpoint offsets_from (off : Z) (chunks : list (list Z)) : list Z :=
  match chunks with
  | [] => []
  | c :: r => off :: offsets_from (off + Z.of_nat (List.length c)) r
  end.

(** ** The request handlers and the staging of temporary files *)

Definition string_of_bytes (bs : list Z) : string :=
  string_of_list_ascii (map (fun b => ascii_of_N (Z.to_N b)) bs).

(** [buf[i] = v]; an index outside the buffer writes nothing. *)
Definition poke (buf : list Z) (i : nat) (v : Z) : list Z :=
  if (i <? List.length buf)%nat then firstn i buf ++ v :: skipn (S i) buf
  else buf.

(** [memcpy(&buf[at], src, len(src))], cut off at the end of the buffer. *)
Definition memcpy_at (buf : list Z) (at_ : nat) (src : list Z) : list Z :=
  firstn (List.length buf)
         (firstn at_ buf ++ src ++ skipn (at_ + List.length src) buf).

(** [s.substr(n)] *)
Definition substr_from (n : nat) (s : string) : string :=
  substring n (String.length s - n) s.

(** [s.rfind(p, 0) != 0]: [s] does not start with [p]. *)
Definition not_prefixed_by (p s : string) : bool := negb (String.prefix p s).

(** [s.find(needle) != npos] *)
Fixpoint contains (needle s : string) : bool :=
  String.prefix needle s
  || match s with
     | EmptyString => false
     | String _ r => contains needle r
     end.

(** [std::to_string] of an unsigned number: its decimal digits. *)
Fixpoint to_string_digits (fuel : nat) (n : Z) (acc : string) : string :=
  match fuel with
  | O => acc
  | S f =>
      let acc' := String (ascii_of_N (Z.to_N (48 + n mod 10))) acc in
      if n / 10 =? 0 then acc' else to_string_digits f (n / 10) acc'
  end.

Definition to_string (n : Z) : string := to_string_digits 20 n EmptyString.

(** [O_RDONLY] and [O_ACCMODE] of <fcntl.h>. *)
Definition O_RDONLY : Z := 0.
Definition O_ACCMODE : Z := 3.

(** Modelled from the spec: the three entry-type letters [DIRENT_FILE],
    [DIRENT_DIR] and [DIRENT_SKIP] of mavlink_ftp_client.h, which the spec
    gives as F, D and S. *)
Definition DIRENT_FILE : string := "F"%string.
Definition DIRENT_DIR : string := "D"%string.
Definition DIRENT_SKIP : string := "S"%string.

(** One [struct dirent] as [_work_list] looks at it: the name and the two
    type tests (by [d_type] or by [stat], whichever the platform has). *)
Record Dirent : Type := mkDirent {
  d_name : string;
  type_reg : bool;
  type_dir : bool
}.

(** What the filesystem and the operating system answer.  The functions of
    fs.h and the POSIX calls are collaborators of the handlers, not part of
    them. *)
Record Fs : Type := mkFs {
  os_canonical : string -> string;        (* fs_canonical *)
  os_exists : string -> bool;             (* fs_exists *)
  os_file_size : string -> Z;             (* fs_file_size *)
  os_remove : string -> bool;             (* fs_remove *)
  os_create_directory : string -> bool;   (* fs_create_directory *)
  os_rename : string -> string -> bool;   (* fs_rename *)
  os_open : string -> Z -> Z * Z;         (* ::open: descriptor and errno *)
  os_lseek : Z -> Z -> Z;                 (* lseek(fd, offset, SEEK_SET) *)
  os_read : Z -> Z -> option (list Z);    (* ::read after the seek; None: < 0 *)
  os_write : Z -> Z -> list Z -> Z;       (* ::write after the seek *)
  os_readdir : string -> option (list Dirent);
                                          (* opendir, then readdir to the end *)
  os_create_tmp_directory : string -> option string;
  os_write_file : string -> string -> bool
                                          (* ofstream << content; !out.bad() *)
}.

(** The calls that reach the filesystem, in program order. *)
Inductive FsOp : Type :=
| OpOpen (path : string) (oflag : Z)
| OpClose (fd : Z)
| OpLseek (fd offset : Z)
| OpRead (fd n : Z)
| OpWrite (fd : Z) (bytes : list Z)
| OpRemove (path : string)
| OpCreateDirectory (path : string)
| OpRename (old_name new_name : string)
| OpOpendir (path : string)
| OpWriteFile (path content : string).

Record SessionInfo : Type := mkSessionInfo {
  si_fd : Z;                      (* int fd; negative: no file open *)
  si_file_size : Z;               (* uint32_t file_size *)
  stream_download : bool;
  stream_offset : Z;              (* uint32_t *)
  stream_seq_number : Z;          (* uint16_t *)
  stream_target_system_id : Z;
  stream_chunk_transmitted : Z
}.

(** The data members the handlers read or write. *)
Record Server : Type := mkServer {
  _session_info : SessionInfo;
  _root_dir : string;
  _tmp_dir : string;
  _tmp_files : list (string * string);  (* a map from name to staged path *)
  system_id : Z                         (* _system_impl.get_system_id() *)
}.

Definition set_session_info (srv : Server) (si : SessionInfo) : Server :=
  mkServer si (_root_dir srv) (_tmp_dir srv) (_tmp_files srv) (system_id srv).

(** [_tmp_files.find(key)] *)
Fixpoint tmp_files_find (m : list (string * string)) (key : string)
  : option string :=
  match m with
  | [] => None
  | (k, v) :: r => if String.eqb k key then Some v else tmp_files_find r key
  end.

(** [_tmp_files[key] = value] *)
Definition tmp_files_set (m : list (string * string)) (key value : string)
  : list (string * string) :=
  (key, value) :: filter (fun kv => negb (String.eqb (fst kv) key)) m.

(** The outcome of a handler: the server result, the server, the payload
    it leaves for the reply, and its filesystem calls. *)
Definition Handled : Type := (Z * Server * PayloadHeader.t * list FsOp)%type.

Definition code_of (h : Handled) : Z := fst (fst (fst h)).
Definition server_of (h : Handled) : Server := snd (fst (fst h)).
Definition payload_of (h : Handled) : PayloadHeader.t := snd (fst h).
Definition ops_of (h : Handled) : list FsOp := snd h.

(** [_data_as_string]: terminates the data in place and reads it as a C
    string. *)
Definition _data_as_string (payload : PayloadHeader.t)
  : PayloadHeader.t * string :=
  let i :=
    if PayloadHeader.size payload <? max_data_length
    then Z.to_nat (PayloadHeader.size payload)
    else Z.to_nat (max_data_length - 1) in
  let payload :=
    PayloadHeader.set_data payload (poke (PayloadHeader.data payload) i 0) in
  (payload, string_of_bytes (c_str (PayloadHeader.data payload))).

(** [_get_path] of a path string *)
Definition _get_path_of (fs : Fs) (srv : Server) (payload_path : string)
  : string :=
  os_canonical fs (_root_dir srv ++ path_separator ++ payload_path)%string.

(** [_get_path] of a payload *)
Definition _get_path (fs : Fs) (srv : Server) (payload : PayloadHeader.t)
  : PayloadHeader.t * string :=
  let '(payload, s) := _data_as_string payload in
  (payload, _get_path_of fs srv s).

Definition _get_rel_path (srv : Server) (path : string) : string :=
  substr_from (String.length (_root_dir srv)) path.

Definition set_root_directory (fs : Fs) (srv : Server) (root_dir : string)
  : ClientResult * Server :=
  (Success,
   mkServer (_session_info srv) (os_canonical fs root_dir) (_tmp_dir srv)
            (_tmp_files srv) (system_id srv)).

Definition _work_open (fs : Fs) (srv : Server) (payload : PayloadHeader.t)
  (oflag : Z) : Handled :=
  if si_fd (_session_info srv) >=? 0 then
    (ERR_NO_SESSIONS_AVAILABLE, srv, payload, [])
  else
    let '(payload, name) := _data_as_string payload in
    let '(payload, path) :=
      match tmp_files_find (_tmp_files srv) name with
      | Some staged => (payload, staged)
      | None => _get_path fs srv payload
      end in
    if (String.length path =? 0)%nat then (ERR_FAIL, srv, payload, [])
    else if (Z.land oflag O_ACCMODE =? O_RDONLY) && negb (os_exists fs path)
    then (ERR_FAIL_FILE_DOES_NOT_EXIST, srv, payload, [])
    else
      let file_size := u32 (os_file_size fs path) in
      let '(fd, errno) := os_open fs path oflag in
      if fd <? 0 then
        (if errno =? ENOENT then ERR_FAIL_FILE_DOES_NOT_EXIST else ERR_FAIL,
         srv, payload, [OpOpen path oflag])
      else
        let si := _session_info srv in
        let si :=
          mkSessionInfo fd file_size false (stream_offset si)
            (stream_seq_number si)
            (stream_target_system_id si)
            (stream_chunk_transmitted si) in
        let payload := PayloadHeader.set_session payload 0 in
        let payload := PayloadHeader.set_size payload 4 in
        let payload :=
          PayloadHeader.set_data payload
            (memcpy_at (PayloadHeader.data payload) 0 (u32_bytes file_size)) in
        (SUCCESS, set_session_info srv si, payload, [OpOpen path oflag]).

Definition _work_read (fs : Fs) (srv : Server) (payload : PayloadHeader.t)
  : Handled :=
  let si := _session_info srv in
  if negb (PayloadHeader.session payload =? 0) || (si_fd si <? 0) then
    (ERR_INVALID_SESSION, srv, payload, [])
  else if PayloadHeader.offset payload >=? si_file_size si then
    (* We have to test seek past EOF ourselves *)
    (ERR_EOF, srv, payload, [])
  else if os_lseek fs (si_fd si) (PayloadHeader.offset payload) <? 0
  then
    (ERR_FAIL, srv, payload,
     [OpLseek (si_fd si) (PayloadHeader.offset payload)])
  else
    let ops :=
      [OpLseek (si_fd si) (PayloadHeader.offset payload);
       OpRead (si_fd si) max_data_length] in
    match os_read fs (si_fd si) (PayloadHeader.offset payload) with
    | None => (ERR_FAIL, srv, payload, ops)
    | Some bytes =>
        let bytes := firstn (Z.to_nat max_data_length) bytes in
        let payload :=
          PayloadHeader.set_data payload
            (memcpy_at (PayloadHeader.data payload) 0 bytes) in
        let payload :=
          PayloadHeader.set_size payload (u8 (Z.of_nat (List.length bytes))) in
        (SUCCESS, srv, payload, ops)
    end.

Definition _work_burst (srv : Server) (payload : PayloadHeader.t) : Handled :=
  let si := _session_info srv in
  if negb (PayloadHeader.session payload =? 0) && (si_fd si <? 0) then
    (ERR_INVALID_SESSION, srv, payload, [])
  else
    (* Setup for streaming sends *)
    let si :=
      mkSessionInfo (si_fd si) (si_file_size si) true
        (PayloadHeader.offset payload)
        (u16 (PayloadHeader.seq_number payload + 1))
        (system_id srv) 0 in
    (SUCCESS, set_session_info srv si, payload, []).

Definition _work_write (fs : Fs) (srv : Server) (payload : PayloadHeader.t)
  : Handled :=
  let si := _session_info srv in
  if negb (PayloadHeader.session payload =? 0) && (si_fd si <? 0) then
    (ERR_INVALID_SESSION, srv, payload, [])
  else if os_lseek fs (si_fd si) (PayloadHeader.offset payload) <? 0
  then
    (* Unable to see to the specified location *)
    (ERR_FAIL, srv, payload,
     [OpLseek (si_fd si) (PayloadHeader.offset payload)])
  else
    let bytes :=
      firstn (Z.to_nat (PayloadHeader.size payload))
             (PayloadHeader.data payload) in
    let ops :=
      [OpLseek (si_fd si) (PayloadHeader.offset payload);
       OpWrite (si_fd si) bytes] in
    let bytes_written :=
      os_write fs (si_fd si) (PayloadHeader.offset payload) bytes in
    if bytes_written <? 0 then (ERR_FAIL, srv, payload, ops)
    else
      let payload := PayloadHeader.set_size payload 4 in
      let payload :=
        PayloadHeader.set_data payload
          (memcpy_at (PayloadHeader.data payload) 0
                     (u32_bytes (u32 bytes_written))) in
      (SUCCESS, srv, payload, ops).

(** [close(fd); fd = -1; stream_download = false]. *)
Definition close_session (si : SessionInfo) : SessionInfo :=
  mkSessionInfo (-1) (si_file_size si) false
    (stream_offset si) (stream_seq_number si)
    (stream_target_system_id si)
    (stream_chunk_transmitted si).

Definition _work_terminate (srv : Server) (payload : PayloadHeader.t)
  : Handled :=
  let si := _session_info srv in
  if negb (PayloadHeader.session payload =? 0) || (si_fd si <? 0) then
    (ERR_INVALID_SESSION, srv, payload, [])
  else
    (SUCCESS, set_session_info srv (close_session si),
     PayloadHeader.set_size payload 0, [OpClose (si_fd si)]).

Definition _work_reset (srv : Server) (payload : PayloadHeader.t) : Handled :=
  let si := _session_info srv in
  if negb (si_fd si =? -1) then
    (SUCCESS, set_session_info srv (close_session si),
     PayloadHeader.set_size payload 0, [OpClose (si_fd si)])
  else (SUCCESS, srv, PayloadHeader.set_size payload 0, []).

Definition _work_remove_directory (fs : Fs) (srv : Server)
  (payload : PayloadHeader.t) : Handled :=
  let '(payload, path) := _get_path fs srv payload in
  if not_prefixed_by (_root_dir srv) path then (ERR_FAIL, srv, payload, [])
  else if negb (os_exists fs path) then
    (ERR_FAIL_FILE_DOES_NOT_EXIST, srv, payload, [])
  else
    (if os_remove fs path then SUCCESS else ERR_FAIL, srv, payload,
     [OpRemove path]).

Definition _work_create_directory (fs : Fs) (srv : Server)
  (payload : PayloadHeader.t) : Handled :=
  let '(payload, path) := _get_path fs srv payload in
  if not_prefixed_by (_root_dir srv) path then (ERR_FAIL, srv, payload, [])
  else if os_exists fs path then (ERR_FAIL_FILE_EXISTS, srv, payload, [])
  else
    (if os_create_directory fs path then SUCCESS else ERR_FAIL_ERRNO, srv,
     payload, [OpCreateDirectory path]).

Definition _work_remove_file (fs : Fs) (srv : Server)
  (payload : PayloadHeader.t) : Handled :=
  let '(payload, path) := _get_path fs srv payload in
  if not_prefixed_by (_root_dir srv) path then (ERR_FAIL, srv, payload, [])
  else if negb (os_exists fs path) then
    (ERR_FAIL_FILE_DOES_NOT_EXIST, srv, payload, [])
  else
    (if os_remove fs path then SUCCESS else ERR_FAIL, srv, payload,
     [OpRemove path]).

(** The second half of [_work_rename], from the two names on. *)
Definition rename_checked (fs : Fs) (srv : Server)
  (old_name new_name : string) : Z * list FsOp :=
  if not_prefixed_by (_root_dir srv) old_name
     || not_prefixed_by (_root_dir srv) new_name then (ERR_FAIL, [])
  else if negb (os_exists fs old_name) then (ERR_FAIL_FILE_DOES_NOT_EXIST, [])
  else
    (if os_rename fs old_name new_name then SUCCESS else ERR_FAIL,
     [OpRename old_name new_name]).

(** [_work_rename].  The second name is read as a C string from the byte
    after the terminator of the first.  Only the byte at [term_i] is
    known to be a NUL: when the array holds no NUL from the start of the
    second name on, the source reads past [data], and the result is
    [None]. *)
Definition _work_rename (fs : Fs) (srv : Server)
  (payload : PayloadHeader.t) : option Handled :=
  let term_i :=
    if PayloadHeader.size payload >=? max_data_length
    then Z.to_nat (max_data_length - 1)
    else Z.to_nat (PayloadHeader.size payload) in
  let payload :=
    PayloadHeader.set_data payload
      (poke (PayloadHeader.data payload) term_i 0) in
  let old_name := string_of_bytes (c_str (PayloadHeader.data payload)) in
  let second :=
    skipn (String.length old_name + 1) (PayloadHeader.data payload) in
  if negb (existsb (fun b => b =? 0) second) then None
  else
    let new_name := _get_path_of fs srv (string_of_bytes (c_str second)) in
    let old_name := _get_path_of fs srv old_name in
    let '(result, ops) := rename_checked fs srv old_name new_name in
    Some (result, srv, payload, ops).

(** The tab between the name and the size of a file entry. *)
Definition tab : string := String (ascii_of_nat 9) EmptyString.

(** The entry [_work_list] builds for one directory entry found in
    [path]. *)
Definition list_entry (fs : Fs) (srv : Server) (path : string)
  (list_hidden : bool) (dp : Dirent) : string :=
  let filename := d_name dp in
  let full_path := (path ++ path_separator ++ filename)%string in
  if list_hidden || not_prefixed_by "." filename then
    if type_reg dp then
      (DIRENT_FILE ++ _get_rel_path srv full_path ++ tab
       ++ to_string (os_file_size fs full_path))%string
    else if type_dir dp then (DIRENT_DIR ++ _get_rel_path srv full_path)%string
    else DIRENT_SKIP
  else DIRENT_SKIP.

(** The [while] loop of [_work_list] over what [readdir] yields: skip
    [requested_offset] entries, then copy entries with their terminators
    while they fit. *)
Fixpoint list_fill (fs : Fs) (srv : Server) (path : string)
  (list_hidden : bool) (entries : list Dirent) (requested_offset : Z)
  (data : list Z) (offset : Z) : list Z * Z :=
  match entries with
  | [] => (data, offset)
  | dp :: r =>
      if requested_offset >? 0 then
        list_fill fs srv path list_hidden r (requested_offset - 1) data offset
      else
        let entry_s := list_entry fs srv path list_hidden dp in
        (* Do we have room for the dir entry and the null terminator? *)
        if offset + str_length entry_s + 1 >? max_data_length then
          (data, offset)
        else
          let len := u8 (str_length entry_s + 1) in
          let data :=
            memcpy_at data (Z.to_nat offset)
              (firstn (Z.to_nat len) (bytes_of_string entry_s ++ [0])) in
          list_fill fs srv path list_hidden r requested_offset data
                    (u8 (offset + len))
  end.

Definition _work_list (fs : Fs) (srv : Server) (payload : PayloadHeader.t)
  (list_hidden : bool) : Handled :=
  let requested_offset := PayloadHeader.offset payload in
  let '(payload, path) := _get_path fs srv payload in
  if not_prefixed_by (_root_dir srv) path then (ERR_FAIL, srv, payload, [])
  else if negb (os_exists fs path) then
    (ERR_FAIL_FILE_DOES_NOT_EXIST, srv, payload, [])
  else
    let '(data, offset) :=
      match os_readdir fs path with
      | Some entries =>
          list_fill fs srv path list_hidden entries requested_offset
                    (PayloadHeader.data payload) 0
      | None => (PayloadHeader.data payload, 0)
      end in
    (SUCCESS, srv,
     PayloadHeader.set_size (PayloadHeader.set_data payload data) offset,
     [OpOpendir path]).

Definition backslash : string := String (ascii_of_nat 92) EmptyString.

Definition write_tmp_file (fs : Fs) (srv : Server) (path content : string)
  : option string * Server * list FsOp :=
  if contains ".." path then (None, srv, [])
  else if contains "/" path then (None, srv, [])
  else if contains backslash path then (None, srv, [])
  else
    (* We use a temporary directory to put these *)
    let srv :=
      if (String.length (_tmp_dir srv) =? 0)%nat then
        match os_create_tmp_directory fs "mavsdk-mavlink-ftp-tmp-files" with
        | Some dir =>
            mkServer (_session_info srv) (_root_dir srv) dir (_tmp_files srv)
                     (system_id srv)
        | None => srv
        end
      else srv in
    let file_path := (_tmp_dir srv ++ path_separator ++ path)%string in
    if negb (os_write_file fs file_path content) then
      (None, srv, [OpWriteFile file_path content])
    else
      (Some file_path,
       mkServer (_session_info srv) (_root_dir srv) (_tmp_dir srv)
                (tmp_files_set (_tmp_files srv) path file_path)
                (system_id srv),
       [OpWriteFile file_path content]).

(** The path [_work_open] opens for a payload: the staged file if the
    name in the payload is a staged one, the path under the root
    otherwise. *)
Definition open_path (fs : Fs) (srv : Server) (payload : PayloadHeader.t)
  : string :=
  match tmp_files_find (_tmp_files srv) (snd (_data_as_string payload)) with
  | Some staged => staged
  | None => _get_path_of fs srv (snd (_data_as_string payload))
  end.


(** ** The single-operation machine

    [_process_ack], [_process_nak] and the methods they drive.  They use
    further data members of the class besides those of [Engine]. *)

(** The callback [are_files_identical_async] hands to
    [_calc_file_crc32_async]: a closure over the local checksum and the
    caller's callback. *)
Inductive Crc32Callback : Type :=
| CompareCrc32 (crc_local : Z) (callback : CallbackId).

Record Legacy : Type := mkLegacy {
  engine : Engine;
  _session_valid : bool;
  _bytes_transferred : Z;                (* uint32_t *)
  _file_size : Z;                        (* uint32_t *)
  _session_result : Z;                   (* ServerResult *)
  _last_progress_percentage : Z;         (* int *)
  _curr_op_progress_callback : option CallbackId;
  _current_crc32_result_callback : option Crc32Callback;
  _ofstream_open : bool;                 (* _ofstream.stream.is_open() *)
  _ofstream_path : string;               (* _ofstream.path *)
  _ofstream_written : list Z             (* bytes written to the stream *)
}.

Definition set_engine (l : Legacy) (e : Engine) : Legacy :=
  mkLegacy e (_session_valid l) (_bytes_transferred l) (_file_size l)
    (_session_result l) (_last_progress_percentage l)
    (_curr_op_progress_callback l) (_current_crc32_result_callback l)
    (_ofstream_open l) (_ofstream_path l) (_ofstream_written l).
Definition set_session_valid (l : Legacy) (v : bool) : Legacy :=
  mkLegacy (engine l) v (_bytes_transferred l) (_file_size l)
    (_session_result l) (_last_progress_percentage l)
    (_curr_op_progress_callback l) (_current_crc32_result_callback l)
    (_ofstream_open l) (_ofstream_path l) (_ofstream_written l).
Definition set_bytes_transferred (l : Legacy) (v : Z) : Legacy :=
  mkLegacy (engine l) (_session_valid l) v (_file_size l)
    (_session_result l) (_last_progress_percentage l)
    (_curr_op_progress_callback l) (_current_crc32_result_callback l)
    (_ofstream_open l) (_ofstream_path l) (_ofstream_written l).
Definition set_file_size (l : Legacy) (v : Z) : Legacy :=
  mkLegacy (engine l) (_session_valid l) (_bytes_transferred l) v
    (_session_result l) (_last_progress_percentage l)
    (_curr_op_progress_callback l) (_current_crc32_result_callback l)
    (_ofstream_open l) (_ofstream_path l) (_ofstream_written l).
Definition set_session_result (l : Legacy) (v : Z) : Legacy :=
  mkLegacy (engine l) (_session_valid l) (_bytes_transferred l) (_file_size l)
    v (_last_progress_percentage l)
    (_curr_op_progress_callback l) (_current_crc32_result_callback l)
    (_ofstream_open l) (_ofstream_path l) (_ofstream_written l).
Definition set_last_progress_percentage (l : Legacy) (v : Z) : Legacy :=
  mkLegacy (engine l) (_session_valid l) (_bytes_transferred l) (_file_size l)
    (_session_result l) v
    (_curr_op_progress_callback l) (_current_crc32_result_callback l)
    (_ofstream_open l) (_ofstream_path l) (_ofstream_written l).
Definition set_current_crc32_result_callback (l : Legacy)
  (v : option Crc32Callback) : Legacy :=
  mkLegacy (engine l) (_session_valid l) (_bytes_transferred l) (_file_size l)
    (_session_result l) (_last_progress_percentage l)
    (_curr_op_progress_callback l) v
    (_ofstream_open l) (_ofstream_path l) (_ofstream_written l).
Definition set_ofstream (l : Legacy) (open : bool) (written : list Z)
  : Legacy :=
  mkLegacy (engine l) (_session_valid l) (_bytes_transferred l) (_file_size l)
    (_session_result l) (_last_progress_percentage l)
    (_curr_op_progress_callback l) (_current_crc32_result_callback l)
    open (_ofstream_path l) written.

Definition set_session (st : Engine) (v : Z) : Engine :=
  mkEngine (_work_queue st) (_seq_number st) v (_curr_op st)
           (_curr_op_result_callback st) (_curr_dir_items_result_callback st)
           (_last_path st) (_curr_directory_list st)
           (own_system_id st) (own_component_id st).

(** [_curr_op = v] *)
Definition set_op (l : Legacy) (v : Z) : Legacy :=
  set_engine l (set_curr_op (engine l) v).

(** What the methods of this machine do to their collaborators: the
    actions of the engine, the callbacks of the checksum comparison, and
    the removal of the local file of a failed download. *)
Inductive LegacyAction : Type :=
| Act (a : Action)
| CallIdentical (cb : CallbackId) (r : ClientResult) (are_identical : bool)
| RemoveLocalFile (path : string).

(** The conversion of a [uint32_t] to [int]. *)
Definition int_of_u32 (x : Z) : Z :=
  if x <? 2147483648 then x else x - 4294967296.

Definition _call_op_result_callback (l : Legacy) (result : Z)
  : list LegacyAction :=
  match _curr_op_result_callback (engine l) with
  | Some cb => [Act (CallResult cb (_translate result))]
  | None => []
  end.

(** [_call_op_progress_callback]; [None] stands for the division by a
    [total_bytes] of zero, which is not defined. *)
Definition _call_op_progress_callback (l : Legacy)
  (bytes_read total_bytes : Z) : option (Legacy * list LegacyAction) :=
  match _curr_op_progress_callback l with
  | Some cb =>
      if total_bytes =? 0 then None
      else
        (* Slow callback down to only report ever 1% *)
        let percentage :=
          int_of_u32 (progress_percentage bytes_read total_bytes) in
        if negb (_last_progress_percentage l =? percentage) then
          Some (set_last_progress_percentage l percentage,
                [Act (Call cb Next (mkProgressData bytes_read total_bytes))])
        else Some (l, [])
  | None => Some (l, [])
  end.

Definition _call_dir_items_result_callback (l : Legacy) (result : Z)
  (entries : list string) : list LegacyAction :=
  match _curr_dir_items_result_callback (engine l) with
  | Some cb => [Act (CallDirItems cb (_translate result) entries)]
  | None => []
  end.

(** The body of the closure of [are_files_identical_async], run on the
    result and the checksum of the remote file. *)
Definition run_crc32_callback (c : Crc32Callback)
  (result_remote : ClientResult) (crc_remote : Z) : list LegacyAction :=
  match c with
  | CompareCrc32 crc_local cb =>
      if negb (ClientResult_eqb result_remote Success) then
        [CallIdentical cb result_remote false]
      else [CallIdentical cb Success (crc_local =? crc_remote)]
  end.

Definition _call_crc32_result_callback (l : Legacy) (result crc32 : Z)
  : list LegacyAction :=
  match _current_crc32_result_callback l with
  | Some c => run_crc32_callback c (_translate result) crc32
  | None => []
  end.

Definition _terminate_session (l : Legacy) : Legacy * list LegacyAction :=
  if negb (_session_valid l) then (l, [])
  else
    let p := PayloadHeader.zero in
    let '(seq, st) := next_seq_number (engine l) in
    let p := PayloadHeader.set_seq_number p seq in
    let p := PayloadHeader.set_session p (_session st) in
    let st := set_curr_op st CMD_TERMINATE_SESSION in
    let p := PayloadHeader.set_opcode p CMD_TERMINATE_SESSION in
    let p := PayloadHeader.set_offset p 0 in
    let p := PayloadHeader.set_size p 0 in
    (set_engine l st, [Act (Send p)]).

Definition _end_read_session (l : Legacy) (delete_file : bool)
  : Legacy * list LegacyAction :=
  let l := set_op l CMD_NONE in
  let '(l, acts) :=
    if _ofstream_open l then
      (set_ofstream l false (_ofstream_written l),
       if delete_file then [RemoveLocalFile (_ofstream_path l)] else [])
    else (l, []) in
  let '(l, acts') := _terminate_session l in
  (l, acts ++ acts').

Definition _read (l : Legacy) : Legacy * list LegacyAction :=
  if _bytes_transferred l >=? _file_size l then
    _end_read_session (set_session_result l SUCCESS) false
  else
    let p := PayloadHeader.zero in
    let '(seq, st) := next_seq_number (engine l) in
    let p := PayloadHeader.set_seq_number p seq in
    let p := PayloadHeader.set_session p (_session st) in
    let st := set_curr_op st CMD_READ_FILE in
    let p := PayloadHeader.set_opcode p CMD_READ_FILE in
    let p := PayloadHeader.set_offset p (_bytes_transferred l) in
    let p := PayloadHeader.set_size p
               (u8 (Z.min max_data_length
                          (u32 (_file_size l - _bytes_transferred l)))) in
    (set_engine l st, [Act (Send p)]).

Definition _end_write_session (l : Legacy) : Legacy * list LegacyAction :=
  _terminate_session (set_op l CMD_NONE).

Definition _write (l : Legacy) : Legacy * list LegacyAction :=
  if _bytes_transferred l >=? _file_size l then
    _end_write_session (set_session_result l SUCCESS)
  else
    let p := PayloadHeader.zero in
    let '(seq, st) := next_seq_number (engine l) in
    let p := PayloadHeader.set_seq_number p seq in
    let p := PayloadHeader.set_session p (_session st) in
    let st := set_curr_op st CMD_WRITE_FILE in
    let p := PayloadHeader.set_opcode p CMD_WRITE_FILE in
    let p := PayloadHeader.set_offset p (_bytes_transferred l) in
    (set_engine l st, [Act (Send p)]).

(** The [for] loop of the LIST_DIRECTORY case of [_process_ack] over the
    indices [idxs]: at every NUL the C string that starts at [start] is
    taken, and kept if it is not empty. *)
Fixpoint scan_entries (data : list Z) (idxs : list nat) (start : nat)
  (entries : list string) : list string :=
  match idxs with
  | [] => entries
  | i :: r =>
      if nth i data 0 =? 0 then
        let entry := string_of_bytes (c_str (skipn start data)) in
        scan_entries data r (S i)
          (if (0 <? String.length entry)%nat then entries ++ [entry]
           else entries)
      else scan_entries data r start entries
  end.

(** The entries one LIST_DIRECTORY ACK brings. *)
Definition parse_entries (payload : PayloadHeader.t) : list string :=
  scan_entries (PayloadHeader.data payload)
               (seq 0 (Z.to_nat (PayloadHeader.size payload))) 0 [].

(** [_list_directory] on this machine's engine. *)
Definition legacy_list_directory (l : Legacy) (offset : Z)
  : Legacy * list LegacyAction :=
  let '(st, acts) := _list_directory (engine l) offset in
  (set_engine l st, map Act acts).

Definition _process_ack (l : Legacy) (payload : PayloadHeader.t) (env : Env)
  : option (Legacy * list LegacyAction) :=
  let op := _curr_op (engine l) in
  if seq_lt (PayloadHeader.seq_number payload) (_seq_number (engine l)) then
    (* an ack for a previous seq that we already considered done *)
    Some (l, [])
  else if negb (op =? PayloadHeader.req_opcode payload) then Some (l, [])
  else if op =? CMD_NONE then Some (l, [])
  else if op =? CMD_OPEN_FILE_RO then
    let l := set_op l CMD_NONE in
    let l := set_session_valid l true in
    let l := set_engine l (set_session (engine l)
                                       (PayloadHeader.session payload)) in
    let l := set_bytes_transferred l 0 in
    let l := set_file_size l (read_u32 (PayloadHeader.data payload)) in
    match _call_op_progress_callback l (_bytes_transferred l) (_file_size l)
    with
    | None => None
    | Some (l, acts) => let '(l, acts') := _read l in Some (l, acts ++ acts')
    end
  else if op =? CMD_READ_FILE then
    if negb (stream_ok env) then
      Some (_end_read_session (set_session_result l ERR_FILE_IO_ERROR) false)
    else
      let l :=
        set_ofstream l (_ofstream_open l)
          (_ofstream_written l
           ++ firstn (Z.to_nat (PayloadHeader.size payload))
                     (PayloadHeader.data payload)) in
      let l :=
        set_bytes_transferred l
          (u32 (_bytes_transferred l + PayloadHeader.size payload)) in
      match _call_op_progress_callback l (_bytes_transferred l) (_file_size l)
      with
      | None => None
      | Some (l, acts) => let '(l, acts') := _read l in Some (l, acts ++ acts')
      end
  else if op =? CMD_OPEN_FILE_WO then
    let l := set_op l CMD_NONE in
    let l := set_session_valid l true in
    let l := set_engine l (set_session (engine l)
                                       (PayloadHeader.session payload)) in
    let l := set_bytes_transferred l 0 in
    match _call_op_progress_callback l (_bytes_transferred l) (_file_size l)
    with
    | None => None
    | Some (l, acts) => let '(l, acts') := _write l in Some (l, acts ++ acts')
    end
  else if op =? CMD_WRITE_FILE then
    match _call_op_progress_callback l (_bytes_transferred l) (_file_size l)
    with
    | None => None
    | Some (l, acts) => let '(l, acts') := _write l in Some (l, acts ++ acts')
    end
  else if (op =? CMD_TERMINATE_SESSION) || (op =? CMD_RESET_SESSIONS) then
    let l := set_op l CMD_NONE in
    let l := set_session_valid l false in
    Some (l, _call_op_result_callback l (_session_result l))
  else if op =? CMD_LIST_DIRECTORY then
    let found := parse_entries payload in
    let st := engine l in
    let l :=
      set_engine l (set_curr_directory_list st
                      (_curr_directory_list st ++ found)) in
    if (0 <? List.length found)%nat then
      (* Ask for next batch of file names *)
      Some (legacy_list_directory l
              (u32 (Z.of_nat (List.length (_curr_directory_list (engine l))))))
    else
      (* We came to end - report entire list *)
      let l := set_op l CMD_NONE in
      Some (l, _call_dir_items_result_callback l SUCCESS
                 (_curr_directory_list (engine l)))
  else if op =? CMD_CALC_FILE_CRC32 then
    let l := set_op l CMD_NONE in
    Some (l, _call_crc32_result_callback l SUCCESS
               (read_u32 (PayloadHeader.data payload)))
  else
    let l := set_op l CMD_NONE in
    Some (l, _call_op_result_callback l SUCCESS).

(** [_process_nak] on a server result. *)
Definition _process_nak_result (l : Legacy) (result : Z)
  : Legacy * list LegacyAction :=
  let op := _curr_op (engine l) in
  let '(l, acts) :=
    if op =? CMD_NONE then (l, [])
    else if (op =? CMD_OPEN_FILE_RO) || (op =? CMD_READ_FILE) then
      let l := set_session_result l result in
      if _session_valid l then
        _end_read_session l (result =? ERR_FAIL_FILE_DOES_NOT_EXIST)
      else
        let acts := _call_op_result_callback l (_session_result l) in
        let '(l, acts') := _end_read_session l true in
        (l, acts ++ acts')
    else if (op =? CMD_OPEN_FILE_WO) || (op =? CMD_WRITE_FILE) then
      let l := set_session_result l result in
      if _session_valid l then _end_write_session l
      else (l, _call_op_result_callback l (_session_result l))
    else if op =? CMD_TERMINATE_SESSION then
      let l := set_session_valid l false in
      (l, _call_op_result_callback l (_session_result l))
    else if op =? CMD_LIST_DIRECTORY then
      if negb (0 =? List.length (_curr_directory_list (engine l)))%nat then
        (l, _call_dir_items_result_callback l SUCCESS
              (_curr_directory_list (engine l)))
      else
        (l, _call_dir_items_result_callback l result
              (_curr_directory_list (engine l)))
    else if op =? CMD_CALC_FILE_CRC32 then
      (l, _call_crc32_result_callback l result 0)
    else (l, _call_op_result_callback l result) in
  (set_op l CMD_NONE, acts).

(** [_process_nak] on a payload. *)
Definition _process_nak (l : Legacy) (payload : PayloadHeader.t)
  : Legacy * list LegacyAction :=
  let sr := nth 0 (PayloadHeader.data payload) 0 in
  let sr :=
    if (sr =? ERR_FAIL_ERRNO)
       && (nth 1 (PayloadHeader.data payload) 0 =? ENOENT)
    then ERR_FAIL_FILE_DOES_NOT_EXIST else sr in
  _process_nak_result l sr.

Definition _calc_file_crc32_async (l : Legacy) (path : string)
  (callback : Crc32Callback) : Legacy * list LegacyAction :=
  if negb (_curr_op (engine l) =? CMD_NONE) then
    (l, run_crc32_callback callback Busy 0)
  else if str_length path >=? max_data_length then
    (l, run_crc32_callback callback InvalidParameter 0)
  else
    let p := PayloadHeader.zero in
    let '(seq, st) := next_seq_number (engine l) in
    let p := PayloadHeader.set_seq_number p seq in
    let p := PayloadHeader.set_session p 0 in
    let st := set_curr_op st CMD_CALC_FILE_CRC32 in
    let p := PayloadHeader.set_opcode p CMD_CALC_FILE_CRC32 in
    let p := PayloadHeader.set_offset p 0 in
    let p := PayloadHeader.set_data p
               (strncpy (PayloadHeader.data p) 0 (bytes_of_string path)
                        (Z.to_nat (max_data_length - 1))) in
    let p := PayloadHeader.set_size p (u8 (str_length path + 1)) in
    let l := set_current_crc32_result_callback (set_engine l st)
               (Some callback) in
    (l, [Act StartTimer; Act (Send p)]).

(** [are_files_identical_async]; [local] is what [_calc_local_file_crc32]
    returns for the local file: its result and the checksum. *)
Definition are_files_identical_async (l : Legacy) (local : ClientResult * Z)
  (remote_path : string) (callback : option CallbackId)
  : Legacy * list LegacyAction :=
  match callback with
  | None => (l, [])
  | Some cb =>
      let '(result_local, crc_local) := local in
      if negb (ClientResult_eqb result_local Success) then
        (l, [CallIdentical cb result_local false])
      else _calc_file_crc32_async l remote_path (CompareCrc32 crc_local cb)
  end.

(** [_generic_command_async], which nothing calls any more. *)
Definition _generic_command_async (st : Engine) (opcode offset : Z)
  (path : string) : Engine * list Action :=
  let p := PayloadHeader.zero in
  let '(seq, st) := next_seq_number st in
  let p := PayloadHeader.set_seq_number p seq in
  let p := PayloadHeader.set_session p 0 in
  let p := PayloadHeader.set_opcode p opcode in
  let p := PayloadHeader.set_offset p offset in
  let p := PayloadHeader.set_data p
             (strncpy (PayloadHeader.data p) 0 (bytes_of_string path)
                      (Z.to_nat (max_data_length - 1))) in
  let p := PayloadHeader.set_size p (u8 (str_length path + 1)) in
  (st, [Send p]).

(** ** Directory entries on the wire *)

(** The entries one after the other, each followed by its NUL. *)
Definition encode_entries (es : list string) : list Z :=
  List.concat (map (fun e => bytes_of_string e ++ [0]) es).

(** The entries [_work_list] gets into a payload when [offset] bytes of it
    are taken: the longest prefix of [es] that fits with its terminators. *)
Fixpoint fit_entries (es : list string) (offset : Z) : list string :=
  match es with
  | [] => []
  | e :: r =>
      if offset + str_length e + 1 >? max_data_length then []
      else e :: fit_entries r (offset + str_length e + 1)
  end.

(** A string without a NUL character. *)
Definition nul_free (s : string) : Prop :=
  Forall (fun b => b <> 0) (bytes_of_string s).

(** ** Concrete servers, filesystems and requests *)

(** The directory the concrete filesystem lists everywhere: a file, a
    hidden directory and a directory. *)
Definition dirents_ok : list Dirent :=
  [mkDirent "a.txt" true false; mkDirent ".git" false true;
   mkDirent "logs" false true].

(** A filesystem on which everything exists and succeeds: paths are
    canonical as they are, every file has 1000 bytes, [open] returns
    descriptor 3, a read delivers 239 bytes of value 170 and a write takes
    all it is given. *)
Definition fs_ok : Fs :=
  mkFs (fun p => p) (fun _ => true) (fun _ => 1000) (fun _ => true)
       (fun _ => true) (fun _ _ => true) (fun _ _ => (3, 0))
       (fun _ off => off) (fun _ _ => Some (repeat 170 239))
       (fun _ _ bytes => Z.of_nat (List.length bytes))
       (fun _ => Some dirents_ok)
       (fun _ => Some "/tmp/mavsdk-mavlink-ftp-tmp-files"%string)
       (fun _ _ => true).

(** The same filesystem, on which /srv/../etc is canonically /etc. *)
Definition fs_dotdot : Fs :=
  mkFs (fun p => if String.eqb p "/srv/../etc" then "/etc"%string else p)
       (os_exists fs_ok) (os_file_size fs_ok) (os_remove fs_ok)
       (os_create_directory fs_ok) (os_rename fs_ok) (os_open fs_ok)
       (os_lseek fs_ok) (os_read fs_ok) (os_write fs_ok) (os_readdir fs_ok)
       (os_create_tmp_directory fs_ok) (os_write_file fs_ok).

(** A server rooted at /srv with no file open and nothing staged. *)
Definition server_idle : Server :=
  mkServer (mkSessionInfo (-1) 0 false 0 0 0 0) "/srv" EmptyString [] 1.

(** The same server with descriptor 3 open on a file of 1000 bytes. *)
Definition server_open : Server :=
  mkServer (mkSessionInfo 3 1000 false 0 0 0 0) "/srv" EmptyString [] 1.

(** A request for session 0 whose data are the bytes of [s]. *)
Definition request (opcode offset : Z) (s : string) : PayloadHeader.t :=
  PayloadHeader.mk 1 0 opcode (str_length s) 0 0 0 offset
                   (pad_data (bytes_of_string s)).

(** The older interface at rest, with a progress callback registered. *)
Definition legacy_idle : Legacy :=
  mkLegacy (idle_engine 0) false 0 0 0 (-1) (Some 1%nat) None false
           EmptyString [].

(** The older interface after [list_directory_async] of /logs. *)
Definition legacy_listing : Legacy :=
  set_engine legacy_idle
    (fst (list_directory_async (idle_engine 0) "/logs" 1%nat 0)).

(** An upload of a local file of 339 bytes whose OPEN_FILE_WO is out. *)
Definition uploading : Engine :=
  fst (run (fst (upload_async (idle_engine 0) "/tmp/f.bin" "/remote" 1%nat))
           [EvDoWork (mkEnv true true 339 [])]).

(** ** Properties *)

(** *** Helper facts *)

(** A message that passes the filters is visited by the head work; what
    the visitor returns decides the new head. *)
Lemma accepted_by_visit (st : Engine) (msg : FtpMessage) (work : Work.t)
  (rest : list Work.t) (env : Env) :
  accepted_by st msg work rest ->
  process_mavlink_ftp_message st msg env =
  let '(st', work', popped, acts) :=
    process_visit st work (msg_payload msg) env in
  (set_work_queue st'
     (if popped then rest
      else Work.set_last_seq_number work'
             (PayloadHeader.seq_number (msg_payload msg)) :: rest),
   acts).
Proof.
  intros [[Hs Hc] [Hsize [Hq [Hop Hseq]]]].
  unfold process_mavlink_ftp_message.
  replace (negb (target_system msg =? 0)
           && negb (target_system msg =? own_system_id st)) with false
    by (destruct Hs as [-> | ->]; [reflexivity|];
        rewrite Z.eqb_refl; now rewrite andb_false_r).
  replace (negb (target_component msg =? 0)
           && negb (target_component msg =? own_component_id st)) with false
    by (destruct Hc as [-> | ->]; [reflexivity|];
        rewrite Z.eqb_refl; now rewrite andb_false_r).
  replace (PayloadHeader.size (msg_payload msg) >? max_data_length) with false
    by (symmetry; rewrite Z.gtb_ltb; apply Z.ltb_ge; exact Hsize).
  unfold process_front_work. rewrite Hq, Hop, Z.eqb_refl. cbn [negb].
  destruct Hseq as [H0 | Hne].
  - rewrite H0. reflexivity.
  - apply Z.eqb_neq in Hne. rewrite Hne, andb_false_r. reflexivity.
Qed.

(** *** Server results *)

Lemma case_labels_distinct_last :
  case_labels_distinct ->
  ERR_TIMEOUT <> ERR_FAIL_FILE_DOES_NOT_EXIST
  /\ ERR_FILE_IO_ERROR <> ERR_FAIL_FILE_DOES_NOT_EXIST.
Proof.
  unfold case_labels_distinct. intros H.
  inversion_clear H as [|? ? _ H1].
  inversion_clear H1 as [|? ? Ha H2].
  inversion_clear H2 as [|? ? Hb _].
  split; intros E.
  - apply Ha. rewrite E. simpl. tauto.
  - apply Hb. rewrite E. simpl. tauto.
Qed.

Lemma _translate_unmapped (sr : Z) :
  ~ In sr [SUCCESS; ERR_TIMEOUT; ERR_FILE_IO_ERROR; ERR_FAIL_FILE_EXISTS;
           ERR_FAIL_FILE_PROTECTED; ERR_UNKOWN_COMMAND;
           ERR_FAIL_FILE_DOES_NOT_EXIST] ->
  _translate sr = ProtocolError.
Proof.
  intros H. unfold _translate.
  repeat match goal with
  | |- context [?a =? ?b] =>
      destruct (Z.eqb_spec a b) as [E|_];
      [exfalso; apply H; rewrite E; simpl; tauto|]
  end.
  reflexivity.
Qed.

Lemma _translate_does_not_exist :
  case_labels_distinct ->
  _translate ERR_FAIL_FILE_DOES_NOT_EXIST = FileDoesNotExist.
Proof.
  intros H. destruct (case_labels_distinct_last H) as [Ha Hb].
  unfold _translate.
  destruct (Z.eqb_spec ERR_FAIL_FILE_DOES_NOT_EXIST ERR_TIMEOUT) as [E|_];
    [now symmetry in E|].
  destruct (Z.eqb_spec ERR_FAIL_FILE_DOES_NOT_EXIST ERR_FILE_IO_ERROR)
    as [E|_]; [now symmetry in E|].
  reflexivity.
Qed.

(** An accepted NAK ends the head item, download or upload alike: the timer
    is stopped, the item's callback gets [result_from_nak], the item is
    popped. *)
Lemma accepted_nak (st : Engine) (msg : FtpMessage) (work : Work.t)
  (rest : list Work.t) (env : Env) :
  accepted_by st msg work rest ->
  PayloadHeader.opcode (msg_payload msg) = RSP_NAK ->
  process_mavlink_ftp_message st msg env =
  (set_work_queue st rest,
   [StopTimer;
    Call (item_callback (Work.item work)) (result_from_nak (msg_payload msg))
         no_progress]).
Proof.
  intros Hacc Hnak. rewrite (accepted_by_visit _ _ _ _ env Hacc).
  unfold process_visit. rewrite Hnak.
  destruct (Work.item work); reflexivity.
Qed.

(** C7: a NAK whose first data byte is ERR_FAIL_ERRNO and whose second is
    ENOENT yields FileDoesNotExist, both as the value of [result_from_nak]
    and as the result the head item's callback receives; a server result
    that is none of the seven case labels of [_translate] yields
    ProtocolError.  The server result that is translated is the one the
    NAK carries: for every other NAK, [result_from_nak] is [_translate] of
    its first data byte, so a NAK whose code is none of the seven labels
    yields ProtocolError, as the value of [result_from_nak] and as the
    result the head item's callback receives. *)
Theorem nak_result_translation :
  case_labels_distinct ->
  (forall payload,
      nth 0 (PayloadHeader.data payload) 0 = ERR_FAIL_ERRNO ->
      nth 1 (PayloadHeader.data payload) 0 = ENOENT ->
      result_from_nak payload = FileDoesNotExist)
  /\ (forall st msg work rest env,
         accepted_by st msg work rest ->
         PayloadHeader.opcode (msg_payload msg) = RSP_NAK ->
         nth 0 (PayloadHeader.data (msg_payload msg)) 0 = ERR_FAIL_ERRNO ->
         nth 1 (PayloadHeader.data (msg_payload msg)) 0 = ENOENT ->
         snd (process_mavlink_ftp_message st msg env) =
         [StopTimer;
          Call (item_callback (Work.item work)) FileDoesNotExist no_progress])
  /\ (forall sr,
         ~ In sr [SUCCESS; ERR_TIMEOUT; ERR_FILE_IO_ERROR;
                  ERR_FAIL_FILE_EXISTS; ERR_FAIL_FILE_PROTECTED;
                  ERR_UNKOWN_COMMAND; ERR_FAIL_FILE_DOES_NOT_EXIST] ->
         _translate sr = ProtocolError)
  /\ (forall payload,
         nth 0 (PayloadHeader.data payload) 0 <> ERR_FAIL_ERRNO
         \/ nth 1 (PayloadHeader.data payload) 0 <> ENOENT ->
         result_from_nak payload
         = _translate (nth 0 (PayloadHeader.data payload) 0))
  /\ (forall payload,
         nth 0 (PayloadHeader.data payload) 0 <> ERR_FAIL_ERRNO
         \/ nth 1 (PayloadHeader.data payload) 0 <> ENOENT ->
         ~ In (nth 0 (PayloadHeader.data payload) 0)
              [SUCCESS; ERR_TIMEOUT; ERR_FILE_IO_ERROR;
               ERR_FAIL_FILE_EXISTS; ERR_FAIL_FILE_PROTECTED;
               ERR_UNKOWN_COMMAND; ERR_FAIL_FILE_DOES_NOT_EXIST] ->
         result_from_nak payload = ProtocolError)
  /\ (forall st msg work rest env,
         accepted_by st msg work rest ->
         PayloadHeader.opcode (msg_payload msg) = RSP_NAK ->
         nth 0 (PayloadHeader.data (msg_payload msg)) 0 <> ERR_FAIL_ERRNO
         \/ nth 1 (PayloadHeader.data (msg_payload msg)) 0 <> ENOENT ->
         ~ In (nth 0 (PayloadHeader.data (msg_payload msg)) 0)
              [SUCCESS; ERR_TIMEOUT; ERR_FILE_IO_ERROR;
               ERR_FAIL_FILE_EXISTS; ERR_FAIL_FILE_PROTECTED;
               ERR_UNKOWN_COMMAND; ERR_FAIL_FILE_DOES_NOT_EXIST] ->
         snd (process_mavlink_ftp_message st msg env) =
         [StopTimer;
          Call (item_callback (Work.item work)) ProtocolError no_progress]).
Proof.
  intros Hd.
  assert (Hr : forall payload,
             nth 0 (PayloadHeader.data payload) 0 = ERR_FAIL_ERRNO ->
             nth 1 (PayloadHeader.data payload) 0 = ENOENT ->
             result_from_nak payload = FileDoesNotExist).
  { intros payload H0 H1. unfold result_from_nak.
    rewrite H0, H1, !Z.eqb_refl. cbn [andb].
    now apply _translate_does_not_exist. }
  assert (Ht : forall payload,
             nth 0 (PayloadHeader.data payload) 0 <> ERR_FAIL_ERRNO
             \/ nth 1 (PayloadHeader.data payload) 0 <> ENOENT ->
             result_from_nak payload
             = _translate (nth 0 (PayloadHeader.data payload) 0)).
  { intros payload Hn. unfold result_from_nak.
    destruct Hn as [Hn|Hn]; apply Z.eqb_neq in Hn; rewrite Hn;
      [|rewrite andb_false_r]; reflexivity. }
  split; [exact Hr|]. split; [|split; [|split; [|split]]].
  - intros st msg work rest env Hacc Hnak H0 H1.
    rewrite (accepted_nak _ _ _ _ env Hacc Hnak). cbn [snd].
    now rewrite (Hr _ H0 H1).
  - exact _translate_unmapped.
  - exact Ht.
  - intros payload Hn Hout. rewrite (Ht _ Hn).
    now apply _translate_unmapped.
  - intros st msg work rest env Hacc Hnak Hn Hout.
    rewrite (accepted_nak _ _ _ _ env Hacc Hnak). cbn [snd].
    rewrite (Ht _ Hn). now rewrite (_translate_unmapped _ Hout).
Qed.

(** *** Duplicates *)

(** C1, as the code has it: a response whose seq_number equals the
    last_seq_number recorded on the head work is ignored (no callback, no
    send, no timer call, engine and queue unchanged) whenever that recorded
    number is not 0. *)
Theorem duplicate_response_ignored (st : Engine) (msg : FtpMessage)
  (env : Env) (work : Work.t) (rest : list Work.t) :
  _work_queue st = work :: rest ->
  Work.last_seq_number work <> 0 ->
  PayloadHeader.seq_number (msg_payload msg) = Work.last_seq_number work ->
  process_mavlink_ftp_message st msg env = (st, []).
Proof.
  intros Hq Hnz Hseq. unfold process_mavlink_ftp_message.
  destruct (negb (target_system msg =? 0) && _); [reflexivity|].
  destruct (negb (target_component msg =? 0) && _); [reflexivity|].
  destruct (PayloadHeader.size (msg_payload msg) >? max_data_length);
    [reflexivity|].
  unfold process_front_work. rewrite Hq.
  destruct (negb (Work.last_opcode work =? _)); [reflexivity|].
  rewrite Hseq, Z.eqb_refl.
  apply Z.eqb_neq in Hnz. now rewrite Hnz.
Qed.

(** *** Addressing *)

(** C10, as the code has it: a message reaches the work queue exactly when
    each of its target ids is 0 or the engine's own and its size byte is at
    most [max_data_length]; any other message is dropped whatever the queue
    holds. *)
Theorem inbound_filter (st : Engine) (msg : FtpMessage) (env : Env) :
  (addressed_to st msg
   /\ PayloadHeader.size (msg_payload msg) <= max_data_length ->
   process_mavlink_ftp_message st msg env =
   process_front_work st (msg_payload msg) env)
  /\ (~ (addressed_to st msg
         /\ PayloadHeader.size (msg_payload msg) <= max_data_length) ->
      forall q,
        process_mavlink_ftp_message (set_work_queue st q) msg env =
        (set_work_queue st q, [])).
Proof.
  unfold addressed_to, process_mavlink_ftp_message. split.
  - intros [[Hs Hc] Hsize].
    destruct (Z.eqb_spec (target_system msg) 0) as [E0|N0];
      destruct (Z.eqb_spec (target_system msg) (own_system_id st)) as [E1|N1];
      cbn [negb andb]; try (exfalso; tauto);
    destruct (Z.eqb_spec (target_component msg) 0) as [E2|N2];
      destruct (Z.eqb_spec (target_component msg) (own_component_id st))
        as [E3|N3];
      cbn [negb andb]; try (exfalso; tauto);
    (replace (PayloadHeader.size (msg_payload msg) >? max_data_length)
       with false
       by (symmetry; rewrite Z.gtb_ltb; apply Z.ltb_ge; exact Hsize));
    reflexivity.
  - intros Hn q.
    replace (own_system_id (set_work_queue st q)) with (own_system_id st)
      by reflexivity.
    replace (own_component_id (set_work_queue st q))
      with (own_component_id st) by reflexivity.
    destruct (Z.eqb_spec (target_system msg) 0) as [E0|N0];
      destruct (Z.eqb_spec (target_system msg) (own_system_id st)) as [E1|N1];
      cbn [negb andb]; try reflexivity;
    destruct (Z.eqb_spec (target_component msg) 0) as [E2|N2];
      destruct (Z.eqb_spec (target_component msg) (own_component_id st))
        as [E3|N3];
      cbn [negb andb]; try reflexivity;
    (destruct (Z.gtb_spec (PayloadHeader.size (msg_payload msg))
                          max_data_length) as [G|G];
     [reflexivity | exfalso; apply Hn; repeat split; auto; lia]).
Qed.

(** *** NAKs of a download *)

(** C3, as the code has it: every accepted NAK of a download, one carrying
    ERR_EOF in the read loop included, stops the timer, completes the item
    with [result_from_nak] of the payload and pops it.  For ERR_EOF that
    result is never Success; it is ProtocolError as soon as ERR_EOF is not
    the number of one of the two client-side enumerators. *)
Theorem download_nak_translated (st : Engine) (msg : FtpMessage) (env : Env)
  (work : Work.t) (rest : list Work.t) (item : DownloadItem.t) :
  accepted_by st msg work rest ->
  Work.item work = IDownload item ->
  PayloadHeader.opcode (msg_payload msg) = RSP_NAK ->
  process_mavlink_ftp_message st msg env =
  (set_work_queue st rest,
   [StopTimer;
    Call (DownloadItem.callback item) (result_from_nak (msg_payload msg))
         no_progress])
  /\ (nth 0 (PayloadHeader.data (msg_payload msg)) 0 = ERR_EOF ->
      result_from_nak (msg_payload msg) <> Success
      /\ (ERR_TIMEOUT <> ERR_EOF -> ERR_FILE_IO_ERROR <> ERR_EOF ->
          result_from_nak (msg_payload msg) = ProtocolError)).
Proof.
  intros Hacc Hitem Hnak. split.
  - rewrite (accepted_nak _ _ _ _ env Hacc Hnak), Hitem. reflexivity.
  - intros Heof. unfold result_from_nak. rewrite Heof.
    change (ERR_EOF =? ERR_FAIL_ERRNO) with false. cbn [andb].
    unfold _translate. change (ERR_EOF =? SUCCESS) with false.
    change (ERR_EOF =? ERR_FAIL_FILE_EXISTS) with false.
    change (ERR_EOF =? ERR_FAIL_FILE_PROTECTED) with false.
    change (ERR_EOF =? ERR_UNKOWN_COMMAND) with false.
    change (ERR_EOF =? ERR_FAIL_FILE_DOES_NOT_EXIST) with false.
    split.
    + destruct (ERR_EOF =? ERR_TIMEOUT); [discriminate|].
      destruct (ERR_EOF =? ERR_FILE_IO_ERROR); discriminate.
    + intros Ha Hb.
      destruct (Z.eqb_spec ERR_EOF ERR_TIMEOUT) as [E|_];
        [now symmetry in E|].
      destruct (Z.eqb_spec ERR_EOF ERR_FILE_IO_ERROR) as [E|_];
        [now symmetry in E|].
      reflexivity.
Qed.

(** *** The retry timer *)

Lemma timeout_head (st : Engine) (work : Work.t) (rest : list Work.t) :
  _work_queue st = work :: rest ->
  timeout st = timeout_visit st work rest (item_callback (Work.item work)).
Proof.
  intros Hq. unfold timeout. rewrite Hq.
  destruct (Work.item work); reflexivity.
Qed.

Lemma retries_set_retries (w : Work.t) (v : Z) :
  Work.retries (Work.set_retries w v) = v.
Proof. reflexivity. Qed.

(** With an empty queue nothing that arrives does anything. *)
Lemma empty_queue_passive (st : Engine) (evs : list Event) :
  _work_queue st = [] ->
  forallb passive evs = true ->
  run st evs = (st, []).
Proof.
  intros Hq. induction evs as [|ev evs IH]; intros Hp; [reflexivity|].
  cbn [forallb] in Hp. apply andb_prop in Hp as [Hev Hevs].
  assert (Hstep : step st ev = (st, [])).
  { destruct ev; try discriminate; cbn [step].
    - unfold do_work. now rewrite Hq.
    - unfold process_mavlink_ftp_message, process_front_work. rewrite Hq.
      destruct (negb (target_system msg =? 0) && _); [reflexivity|].
      destruct (negb (target_component msg =? 0) && _); [reflexivity|].
      now destruct (PayloadHeader.size (msg_payload msg) >? max_data_length).
    - unfold timeout. now rewrite Hq. }
  cbn [run]. rewrite Hstep, (IH Hevs). reflexivity.
Qed.

(** A head work with [S n] retries left that hears nothing: [n] fires
    resend the stored payload, the next one completes it with Timeout. *)
Lemma timeout_run (n : nat) : forall (st : Engine) (work : Work.t)
  (rest : list Work.t),
  _work_queue st = work :: rest ->
  Work.retries work = Z.of_nat (S n) ->
  Z.of_nat (S n) < 4294967296 ->
  run st (repeat EvTimeout (S n)) =
  (set_work_queue st rest,
   List.concat (repeat [StartTimer; Send (Work.payload work)] n)
   ++ [Call (item_callback (Work.item work)) Timeout no_progress]).
Proof.
  induction n as [|n IH]; intros st work rest Hq Hr Hlt.
  - cbn [repeat run step]. rewrite (timeout_head _ _ _ Hq).
    unfold timeout_visit. cbv zeta. rewrite retries_set_retries, Hr.
    reflexivity.
  - change (repeat EvTimeout (S (S n)))
      with (EvTimeout :: repeat EvTimeout (S n)).
    cbn [run step]. rewrite (timeout_head _ _ _ Hq).
    unfold timeout_visit. cbv zeta. rewrite retries_set_retries.
    assert (Hu : u32 (Work.retries work - 1) = Z.of_nat (S n)).
    { rewrite Hr. unfold u32. rewrite Z.mod_small; lia. }
    rewrite Hu.
    destruct (Z.eqb_spec (Z.of_nat (S n)) 0) as [E|_]; [lia|].
    rewrite (IH (set_work_queue st
                   (Work.set_retries work (Z.of_nat (S n)) :: rest))
                (Work.set_retries work (Z.of_nat (S n))) rest);
      [|reflexivity|reflexivity|lia].
    reflexivity.
Qed.

(** C5, as the code has it: a timer fire with a head work decrements its
    retries; at zero the item's callback gets Timeout and the item is
    popped, without a send; otherwise the stored payload is resent as it is
    and the timer is started again.  A work with [S n] retries is therefore
    resent [n] times before the Timeout, so that the default of RETRIES = 4
    gives 3 resends, 4 transmissions with the first send; once the item is
    popped from a queue that held only it, no message, fire or tick
    produces any action. *)
Theorem timeout_retry_budget (st : Engine) (work : Work.t)
  (rest : list Work.t) :
  _work_queue st = work :: rest ->
  (u32 (Work.retries work - 1) = 0 ->
   timeout st =
   (set_work_queue st rest,
    [Call (item_callback (Work.item work)) Timeout no_progress]))
  /\ (u32 (Work.retries work - 1) <> 0 ->
      timeout st =
      (set_work_queue st
         (Work.set_retries work (u32 (Work.retries work - 1)) :: rest),
       [StartTimer; Send (Work.payload work)]))
  /\ (forall n : nat,
         Work.retries work = Z.of_nat (S n) ->
         Z.of_nat (S n) < 4294967296 ->
         run st (repeat EvTimeout (S n)) =
         (set_work_queue st rest,
          List.concat (repeat [StartTimer; Send (Work.payload work)] n)
          ++ [Call (item_callback (Work.item work)) Timeout no_progress]))
  /\ (Work.retries work = RETRIES ->
      count is_send (snd (run st (repeat EvTimeout 4))) = 3%nat
      /\ last (snd (run st (repeat EvTimeout 4))) StartTimer =
         Call (item_callback (Work.item work)) Timeout no_progress)
  /\ (forall evs,
         rest = [] -> forallb passive evs = true ->
         run (set_work_queue st rest) evs = (set_work_queue st rest, [])).
Proof.
  intros Hq. repeat split.
  - intros H0. rewrite (timeout_head _ _ _ Hq). unfold timeout_visit.
    cbv zeta. rewrite retries_set_retries. now rewrite H0.
  - intros Hn. rewrite (timeout_head _ _ _ Hq). unfold timeout_visit.
    cbv zeta. rewrite retries_set_retries.
    apply Z.eqb_neq in Hn. now rewrite Hn.
  - intros n. now apply timeout_run.
  - rewrite (timeout_run 3 st work rest Hq H); [reflexivity | reflexivity].
  - rewrite (timeout_run 3 st work rest Hq H); [reflexivity | reflexivity].
  - intros evs -> Hp. now apply empty_queue_passive.
Qed.

(** *** The retry counter on an ACK *)

Lemma terminate_session_request_spec (st : Engine) (work : Work.t) :
  exists st' p,
    terminate_session_request st work =
    (st', Work.set_payload (Work.set_last_opcode work CMD_TERMINATE_SESSION) p,
     [StartTimer; Send p]).
Proof. unfold terminate_session_request. cbn. eauto. Qed.

(** [download_continue] leaves the retry counter alone, and sends a request
    exactly when it returns [true]. *)
Lemma download_continue_retries (st : Engine) (work : Work.t)
  (item : DownloadItem.t) (payload : PayloadHeader.t) (env : Env) :
  exists ok st' work' item' acts,
    download_continue st work item payload env = (ok, st', work', item', acts)
    /\ Work.retries work' = Work.retries work
    /\ existsb is_send acts = ok.
Proof.
  unfold download_continue.
  destruct (download_absorb item payload env) as [[go_on item1] acts1] eqn:Ha.
  assert (Hacts : existsb is_send acts1 = false).
  { unfold download_absorb in Ha.
    repeat match type of Ha with
    | context [if ?c then _ else _] => destruct c
    end; inversion Ha; reflexivity. }
  destruct go_on; cbn [negb].
  - destruct (DownloadItem.bytes_transferred item1
              <? DownloadItem.file_size item1).
    + cbn. do 5 eexists. split; [reflexivity|]. split; [reflexivity|].
      rewrite existsb_app. cbn. now rewrite orb_true_r.
    + destruct (terminate_session_request_spec st work) as (st' & p & Ht).
      rewrite Ht. do 5 eexists. split; [reflexivity|].
      split; [reflexivity|].
      rewrite existsb_app. cbn. now rewrite orb_true_r.
  - do 5 eexists. split; [reflexivity|]. split; [reflexivity|]. exact Hacts.
Qed.

Lemma upload_continue_retries (st : Engine) (work : Work.t)
  (item : UploadItem.t) (env : Env) :
  exists ok st' work' item' acts,
    upload_continue st work item env = (ok, st', work', item', acts)
    /\ Work.retries work' = Work.retries work
    /\ existsb is_send acts = ok.
Proof.
  unfold upload_continue.
  destruct (UploadItem.bytes_transferred item <? UploadItem.file_size item).
  - cbn -[PayloadHeader.zero read_into]. destruct (stream_ok env); cbn [negb].
    + do 5 eexists. split; [reflexivity|]. split; reflexivity.
    + do 5 eexists. split; [reflexivity|]. split; reflexivity.
  - destruct (terminate_session_request_spec st work) as (st' & p & Ht).
    rewrite Ht. do 5 eexists. split; [reflexivity|]. split; reflexivity.
Qed.

(** [download_continue] returns [false] exactly when the local stream
    fails, and has then invoked the callback with FileIoError and nothing
    else. *)
Lemma download_continue_fails (st : Engine) (work : Work.t)
  (item : DownloadItem.t) (payload : PayloadHeader.t) (env : Env)
  (ok : bool) (st' : Engine) (work' : Work.t) (item' : DownloadItem.t)
  (acts : list Action) :
  download_continue st work item payload env = (ok, st', work', item', acts) ->
  ok = negb (stream_fails (IDownload item) payload env)
  /\ (ok = false ->
      acts = [Call (DownloadItem.callback item) FileIoError no_progress]).
Proof.
  unfold download_continue, download_absorb, stream_fails. intros H.
  assert (Hgo : forall (item1 : DownloadItem.t) (acts1 : list Action),
             (if negb true then (false, st, work, item1, acts1)
              else if DownloadItem.bytes_transferred item1
                      <? DownloadItem.file_size item1
                   then
                     let work := Work.set_last_opcode work CMD_READ_FILE in
                     let p := Work.payload work in
                     let '(seq, st) := next_seq_number st in
                     let p := PayloadHeader.set_seq_number p seq in
                     let p := PayloadHeader.set_session p (_session st) in
                     let p := PayloadHeader.set_opcode p
                                (Work.last_opcode work) in
                     let p := PayloadHeader.set_offset p
                                (u32 (DownloadItem.bytes_transferred item1)) in
                     let p := PayloadHeader.set_size p
                                (u8 (Z.min max_data_length
                                       (DownloadItem.file_size item1
                                        - DownloadItem.bytes_transferred
                                            item1))) in
                     let work := Work.set_payload work p in
                     (true, st, work, item1, acts1 ++ [StartTimer; Send p])
                   else
                     let '(st, work, acts') :=
                       terminate_session_request st work in
                     (true, st, work, item1, acts1 ++ acts'))
             = (ok, st', work', item', acts) ->
             ok = true).
  { intros item1 acts1 Hx. cbn [negb] in Hx.
    destruct (DownloadItem.bytes_transferred item1
              <? DownloadItem.file_size item1).
    - cbn in Hx. now inversion Hx.
    - destruct (terminate_session_request_spec st work) as (s1 & p1 & Ht).
      rewrite Ht in Hx. now inversion Hx. }
  destruct (PayloadHeader.req_opcode payload =? CMD_OPEN_FILE_RO) eqn:E1.
  - apply Z.eqb_eq in E1. rewrite E1.
    change (CMD_OPEN_FILE_RO =? CMD_READ_FILE) with false.
    rewrite andb_false_l, andb_false_r. cbn [negb].
    apply Hgo in H. subst ok. split; [reflexivity | discriminate].
  - destruct (PayloadHeader.req_opcode payload =? CMD_READ_FILE) eqn:E2.
    + destruct (DownloadItem.bytes_transferred item
                <? DownloadItem.file_size item) eqn:E3.
      * destruct (stream_ok env); cbn [negb andb].
        -- apply Hgo in H. subst ok. split; [reflexivity | discriminate].
        -- cbn [negb] in H. inversion H. split; reflexivity.
      * rewrite !andb_false_r. cbn [negb].
        apply Hgo in H. subst ok. split; [reflexivity | discriminate].
    + rewrite andb_false_l, andb_false_r. cbn [negb].
      apply Hgo in H. subst ok. split; [reflexivity | discriminate].
Qed.

(** The same for [upload_continue]. *)
Lemma upload_continue_fails (st : Engine) (work : Work.t)
  (item : UploadItem.t) (env : Env)
  (ok : bool) (st' : Engine) (work' : Work.t) (item' : UploadItem.t)
  (acts : list Action) :
  upload_continue st work item env = (ok, st', work', item', acts) ->
  ok = negb (stream_fails (IUpload item) (Work.payload work) env)
  /\ (ok = false ->
      acts = [Call (UploadItem.callback item) FileIoError no_progress]).
Proof.
  unfold upload_continue, stream_fails. intros H.
  destruct (UploadItem.bytes_transferred item <? UploadItem.file_size item).
  - cbn -[PayloadHeader.zero read_into] in H.
    destruct (stream_ok env); cbn [negb andb] in *;
      inversion H; split; (reflexivity || discriminate).
  - destruct (terminate_session_request_spec st work) as (s1 & p1 & Ht).
    rewrite Ht in H. inversion H. rewrite andb_false_r.
    split; [reflexivity | discriminate].
Qed.

(** C9: an accepted ACK of OPEN_FILE_RO or READ_FILE on a download, or of
    OPEN_FILE_WO or WRITE_FILE on an upload, sets the head work's retries
    to RETRIES before the item continues.  Unless the local stream of the
    item fails in this step, the step sends the next request and leaves
    the head work in place with retries = RETRIES, whatever its retries
    were before; the only other outcome is that failure, on which the
    callback gets FileIoError, the timer is stopped and the item is popped
    without a send. *)
Theorem ack_resets_retries (st : Engine) (msg : FtpMessage) (env : Env)
  (work : Work.t) (rest : list Work.t) :
  accepted_by st msg work rest ->
  PayloadHeader.opcode (msg_payload msg) = RSP_ACK ->
  (exists item,
      Work.item work = IDownload item
      /\ (PayloadHeader.req_opcode (msg_payload msg) = CMD_OPEN_FILE_RO
          \/ PayloadHeader.req_opcode (msg_payload msg) = CMD_READ_FILE))
  \/ (exists item,
         Work.item work = IUpload item
         /\ (PayloadHeader.req_opcode (msg_payload msg) = CMD_OPEN_FILE_WO
             \/ PayloadHeader.req_opcode (msg_payload msg) = CMD_WRITE_FILE)) ->
  exists st' acts,
    process_mavlink_ftp_message st msg env = (st', acts)
    /\ ((stream_fails (Work.item work) (msg_payload msg) env = false
         /\ exists work',
              _work_queue st' = work' :: rest
              /\ Work.retries work' = RETRIES
              /\ existsb is_send acts = true)
        \/ (stream_fails (Work.item work) (msg_payload msg) env = true
            /\ _work_queue st' = rest
            /\ existsb is_send acts = false
            /\ acts = [Call (item_callback (Work.item work)) FileIoError
                            no_progress;
                       StopTimer])).
Proof.
  intros Hacc Hack Hkind.
  rewrite (accepted_by_visit _ _ _ _ env Hacc). unfold process_visit.
  rewrite Hack. change (RSP_ACK =? RSP_ACK) with true. cbv iota.
  destruct Hkind as [(item & Hitem & Hreq) | (item & Hitem & Hreq)];
    rewrite Hitem.
  - replace ((PayloadHeader.req_opcode (msg_payload msg) =? CMD_OPEN_FILE_RO)
             || (PayloadHeader.req_opcode (msg_payload msg) =? CMD_READ_FILE))
      with true by (destruct Hreq as [-> | ->]; reflexivity).
    destruct (download_continue_retries st (Work.set_retries work RETRIES)
                item (msg_payload msg) env)
      as (ok & st' & work' & item' & acts & Hc & Hr & Hs).
    destruct (download_continue_fails _ _ _ _ _ _ _ _ _ _ Hc) as [Hok Hacts].
    rewrite Hc. destruct ok.
    + do 2 eexists. split; [reflexivity|]. left.
      split; [now destruct (stream_fails _ _ _)|]. eexists.
      split; [destruct st'; reflexivity|]. split; [exact Hr | exact Hs].
    + do 2 eexists. split; [reflexivity|]. right.
      split; [now destruct (stream_fails _ _ _)|].
      split; [destruct st'; reflexivity|].
      split; [rewrite existsb_app, Hs; reflexivity|].
      rewrite (Hacts eq_refl). reflexivity.
  - replace ((PayloadHeader.req_opcode (msg_payload msg) =? CMD_OPEN_FILE_WO)
             || (PayloadHeader.req_opcode (msg_payload msg) =? CMD_WRITE_FILE))
      with true by (destruct Hreq as [-> | ->]; reflexivity).
    destruct (upload_continue_retries st (Work.set_retries work RETRIES)
                item env)
      as (ok & st' & work' & item' & acts & Hc & Hr & Hs).
    destruct (upload_continue_fails _ _ _ _ _ _ _ _ _ Hc) as [Hok Hacts].
    assert (Hsf : stream_fails (IUpload item) (msg_payload msg) env
                  = negb ok) by (rewrite Hok, negb_involutive; reflexivity).
    rewrite Hc. destruct ok.
    + do 2 eexists. split; [reflexivity|]. left.
      split; [exact Hsf|]. eexists.
      split; [destruct st'; reflexivity|]. split; [exact Hr | exact Hs].
    + do 2 eexists. split; [reflexivity|]. right.
      split; [exact Hsf|].
      split; [destruct st'; reflexivity|].
      split; [rewrite existsb_app, Hs; reflexivity|].
      rewrite (Hacts eq_refl). reflexivity.
Qed.

(** *** What the download path leaves out *)

(** [read_u32] reads its four bytes least significant first. *)
Lemma read_u32_little_endian (v : Z) (tail : list Z) :
  0 <= v < 4294967296 ->
  read_u32 (u32_bytes v ++ tail) = v.
Proof.
  intros Hv. unfold read_u32, u32_bytes. cbn [app nth].
  pose proof (Z.div_mod v 256 ltac:(lia)) as H1.
  pose proof (Z.div_mod (v / 256) 256 ltac:(lia)) as H2.
  pose proof (Z.div_mod (v / 256 / 256) 256 ltac:(lia)) as H3.
  rewrite (Z.div_div v 256 256) in H2, H3 by lia.
  rewrite (Z.div_div v (256 * 256) 256) in H3 by lia.
  change (256 * 256) with 65536 in *. change (65536 * 256) with 16777216 in *.
  assert (H4 : v / 16777216 mod 256 = v / 16777216).
  { apply Z.mod_small. split; [apply Z.div_pos; lia|].
    apply Z.div_lt_upper_bound; lia. }
  lia.
Qed.

(** On the ACK of OPEN_FILE_RO the item takes its file size from the first
    four data bytes and nothing else changes on it. *)
Lemma download_absorb_open (item : DownloadItem.t) (payload : PayloadHeader.t)
  (env : Env) :
  PayloadHeader.req_opcode payload = CMD_OPEN_FILE_RO ->
  download_absorb item payload env =
  (true,
   DownloadItem.set_file_size item (read_u32 (PayloadHeader.data payload)),
   []).
Proof. intros H. unfold download_absorb. now rewrite H. Qed.

(** On the ACK of READ_FILE, with the local write succeeding, the callback
    gets exactly one Next whatever [last_progress_percentage] holds. *)
Lemma download_absorb_read_ticks (item : DownloadItem.t)
  (payload : PayloadHeader.t) (env : Env) :
  PayloadHeader.req_opcode payload = CMD_READ_FILE ->
  stream_ok env = true ->
  exists item' pd,
    download_absorb item payload env =
    (true, item', [Call (DownloadItem.callback item) Next pd])
    /\ DownloadItem.last_progress_percentage item' =
       DownloadItem.last_progress_percentage item.
Proof.
  intros Hreq Hok. unfold download_absorb. rewrite Hreq, Hok.
  change (CMD_READ_FILE =? CMD_OPEN_FILE_RO) with false.
  change (CMD_READ_FILE =? CMD_READ_FILE) with true. cbn [negb].
  destruct (DownloadItem.bytes_transferred item <? DownloadItem.file_size item);
    do 2 eexists; split; reflexivity.
Qed.

(** [download_start] sends its request whenever the local file opens, with
    no regard to the length of the remote path. *)
Lemma download_start_sends (st : Engine) (work : Work.t)
  (item : DownloadItem.t) (env : Env) :
  stream_ok env = true ->
  exists st' work' item' p,
    download_start st work item env =
    (true, st', work', item', [StartTimer; Send p])
    /\ PayloadHeader.size p = u8 (str_length (DownloadItem.remote_path item) + 1).
Proof.
  intros Hok. unfold download_start. rewrite Hok. cbn [negb].
  do 4 eexists. split; reflexivity.
Qed.

(** [download_continue] never assigns [_session]. *)
Lemma download_continue_session (st : Engine) (work : Work.t)
  (item : DownloadItem.t) (payload : PayloadHeader.t) (env : Env) :
  _session (snd (fst (fst (fst (download_continue st work item payload env)))))
  = _session st.
Proof.
  unfold download_continue.
  destruct (download_absorb item payload env) as [[go_on item1] acts1].
  destruct go_on; cbn [negb]; [|reflexivity].
  destruct (DownloadItem.bytes_transferred item1
            <? DownloadItem.file_size item1); reflexivity.
Qed.

(** C6: the session byte of an inbound payload is never read, so the
    session the server returns in its ACK of OPEN_FILE_RO is not stored:
    with a server session of 7 the engine keeps [_session] = 0 and sends
    READ_FILE and TERMINATE_SESSION with session 0.  The file size is read
    from the first four data bytes, and a file of size 0 goes straight to
    TERMINATE_SESSION. *)
Theorem server_session_ignored :
  (forall st ts tc p sess env,
      process_mavlink_ftp_message st
        (mkFtpMessage ts tc (PayloadHeader.set_session p sess)) env =
      process_mavlink_ftp_message st (mkFtpMessage ts tc p) env)
  /\ _session
       (fst (process_mavlink_ftp_message (opening 0) (ack_open 1 7 50) env_ok))
     = 0
  /\ map request_summary
       (sent (snd (run (opening 0)
                       [EvMessage (ack_open 1 7 50) env_ok;
                        EvMessage (ack_read 2 7 0 50) env_ok]))) =
     [(CMD_READ_FILE, 0, 0, 50); (CMD_TERMINATE_SESSION, 0, 0, 0)]
  /\ map request_summary
       (sent (snd (run (opening 0) [EvMessage (ack_open 1 7 0) env_ok]))) =
     [(CMD_TERMINATE_SESSION, 0, 0, 0)].
Proof.
  split; [intros; reflexivity|].
  split; [vm_compute; reflexivity|].
  conjuncts; vm_compute; reflexivity.
Qed.

(** C8: every READ_FILE ACK of a download invokes the callback with Next;
    the percentage is neither computed nor compared.  With 239 of 100000
    bytes in, the next two ACKs leave the percentage at 0 and produce two
    Next invocations. *)
Theorem progress_not_throttled :
  progress_percentage 239 100000 = 0
  /\ progress_percentage 478 100000 = 0
  /\ progress_percentage 717 100000 = 0
  /\ results_of 1%nat
       (snd (run reading_large
                 [EvMessage (ack_read 3 0 239 239) env_ok;
                  EvMessage (ack_read 4 0 478 239) env_ok])) = [Next; Next]
  /\ count (is_next_of 1%nat)
       (snd (run reading_large
                 [EvMessage (ack_read 3 0 239 239) env_ok;
                  EvMessage (ack_read 4 0 478 239) env_ok])) = 2%nat.
Proof. conjuncts; vm_compute; reflexivity. Qed.

(** C4: [download_start] has no length check.  A remote path of 239
    characters is sent in an OPEN_FILE_RO frame whose size byte is 240, and
    no callback is invoked; [upload_start] and [list_directory_async]
    answer the same length with InvalidParameter and send nothing, and all
    three send a path of 238 characters. *)
Theorem download_long_path_sent :
  str_length long_path + 1 = 240
  /\ snd (run (idle_engine 0)
              [EvDownload long_path "/tmp/d" 1%nat; EvDoWork env_ok]) <> []
  /\ count is_call
       (snd (run (idle_engine 0)
                 [EvDownload long_path "/tmp/d" 1%nat; EvDoWork env_ok]))
     = 0%nat
  /\ map request_summary
       (sent (snd (run (idle_engine 0)
                       [EvDownload long_path "/tmp/d" 1%nat;
                        EvDoWork env_ok]))) =
     [(CMD_OPEN_FILE_RO, 0, 0, 240)]
  /\ map request_summary
       (sent (snd (run (idle_engine 0)
                       [EvDownload longest_path "/tmp/d" 1%nat;
                        EvDoWork env_ok]))) =
     [(CMD_OPEN_FILE_RO, 0, 0, 239)]
  /\ snd (run (idle_engine 0)
              [EvUpload "/l/ab" (substring 0 236 long_path) 1%nat;
               EvDoWork env_ok]) =
     [Call 1%nat InvalidParameter no_progress]
  /\ map request_summary
       (sent (snd (run (idle_engine 0)
                       [EvUpload "/l/ab" (substring 0 235 long_path) 1%nat;
                        EvDoWork env_ok]))) =
     [(CMD_OPEN_FILE_WO, 0, 0, 239)]
  /\ snd (run (idle_engine 0) [EvListDirectory long_path 1%nat]) =
     [CallDirItems 1%nat InvalidParameter []]
  /\ map request_summary
       (sent (snd (run (idle_engine 0) [EvListDirectory longest_path 1%nat])))
     = [(CMD_LIST_DIRECTORY, 0, 0, 239)].
Proof.
  split; [vm_compute; reflexivity|].
  split; [vm_compute; discriminate|].
  conjuncts; vm_compute; reflexivity.
Qed.

(** *** The entry points that do not complete *)

(** C2: [create_directory_async], [remove_directory_async] and
    [remove_file_async] are no-ops: whatever follows, the run is the one
    without the call, so they send no request and their callback is never
    invoked.  [rename_async] and [reset_async] send their one request, but
    its ACK, like any later message, fire or tick, invokes no callback. *)
Theorem directory_mutations_are_noops :
  (forall st path cb evs,
      run st (EvCreateDirectory path cb :: evs) = run st evs
      /\ run st (EvRemoveDirectory path cb :: evs) = run st evs
      /\ run st (EvRemoveFile path cb :: evs) = run st evs)
  /\ (forall path cb,
         run (idle_engine 0)
             [EvCreateDirectory path cb;
              EvMessage (response 1 0 RSP_ACK CMD_CREATE_DIRECTORY 0 0 [])
                        env_ok;
              EvTimeout; EvDoWork env_ok] = (idle_engine 0, []))
  /\ (forall cb,
         let acts :=
           snd (run (idle_engine 0)
                    [EvRename "/a" "/b" cb;
                     EvMessage (response 1 0 RSP_ACK CMD_RENAME 0 0 []) env_ok;
                     EvTimeout; EvDoWork env_ok]) in
         map request_summary (sent acts) = [(CMD_RENAME, 0, 0, 6)]
         /\ count is_call acts = 0%nat)
  /\ (forall cb,
         let acts :=
           snd (run (idle_engine 0)
                    [EvReset cb;
                     EvMessage (response 1 0 RSP_ACK CMD_RESET_SESSIONS 0 0 [])
                               env_ok;
                     EvTimeout; EvDoWork env_ok]) in
         map request_summary (sent acts) = [(CMD_RESET_SESSIONS, 0, 0, 0)]
         /\ count is_call acts = 0%nat).
Proof.
  split.
  { intros st path cb evs. cbn [run step].
    unfold create_directory_async, remove_directory_async, remove_file_async.
    destruct (run st evs); auto. }
  split; [intros; vm_compute; reflexivity|].
  split; intros cb; split; vm_compute; reflexivity.
Qed.


(** *** Sequence-number order *)

(** X1: on 16-bit numbers [seq_lt] is irreflexive and asymmetric, and every
    number is below its successor, the successor of 65535 being 0. *)
Theorem seq_lt_order (a b : Z) :
  0 <= a < 65536 -> 0 <= b < 65536 ->
  seq_lt a a = false
  /\ (seq_lt a b = true -> seq_lt b a = false)
  /\ seq_lt a (u16 (a + 1)) = true.
Proof.
  intros Ha Hb. unfold seq_lt. change (65535 / 2) with 32767.
  split; [|split].
  - rewrite Z.ltb_irrefl, Z.gtb_ltb, Z.ltb_irrefl. reflexivity.
  - rewrite !Z.gtb_ltb.
    destruct (Z.ltb_spec a b), (Z.ltb_spec b a),
             (Z.ltb_spec (b - a) 32767), (Z.ltb_spec 32767 (a - b)),
             (Z.ltb_spec (a - b) 32767), (Z.ltb_spec 32767 (b - a));
      cbn; intros; try reflexivity; try discriminate; lia.
  - unfold u16. rewrite !Z.gtb_ltb.
    destruct (Z.eq_dec a 65535) as [->|Hne]; [reflexivity|].
    rewrite (Z.mod_small (a + 1)) by lia.
    destruct (Z.ltb_spec a (a + 1)); [|lia].
    destruct (Z.ltb_spec (a + 1 - a) 32767); [reflexivity|lia].
Qed.

(** X2: two different 16-bit numbers are ordered one way or the other by
    [seq_lt] unless they are exactly 32767 apart, and then neither is below
    the other. *)
Theorem seq_lt_incomparable (a b : Z) :
  0 <= a < 65536 -> 0 <= b < 65536 -> a <> b ->
  (seq_lt a b = false /\ seq_lt b a = false) <-> Z.abs (a - b) = 32767.
Proof.
  intros Ha Hb Hne. unfold seq_lt. change (65535 / 2) with 32767.
  rewrite !Z.gtb_ltb.
  destruct (Z.ltb_spec a b), (Z.ltb_spec b a),
           (Z.ltb_spec (b - a) 32767), (Z.ltb_spec 32767 (a - b)),
           (Z.ltb_spec (a - b) 32767), (Z.ltb_spec 32767 (b - a));
    cbn; split; intros Hx; try lia;
    try (destruct Hx; discriminate); try (split; reflexivity).
Qed.

(** *** The shape of a step *)

Lemma same_frame_refl (st : Engine) : same_frame st st.
Proof. unfold same_frame. tauto. Qed.

Lemma same_frame_trans (st1 st2 st3 : Engine) :
  same_frame st1 st2 -> same_frame st2 st3 -> same_frame st1 st3.
Proof.
  unfold same_frame. intros H1 H2.
  decompose [and] H1. decompose [and] H2. repeat split; congruence.
Qed.

Lemma same_frame_next_seq_number (st : Engine) :
  same_frame st (snd (next_seq_number st)).
Proof. unfold same_frame. cbn. tauto. Qed.

Lemma same_frame_set_work_queue (st : Engine) (q : list Work.t) :
  same_frame st (set_work_queue st q).
Proof. unfold same_frame. cbn. tauto. Qed.

Ltac shape_done :=
  unfold outcome_shape, same_frame; cbn;
  repeat match goal with |- _ /\ _ => split end;
  try reflexivity; try (rewrite Nat.eqb_refl; reflexivity).

Lemma download_start_shape (st : Engine) (work : Work.t)
  (item : DownloadItem.t) (env : Env) :
  outcome_shape DownloadItem.callback st work item
    (download_start st work item env).
Proof.
  unfold download_start, next_seq_number.
  destruct (stream_ok env); cbn [negb]; shape_done.
Qed.

Lemma upload_start_shape (st : Engine) (work : Work.t)
  (item : UploadItem.t) (env : Env) :
  outcome_shape UploadItem.callback st work item
    (upload_start st work item env).
Proof.
  unfold upload_start, next_seq_number.
  destruct (fs_exists env); cbn [negb]; [|shape_done].
  destruct (stream_ok env); cbn [negb]; [|shape_done].
  destruct (str_length _ >=? max_data_length); shape_done.
Qed.

Lemma download_continue_shape (st : Engine) (work : Work.t)
  (item : DownloadItem.t) (payload : PayloadHeader.t) (env : Env) :
  outcome_shape DownloadItem.callback st work item
    (download_continue st work item payload env).
Proof.
  unfold download_continue, download_absorb, terminate_session_request,
    next_seq_number.
  destruct (PayloadHeader.req_opcode payload =? CMD_OPEN_FILE_RO).
  - cbn [negb].
    destruct (DownloadItem.bytes_transferred _ <? DownloadItem.file_size _);
      shape_done.
  - destruct (PayloadHeader.req_opcode payload =? CMD_READ_FILE).
    + destruct (DownloadItem.bytes_transferred item
                <? DownloadItem.file_size item).
      * destruct (stream_ok env); cbn [negb]; [|shape_done].
        destruct (DownloadItem.bytes_transferred _
                  <? DownloadItem.file_size _); shape_done.
      * cbn [negb].
        destruct (DownloadItem.bytes_transferred _
                  <? DownloadItem.file_size _); shape_done.
    + cbn [negb].
      destruct (DownloadItem.bytes_transferred _ <? DownloadItem.file_size _);
        shape_done.
Qed.

Lemma upload_continue_shape (st : Engine) (work : Work.t)
  (item : UploadItem.t) (env : Env) :
  outcome_shape UploadItem.callback st work item
    (upload_continue st work item env).
Proof.
  unfold upload_continue, terminate_session_request, next_seq_number.
  destruct (UploadItem.bytes_transferred item <? UploadItem.file_size item).
  - destruct (stream_ok env); cbn [negb]; shape_done.
  - shape_done.
Qed.

Lemma count_app {A : Type} (f : A -> bool) (l1 l2 : list A) :
  count f (l1 ++ l2) = (count f l1 + count f l2)%nat.
Proof. unfold count. now rewrite filter_app, length_app. Qed.

Lemma sent_app (l1 l2 : list Action) : sent (l1 ++ l2) = sent l1 ++ sent l2.
Proof. unfold sent. now rewrite flat_map_app. Qed.

Lemma calls_only_app (cb : CallbackId) (l1 l2 : list Action) :
  calls_only cb (l1 ++ l2) = calls_only cb l1 && calls_only cb l2.
Proof. unfold calls_only. now rewrite forallb_app. Qed.

(** [_translate] never yields the progress tick. *)
Lemma _translate_terminal (result : Z) :
  terminal_result (_translate result) = true.
Proof.
  unfold _translate.
  repeat match goal with
  | |- context [if ?c then _ else _] => destruct c
  end; reflexivity.
Qed.

Lemma result_from_nak_terminal (payload : PayloadHeader.t) :
  terminal_result (result_from_nak payload) = true.
Proof. unfold result_from_nak. apply _translate_terminal. Qed.

(** The visitor of an inbound message: it pops the head exactly when it
    reports a terminal result, and any request it sends is the one it
    leaves stored in the head. *)
Lemma process_visit_shape (st : Engine) (work : Work.t)
  (payload : PayloadHeader.t) (env : Env) :
  exists st' work' popped acts,
    process_visit st work payload env = (st', work', popped, acts)
    /\ calls_only (item_callback (Work.item work)) acts = true
    /\ item_callback (Work.item work') = item_callback (Work.item work)
    /\ count is_terminal_call acts = (if popped then 1 else 0)%nat
    /\ (if popped then sent acts = []
        else (sent acts = [] /\ _seq_number st' = _seq_number st)
             \/ (sent acts = [Work.payload work']
                 /\ PayloadHeader.seq_number (Work.payload work')
                    = _seq_number st
                 /\ _seq_number st' = u16 (_seq_number st + 1)))
    /\ same_frame st st'
    /\ _work_queue st' = _work_queue st
    /\ Work.started work' = Work.started work.
Proof.
  unfold process_visit. destruct (Work.item work) as [item|item] eqn:Hitem.
  - destruct (PayloadHeader.opcode payload =? RSP_ACK).
    + destruct ((PayloadHeader.req_opcode payload =? CMD_OPEN_FILE_RO)
                || (PayloadHeader.req_opcode payload =? CMD_READ_FILE)).
      * pose proof (download_continue_shape st (Work.set_retries work RETRIES)
                      item payload env) as Hs.
        destruct (download_continue st (Work.set_retries work RETRIES) item
                    payload env) as [[[[ok st'] work'] item'] acts].
        destruct Hs as (Hc & Hcb & Ht & Hsent & Hf & Hq & Hst & _ & _).
        destruct ok.
        -- do 4 eexists. split; [reflexivity|]. cbn [item_callback].
           repeat match goal with |- _ /\ _ => split end; auto.
        -- do 4 eexists. split; [reflexivity|]. cbn [item_callback].
           repeat match goal with |- _ /\ _ => split end; auto.
           ++ rewrite calls_only_app, Hc. reflexivity.
           ++ rewrite count_app, Ht. reflexivity.
           ++ rewrite sent_app, Hsent. reflexivity.
      * destruct (PayloadHeader.req_opcode payload =? CMD_TERMINATE_SESSION);
          do 4 eexists; (split; [reflexivity|]); rewrite Hitem;
          cbn [item_callback];
          repeat match goal with |- _ /\ _ => split end;
          auto using same_frame_refl;
          cbn; now rewrite Nat.eqb_refl.
    + destruct (PayloadHeader.opcode payload =? RSP_NAK);
        do 4 eexists; (split; [reflexivity|]); rewrite Hitem;
        cbn [item_callback];
        repeat match goal with |- _ /\ _ => split end;
        auto using same_frame_refl.
      * cbn. now rewrite Nat.eqb_refl.
      * unfold count. cbn. now rewrite result_from_nak_terminal.
  - destruct (PayloadHeader.opcode payload =? RSP_ACK).
    + destruct ((PayloadHeader.req_opcode payload =? CMD_OPEN_FILE_WO)
                || (PayloadHeader.req_opcode payload =? CMD_WRITE_FILE)).
      * pose proof (upload_continue_shape st (Work.set_retries work RETRIES)
                      item env) as Hs.
        destruct (upload_continue st (Work.set_retries work RETRIES) item env)
          as [[[[ok st'] work'] item'] acts].
        destruct Hs as (Hc & Hcb & Ht & Hsent & Hf & Hq & Hst & _ & _).
        destruct ok.
        -- do 4 eexists. split; [reflexivity|]. cbn [item_callback].
           repeat match goal with |- _ /\ _ => split end; auto.
        -- do 4 eexists. split; [reflexivity|]. cbn [item_callback].
           repeat match goal with |- _ /\ _ => split end; auto.
           ++ rewrite calls_only_app, Hc. reflexivity.
           ++ rewrite count_app, Ht. reflexivity.
           ++ rewrite sent_app, Hsent. reflexivity.
      * destruct (PayloadHeader.req_opcode payload =? CMD_TERMINATE_SESSION);
          do 4 eexists; (split; [reflexivity|]); rewrite Hitem;
          cbn [item_callback];
          repeat match goal with |- _ /\ _ => split end;
          auto using same_frame_refl;
          cbn; now rewrite Nat.eqb_refl.
    + destruct (PayloadHeader.opcode payload =? RSP_NAK);
        do 4 eexists; (split; [reflexivity|]); rewrite Hitem;
        cbn [item_callback];
        repeat match goal with |- _ /\ _ => split end;
        auto using same_frame_refl.
      * cbn. now rewrite Nat.eqb_refl.
      * unfold count. cbn. now rewrite result_from_nak_terminal.
Qed.

Lemma passive_step_empty (st : Engine) (ev : Event) :
  passive ev = true -> _work_queue st = [] -> step st ev = (st, []).
Proof.
  intros Hp Hq. destruct ev; try discriminate; cbn [step].
  - unfold do_work. now rewrite Hq.
  - unfold process_mavlink_ftp_message, process_front_work. rewrite Hq.
    destruct (negb (target_system msg =? 0) && _); [reflexivity|].
    destruct (negb (target_component msg =? 0) && _); [reflexivity|].
    now destruct (PayloadHeader.size (msg_payload msg) >? max_data_length).
  - unfold timeout. now rewrite Hq.
Qed.

(** What a tick, an inbound message or a timer fire does when the queue
    has a head: either the head is popped, with one terminal result and no
    send, or it stays, with no terminal result, and whatever was sent is
    stored in it. *)
Lemma passive_step_shape (st : Engine) (ev : Event) (w : Work.t)
  (rest : list Work.t) :
  passive ev = true ->
  _work_queue st = w :: rest ->
  exists st' acts,
    step st ev = (st', acts)
    /\ calls_only (item_callback (Work.item w)) acts = true
    /\ same_frame st st'
    /\ ((_work_queue st' = rest
         /\ count is_terminal_call acts = 1%nat
         /\ sent acts = []
         /\ (ev = EvTimeout -> _seq_number st' = _seq_number st))
        \/ (exists w',
               _work_queue st' = w' :: rest
               /\ item_callback (Work.item w') = item_callback (Work.item w)
               /\ count is_terminal_call acts = 0%nat
               /\ (Work.started w = true -> Work.started w' = true)
               /\ (sent acts = [] \/ sent acts = [Work.payload w'])
               /\ match ev with
                  | EvTimeout =>
                      _seq_number st' = _seq_number st
                      /\ sent acts = [Work.payload w]
                  | _ =>
                      (sent acts = [] /\ _seq_number st' = _seq_number st)
                      \/ (sent acts = [Work.payload w']
                          /\ PayloadHeader.seq_number (Work.payload w')
                             = _seq_number st
                          /\ _seq_number st' = u16 (_seq_number st + 1))
                  end)).
Proof.
  intros Hp Hq.
  assert (Hnop : exists st' acts,
             (st, @nil Action) = (st', acts)
             /\ calls_only (item_callback (Work.item w)) acts = true
             /\ same_frame st st'
             /\ ((_work_queue st' = rest
                  /\ count is_terminal_call acts = 1%nat
                  /\ sent acts = []
                  /\ (ev = EvTimeout -> _seq_number st' = _seq_number st))
                 \/ (exists w',
                        _work_queue st' = w' :: rest
                        /\ item_callback (Work.item w')
                           = item_callback (Work.item w)
                        /\ count is_terminal_call acts = 0%nat
                        /\ (Work.started w = true -> Work.started w' = true)
                        /\ (sent acts = [] \/ sent acts = [Work.payload w'])
                        /\ ((sent acts = [] /\ _seq_number st' = _seq_number st)
                            \/ (sent acts = [Work.payload w']
                                /\ PayloadHeader.seq_number (Work.payload w')
                                   = _seq_number st
                                /\ _seq_number st'
                                   = u16 (_seq_number st + 1)))))).
  { do 2 eexists. split; [reflexivity|]. split; [reflexivity|].
    split; [apply same_frame_refl|]. right. exists w.
    repeat match goal with |- _ /\ _ => split end; auto. }
  destruct ev; try discriminate; cbn [step].
  - (* do_work *)
    unfold do_work. rewrite Hq.
    destruct (Work.started w) eqn:Hst; [exact Hnop|]. clear Hnop.
    cbn [Work.item Work.set_started].
    destruct (Work.item w) as [item|item] eqn:Hitem.
    + pose proof (download_start_shape st (Work.set_started w true) item env)
        as Hs.
      destruct (download_start st (Work.set_started w true) item env)
        as [[[[ok st'] work'] item'] acts].
      destruct Hs as (Hc & Hcb & Ht & Hsent & Hf & Hq' & Hst' & _ & _).
      do 2 eexists. split; [reflexivity|]. cbn [item_callback].
      split; [exact Hc|].
      split; [eapply same_frame_trans;
              [exact Hf | apply same_frame_set_work_queue]|].
      destruct ok.
      * right. eexists. split; [reflexivity|]. cbn.
        destruct Hsent as (Hs1 & Hs2 & Hs3).
        repeat match goal with |- _ /\ _ => split end; auto.
      * left. repeat match goal with |- _ /\ _ => split end; auto.
        discriminate.
    + pose proof (upload_start_shape st (Work.set_started w true) item env)
        as Hs.
      destruct (upload_start st (Work.set_started w true) item env)
        as [[[[ok st'] work'] item'] acts].
      destruct Hs as (Hc & Hcb & Ht & Hsent & Hf & Hq' & Hst' & _ & _).
      do 2 eexists. split; [reflexivity|]. cbn [item_callback].
      split; [exact Hc|].
      split; [eapply same_frame_trans;
              [exact Hf | apply same_frame_set_work_queue]|].
      destruct ok.
      * right. eexists. split; [reflexivity|]. cbn.
        destruct Hsent as (Hs1 & Hs2 & Hs3).
        repeat match goal with |- _ /\ _ => split end; auto.
      * left. repeat match goal with |- _ /\ _ => split end; auto.
        discriminate.
  - (* process_mavlink_ftp_message *)
    unfold process_mavlink_ftp_message.
    destruct (negb (target_system msg =? 0) && _); [exact Hnop|].
    destruct (negb (target_component msg =? 0) && _); [exact Hnop|].
    destruct (PayloadHeader.size (msg_payload msg) >? max_data_length);
      [exact Hnop|].
    unfold process_front_work. rewrite Hq.
    destruct (negb (Work.last_opcode w =? _)); [exact Hnop|].
    destruct (negb (Work.last_seq_number w =? 0) && _); [exact Hnop|].
    clear Hnop.
    destruct (process_visit_shape st w (msg_payload msg) env)
      as (st' & work' & popped & acts & Hv & Hc & Hcb & Ht & Hsent & Hf
          & Hq' & Hst').
    rewrite Hv. do 2 eexists. split; [reflexivity|].
    split; [exact Hc|].
    split; [eapply same_frame_trans;
            [exact Hf | apply same_frame_set_work_queue]|].
    destruct popped.
    + left. repeat match goal with |- _ /\ _ => split end; auto.
      discriminate.
    + right. eexists. split; [reflexivity|]. cbn.
      repeat match goal with |- _ /\ _ => split end; auto.
      * congruence.
      * destruct Hsent as [[H1 _]|[H1 _]]; auto.
  - (* timeout *)
    clear Hnop. rewrite (timeout_head _ _ _ Hq). unfold timeout_visit.
    cbv zeta. rewrite retries_set_retries.
    destruct (u32 (Work.retries w - 1) =? 0).
    + do 2 eexists. split; [reflexivity|].
      split; [cbn; now rewrite Nat.eqb_refl|].
      split; [apply same_frame_set_work_queue|].
      left. repeat match goal with |- _ /\ _ => split end; auto.
    + do 2 eexists. split; [reflexivity|].
      split; [reflexivity|].
      split; [apply same_frame_set_work_queue|].
      right. eexists. split; [reflexivity|]. cbn.
      repeat match goal with |- _ /\ _ => split end; auto.
Qed.

(** *** What a step of the queue guarantees *)

(** X3: a [do_work] tick, an inbound message or a timer fire invokes no
    callback but the head item's, and removes the head from the queue
    exactly when it hands that callback a terminal result, which it then
    does once; otherwise the head stays, with the same callback, and the
    works behind it are untouched either way. *)
Theorem head_popped_iff_terminal_result (st : Engine) (ev : Event)
  (w : Work.t) (rest : list Work.t) :
  passive ev = true ->
  _work_queue st = w :: rest ->
  calls_only (item_callback (Work.item w)) (snd (step st ev)) = true
  /\ ((_work_queue (fst (step st ev)) = rest
       /\ count is_terminal_call (snd (step st ev)) = 1%nat)
      \/ (exists w',
             _work_queue (fst (step st ev)) = w' :: rest
             /\ item_callback (Work.item w') = item_callback (Work.item w)
             /\ count is_terminal_call (snd (step st ev)) = 0%nat)).
Proof.
  intros Hp Hq.
  destruct (passive_step_shape st ev w rest Hp Hq)
    as (st' & acts & Hstep & Hc & _ & Hcases).
  rewrite Hstep. cbn [fst snd]. split; [exact Hc|].
  destruct Hcases as [(Hq' & Ht & _) | (w' & Hq' & Hcb & Ht & _)].
  - left. auto.
  - right. exists w'. auto.
Qed.

(** X4: whatever a tick, an inbound message or a timer fire sends is a
    single payload, and it is the one stored in the head work after the
    step, so that the next timer fire resends exactly what was sent last;
    a step that pops the head sends nothing. *)
Theorem sent_payload_is_stored (st : Engine) (ev : Event) :
  passive ev = true ->
  sent (snd (step st ev)) = []
  \/ exists w' rest,
       _work_queue (fst (step st ev)) = w' :: rest
       /\ sent (snd (step st ev)) = [Work.payload w'].
Proof.
  intros Hp. destruct (_work_queue st) as [|w rest] eqn:Hq.
  - rewrite (passive_step_empty st ev Hp Hq). left. reflexivity.
  - destruct (passive_step_shape st ev w rest Hp Hq)
      as (st' & acts & Hstep & _ & _ & Hcases).
    rewrite Hstep. cbn [fst snd].
    destruct Hcases as [(_ & _ & Hs & _) | (w' & Hq' & _ & _ & _ & Hs & _)].
    + left. exact Hs.
    + destruct Hs as [Hs|Hs]; [left; exact Hs|].
      right. exists w', rest. auto.
Qed.

(** X5: a request sent by a [do_work] tick or on an inbound message
    carries the engine's sequence counter, which the step advances by one
    modulo 65536; a timer fire leaves the counter alone and sends nothing
    but the payload stored in the head. *)
Theorem requests_numbered_from_counter (st : Engine) (ev : Event)
  (p : PayloadHeader.t) :
  passive ev = true ->
  In p (sent (snd (step st ev))) ->
  match ev with
  | EvTimeout =>
      _seq_number (fst (step st ev)) = _seq_number st
      /\ exists w rest, _work_queue st = w :: rest /\ p = Work.payload w
  | _ =>
      PayloadHeader.seq_number p = _seq_number st
      /\ _seq_number (fst (step st ev)) = u16 (_seq_number st + 1)
  end.
Proof.
  intros Hp Hin. destruct (_work_queue st) as [|w rest] eqn:Hq.
  - rewrite (passive_step_empty st ev Hp Hq) in Hin. destruct Hin.
  - destruct (passive_step_shape st ev w rest Hp Hq)
      as (st' & acts & Hstep & _ & _ & Hcases).
    rewrite Hstep in *. cbn [fst snd] in *.
    destruct Hcases as [(_ & _ & Hs & _) | (w' & Hq' & _ & _ & _ & _ & Hs)].
    + rewrite Hs in Hin. destruct Hin.
    + destruct ev; try discriminate.
      * destruct Hs as [[Hs _]|(Hs & H1 & H2)]; rewrite Hs in Hin;
          [destruct Hin|].
        destruct Hin as [<-|[]]. auto.
      * destruct Hs as [[Hs _]|(Hs & H1 & H2)]; rewrite Hs in Hin;
          [destruct Hin|].
        destruct Hin as [<-|[]]. auto.
      * destruct Hs as [H1 Hs]. rewrite Hs in Hin.
        destruct Hin as [<-|[]]. split; [exact H1|]. eauto.
Qed.

Lemma passive_step_frame (st : Engine) (ev : Event) :
  passive ev = true -> same_frame st (fst (step st ev)).
Proof.
  intros Hp. destruct (_work_queue st) as [|w rest] eqn:Hq.
  - rewrite (passive_step_empty st ev Hp Hq). apply same_frame_refl.
  - destruct (passive_step_shape st ev w rest Hp Hq)
      as (st' & acts & Hstep & _ & Hf & _).
    now rewrite Hstep.
Qed.

Lemma passive_step_tail (st : Engine) (ev : Event) :
  passive ev = true ->
  only_head_started st -> only_head_started (fst (step st ev)).
Proof.
  intros Hp Hinv. unfold only_head_started in *.
  destruct (_work_queue st) as [|w rest] eqn:Hq.
  - rewrite (passive_step_empty st ev Hp Hq). cbn [fst]. now rewrite Hq.
  - destruct (passive_step_shape st ev w rest Hp Hq)
      as (st' & acts & Hstep & _ & _ & Hcases).
    rewrite Hstep. cbn [fst]. cbn [tl] in Hinv.
    destruct Hcases as [(Hq' & _) | (w' & Hq' & _)]; rewrite Hq'.
    + destruct rest as [|w1 rest']; [constructor|].
      cbn [tl]. now inversion Hinv.
    + exact Hinv.
Qed.

Lemma tl_app_new (q : list Work.t) (i : Item) :
  Forall (fun w => Work.started w = false) (tl q) ->
  Forall (fun w => Work.started w = false) (tl (q ++ [Work.new i])).
Proof.
  intros H. destruct q as [|w q]; [constructor|].
  cbn [tl app] in *. apply Forall_app. split; [exact H|].
  constructor; [reflexivity|constructor].
Qed.

(** The entry points of the older interface leave the queue alone. *)
Lemma legacy_entry_queue (st : Engine) (ev : Event) :
  match ev with
  | EvReset _ | EvListDirectory _ _ | EvCreateDirectory _ _
  | EvRemoveDirectory _ _ | EvRemoveFile _ _ | EvRename _ _ _ =>
      _work_queue (fst (step st ev)) = _work_queue st
  | _ => True
  end.
Proof.
  destruct ev; cbn [step]; try exact I; try reflexivity.
  - unfold reset_async. now destruct (negb (_curr_op st =? CMD_NONE)).
  - unfold list_directory_async, _list_directory.
    destruct (negb (_curr_op st =? CMD_NONE) && (0 =? 0)); [reflexivity|].
    destruct (str_length path >=? max_data_length); reflexivity.
  - unfold rename_async. destruct (negb (_curr_op st =? CMD_NONE));
      [reflexivity|].
    now destruct (str_length from_path + str_length to_path + 1
                  >=? max_data_length).
Qed.

(** X6: if no work behind the head of the queue is started, this stays so
    whatever happens: calls of the entry points, ticks, inbound messages
    and timer fires, in any order.  At most one work, the head, is ever in
    flight. *)
Theorem only_head_started_invariant (evs : list Event) : forall st : Engine,
  only_head_started st -> only_head_started (fst (run st evs)).
Proof.
  induction evs as [|ev evs IH]; intros st Hinv; [exact Hinv|].
  cbn [run]. destruct (step st ev) as [st1 acts1] eqn:Hstep.
  specialize (IH st1). destruct (run st1 evs) as [st2 acts2].
  cbn [fst] in *. apply IH. clear IH.
  replace st1 with (fst (step st ev)) by now rewrite Hstep.
  destruct (passive ev) eqn:Hp; [now apply passive_step_tail|].
  pose proof (legacy_entry_queue st ev) as Hl.
  unfold only_head_started in *.
  destruct ev; try discriminate; try (rewrite Hl; exact Hinv);
    cbn [step fst download_async upload_async set_work_queue _work_queue];
    now apply tl_app_new.
Qed.

(** X7: an inbound message whose [req_opcode] is not the head work's
    [last_opcode], or that finds the queue empty, changes nothing and
    causes no action. *)
Theorem foreign_response_ignored (st : Engine) (msg : FtpMessage) (env : Env) :
  match _work_queue st with
  | [] => True
  | w :: _ =>
      Work.last_opcode w <> PayloadHeader.req_opcode (msg_payload msg)
  end ->
  process_mavlink_ftp_message st msg env = (st, []).
Proof.
  intros H. unfold process_mavlink_ftp_message, process_front_work.
  destruct (negb (target_system msg =? 0) && _); [reflexivity|].
  destruct (negb (target_component msg =? 0) && _); [reflexivity|].
  destruct (PayloadHeader.size (msg_payload msg) >? max_data_length);
    [reflexivity|].
  destruct (_work_queue st) as [|w rest]; [reflexivity|].
  apply Z.eqb_neq in H. now rewrite H.
Qed.

(** *** The older interface *)

Lemma busy_entry_points (st : Engine) :
  _curr_op st <> CMD_NONE ->
  (forall cb, reset_async st cb = (st, [CallResult cb Busy]))
  /\ (forall f t cb, rename_async st f t cb = (st, [CallResult cb Busy]))
  /\ (forall p cb,
         list_directory_async st p cb 0 = (st, [CallDirItems cb Busy []])).
Proof.
  intros H. apply Z.eqb_neq in H.
  unfold reset_async, rename_async, list_directory_async. rewrite H.
  repeat split.
Qed.

Lemma curr_op_kept (evs : list Event) : forall st : Engine,
  _curr_op st <> CMD_NONE ->
  _curr_op (fst (run st evs)) = _curr_op st.
Proof.
  induction evs as [|ev evs IH]; intros st H; [reflexivity|].
  cbn [run]. destruct (step st ev) as [st1 acts1] eqn:Hstep.
  specialize (IH st1). destruct (run st1 evs) as [st2 acts2].
  cbn [fst] in *.
  assert (H1 : _curr_op st1 = _curr_op st).
  { replace st1 with (fst (step st ev)) by now rewrite Hstep.
    destruct (passive ev) eqn:Hp.
    - apply (passive_step_frame st ev Hp).
    - destruct (busy_entry_points st H) as (Hr & Hn & Hl).
      destruct ev; try discriminate; cbn [step]; try reflexivity.
      + now rewrite Hr.
      + now rewrite Hl.
      + now rewrite Hn. }
  rewrite IH; congruence.
Qed.

(** X8: once [reset_async], [rename_async] or [list_directory_async] has
    sent its request, the older interface stays busy for good: whatever
    calls, ticks, inbound messages and timer fires follow, each of the
    three answers Busy through the callback, sends nothing and changes
    nothing. *)
Theorem older_interface_stays_busy (st0 : Engine) (ev0 : Event)
  (evs : list Event) :
  match ev0 with
  | EvReset _ | EvRename _ _ _ | EvListDirectory _ _ => True
  | _ => False
  end ->
  sent (snd (step st0 ev0)) <> [] ->
  (forall cb,
      reset_async (fst (run st0 (ev0 :: evs))) cb =
      (fst (run st0 (ev0 :: evs)), [CallResult cb Busy]))
  /\ (forall f t cb,
         rename_async (fst (run st0 (ev0 :: evs))) f t cb =
         (fst (run st0 (ev0 :: evs)), [CallResult cb Busy]))
  /\ (forall p cb,
         list_directory_async (fst (run st0 (ev0 :: evs))) p cb 0 =
         (fst (run st0 (ev0 :: evs)), [CallDirItems cb Busy []])).
Proof.
  intros Hkind Hsent.
  assert (H1 : _curr_op (fst (step st0 ev0)) <> CMD_NONE).
  { destruct ev0; try contradiction; cbn [step] in *.
    - unfold reset_async in *.
      destruct (negb (_curr_op st0 =? CMD_NONE));
        [exfalso; now apply Hsent | cbn; discriminate].
    - unfold list_directory_async, _list_directory in *.
      destruct (negb (_curr_op st0 =? CMD_NONE) && (0 =? 0));
        [exfalso; now apply Hsent|].
      destruct (str_length path >=? max_data_length);
        [exfalso; now apply Hsent | cbn; discriminate].
    - unfold rename_async in *.
      destruct (negb (_curr_op st0 =? CMD_NONE));
        [exfalso; now apply Hsent|].
      destruct (str_length from_path + str_length to_path + 1
                >=? max_data_length);
        [exfalso; now apply Hsent | cbn; discriminate]. }
  apply busy_entry_points.
  cbn [run]. destruct (step st0 ev0) as [st1 acts1].
  pose proof (curr_op_kept evs st1 H1) as Hk.
  destruct (run st1 evs) as [st2 acts2]. cbn [fst] in *. congruence.
Qed.

(** *** A download from its first READ_FILE ACK to the end *)

Lemma run_app (st : Engine) (evs1 evs2 : list Event) :
  run st (evs1 ++ evs2) =
  (fst (run (fst (run st evs1)) evs2),
   snd (run st evs1) ++ snd (run (fst (run st evs1)) evs2)).
Proof.
  revert st; induction evs1 as [|ev evs1 IH]; intros st; cbn [app run].
  - cbn [fst snd app]. now destruct (run st evs2).
  - destruct (step st ev) as [st1 acts1]. rewrite IH.
    destruct (run st1 evs1) as [st2 acts2]. cbn [fst snd].
    now rewrite app_assoc.
Qed.

Lemma firstn_pad_data (c : list Z) :
  (List.length c <= 239)%nat ->
  firstn (Z.to_nat (Z.of_nat (List.length c))) (pad_data c) = c.
Proof.
  intros Hle. rewrite Nat2Z.id. unfold pad_data.
  change (Z.to_nat max_data_length) with 239%nat.
  rewrite firstn_firstn, Nat.min_l by exact Hle.
  rewrite firstn_app, Nat.sub_diag, firstn_all. cbn [firstn].
  apply app_nil_r.
Qed.

(** One READ_FILE ACK in the read loop: its bytes are appended to the
    local file and counted, the callback gets one Next, and one request
    goes out, READ_FILE again while bytes are missing, TERMINATE_SESSION
    after the last. *)
Lemma read_ack_step (st : Engine) (w : Work.t) (rest : list Work.t)
  (item : DownloadItem.t) (seq off : Z) (c : list Z) :
  _work_queue st = w :: rest ->
  Work.item w = IDownload item ->
  Work.last_opcode w = CMD_READ_FILE ->
  Work.last_seq_number w = 0 \/ Work.last_seq_number w <> seq ->
  (List.length c <= 239)%nat ->
  DownloadItem.bytes_transferred item < DownloadItem.file_size item ->
  exists st' w' item' p,
    step st (EvMessage (response seq 0 RSP_ACK CMD_READ_FILE
                                 (Z.of_nat (List.length c)) off c) env_ok) =
    (st',
     [Call (DownloadItem.callback item) Next
           (mkProgressData
              (DownloadItem.bytes_transferred item + Z.of_nat (List.length c))
              (DownloadItem.file_size item));
      StartTimer; Send p])
    /\ _work_queue st' = w' :: rest
    /\ Work.item w' = IDownload item'
    /\ DownloadItem.ofstream item' = DownloadItem.ofstream item ++ c
    /\ DownloadItem.bytes_transferred item' =
       DownloadItem.bytes_transferred item + Z.of_nat (List.length c)
    /\ DownloadItem.file_size item' = DownloadItem.file_size item
    /\ DownloadItem.callback item' = DownloadItem.callback item
    /\ Work.last_seq_number w' = seq
    /\ Work.last_opcode w' =
       (if DownloadItem.bytes_transferred item + Z.of_nat (List.length c)
           <? DownloadItem.file_size item
        then CMD_READ_FILE else CMD_TERMINATE_SESSION)
    /\ PayloadHeader.opcode p = Work.last_opcode w'.
Proof.
  intros Hq Hitem Hop Hseq Hlen Hlt. cbn [step].
  rewrite (accepted_by_visit st _ w rest env_ok).
  2:{ split; [split; left; reflexivity|]. cbn.
      split; [unfold max_data_length; lia|].
      split; [exact Hq|]. split; [exact Hop | exact Hseq]. }
  unfold process_visit. rewrite Hitem.
  cbn [msg_payload response PayloadHeader.opcode PayloadHeader.req_opcode
       PayloadHeader.seq_number].
  change (RSP_ACK =? RSP_ACK) with true.
  change ((CMD_READ_FILE =? CMD_OPEN_FILE_RO)
          || (CMD_READ_FILE =? CMD_READ_FILE)) with true.
  cbv iota.
  unfold download_continue, download_absorb.
  cbn [PayloadHeader.req_opcode PayloadHeader.size PayloadHeader.data].
  change (CMD_READ_FILE =? CMD_OPEN_FILE_RO) with false.
  change (CMD_READ_FILE =? CMD_READ_FILE) with true. cbv iota.
  apply Z.ltb_lt in Hlt. rewrite Hlt.
  change (negb (stream_ok env_ok)) with false. cbv iota.
  rewrite (firstn_pad_data c Hlen).
  cbn [negb DownloadItem.bytes_transferred DownloadItem.file_size
       DownloadItem.set_bytes_transferred DownloadItem.set_ofstream
       DownloadItem.ofstream DownloadItem.callback].
  destruct (DownloadItem.bytes_transferred item + Z.of_nat (List.length c)
            <? DownloadItem.file_size item).
  - unfold next_seq_number. cbn.
    do 4 eexists. split; [reflexivity|].
    repeat match goal with |- _ /\ _ => split end; reflexivity.
  - unfold terminate_session_request, next_seq_number. cbn.
    do 4 eexists. split; [reflexivity|].
    repeat match goal with |- _ /\ _ => split end; reflexivity.
Qed.

Lemma terminate_ack_step (st : Engine) (w : Work.t) (rest : list Work.t)
  (item : DownloadItem.t) (seq : Z) :
  _work_queue st = w :: rest ->
  Work.item w = IDownload item ->
  Work.last_opcode w = CMD_TERMINATE_SESSION ->
  seq <> Work.last_seq_number w ->
  step st (EvMessage (response seq 0 RSP_ACK CMD_TERMINATE_SESSION 0 0 [])
                     env_ok) =
  (set_work_queue st rest,
   [StopTimer; Call (DownloadItem.callback item) Success no_progress]).
Proof.
  intros Hq Hitem Hop Hseq. cbn [step].
  rewrite (accepted_by_visit st _ w rest env_ok).
  2:{ split; [split; left; reflexivity|]. cbn.
      split; [unfold max_data_length; lia|].
      split; [exact Hq|]. split; [exact Hop|]. right. congruence. }
  unfold process_visit. rewrite Hitem. reflexivity.
Qed.

Lemma total_length_cons (c : list Z) (r : list (list Z)) :
  total_length (c :: r) = Z.of_nat (List.length c) + total_length r.
Proof. unfold total_length. cbn [List.concat]. rewrite length_app. lia. Qed.

Lemma total_length_pos (c : list Z) (r : list (list Z)) :
  Forall (fun c => (0 < List.length c <= 239)%nat) (c :: r) ->
  0 < total_length (c :: r).
Proof.
  intros H. inversion_clear H as [|? ? Hc _]. rewrite total_length_cons.
  unfold total_length. lia.
Qed.

Lemma u16_succ_neq (seq : Z) : 0 <= seq < 65536 -> seq <> u16 (seq + 1).
Proof.
  intros H. unfold u16. destruct (Z.eq_dec seq 65535) as [->|Hne].
  - discriminate.
  - rewrite Z.mod_small; lia.
Qed.

Lemma u16_range (x : Z) : 0 <= u16 x < 65536.
Proof. unfold u16. apply Z.mod_pos_bound. lia. Qed.

(** X9: a download in its read loop that receives READ_FILE ACKs carrying
    the chunks of the rest of the file, each non-empty, at most 239 bytes
    and numbered one after the other, appends exactly these bytes in order
    to the local file, hands the callback one Next per chunk, answers each
    chunk but the last with a READ_FILE and the last with
    TERMINATE_SESSION; the ACK of that request then completes the item
    with Success and pops it. *)
Theorem download_writes_the_file (chunks : list (list Z)) :
  forall (st : Engine) (w : Work.t) (rest : list Work.t)
         (item : DownloadItem.t) (seq : Z),
  _work_queue st = w :: rest ->
  Work.item w = IDownload item ->
  Work.last_opcode w = CMD_READ_FILE ->
  Work.last_seq_number w = 0 \/ Work.last_seq_number w <> seq ->
  0 <= seq < 65536 ->
  chunks <> [] ->
  Forall (fun c => (0 < List.length c <= 239)%nat) chunks ->
  DownloadItem.bytes_transferred item + total_length chunks
  = DownloadItem.file_size item ->
  exists st' acts w' item',
    run st (read_acks seq (DownloadItem.bytes_transferred item) chunks)
    = (st', acts)
    /\ _work_queue st' = w' :: rest
    /\ Work.item w' = IDownload item'
    /\ DownloadItem.ofstream item'
       = DownloadItem.ofstream item ++ List.concat chunks
    /\ DownloadItem.bytes_transferred item' = DownloadItem.file_size item
    /\ results_of (DownloadItem.callback item) acts
       = repeat Next (List.length chunks)
    /\ map PayloadHeader.opcode (sent acts)
       = repeat CMD_READ_FILE (List.length chunks - 1)
         ++ [CMD_TERMINATE_SESSION]
    /\ (forall seqT,
           seqT <> Work.last_seq_number w' ->
           step st' (EvMessage
                       (response seqT 0 RSP_ACK CMD_TERMINATE_SESSION 0 0 [])
                       env_ok) =
           (set_work_queue st' rest,
            [StopTimer;
             Call (DownloadItem.callback item) Success no_progress])).
Proof.
  induction chunks as [|c r IH];
    intros st w rest item seq Hq Hitem Hop Hseq Hrange Hne Hall Htotal;
    [contradiction|].
  clear Hne. pose proof Hall as Hall'.
  inversion_clear Hall as [|? ? Hc Hr].
  rewrite total_length_cons in Htotal.
  assert (Hnn : 0 <= total_length r) by (unfold total_length; lia).
  assert (Hlt : DownloadItem.bytes_transferred item
                < DownloadItem.file_size item) by lia.
  assert (Hc239 : (List.length c <= 239)%nat) by lia.
  destruct (read_ack_step st w rest item seq
              (DownloadItem.bytes_transferred item) c Hq Hitem Hop Hseq
              Hc239 Hlt)
    as (st1 & w1 & item1 & p & Hstep & Hq1 & Hitem1 & Hof & Hbt & Hfs & Hcb
        & Hls & Hlo & Hpo).
  cbn [read_acks run]. rewrite Hstep.
  destruct r as [|c2 r2].
  - (* the last chunk *)
    unfold total_length in Htotal. cbn in Htotal.
    assert (Hdone : (DownloadItem.bytes_transferred item
                     + Z.of_nat (List.length c)
                     <? DownloadItem.file_size item) = false)
      by (apply Z.ltb_ge; lia).
    rewrite Hdone in Hlo.
    cbn [read_acks run]. exists st1. eexists. exists w1, item1.
    split; [reflexivity|].
    repeat match goal with |- _ /\ _ => split end; auto.
    + rewrite Hof. cbn [List.concat]. now rewrite app_nil_r.
    + lia.
    + cbn. now rewrite Nat.eqb_refl.
    + cbn. now rewrite Hpo, Hlo.
    + intros seqT HseqT. rewrite <- Hcb.
      now apply (terminate_ack_step st1 w1 rest item1 seqT).
  - (* more chunks follow *)
    pose proof (total_length_pos c2 r2 Hr) as Hpos.
    assert (Hmore : (DownloadItem.bytes_transferred item
                     + Z.of_nat (List.length c)
                     <? DownloadItem.file_size item) = true)
      by (apply Z.ltb_lt; lia).
    rewrite Hmore in Hlo.
    assert (Hfresh : Work.last_seq_number w1 = 0
                     \/ Work.last_seq_number w1 <> u16 (seq + 1))
      by (right; rewrite Hls; now apply u16_succ_neq).
    assert (Hnonempty : c2 :: r2 <> []) by discriminate.
    assert (Htotal1 : DownloadItem.bytes_transferred item1
                      + total_length (c2 :: r2)
                      = DownloadItem.file_size item1)
      by (rewrite Hbt, Hfs; lia).
    destruct (IH st1 w1 rest item1 (u16 (seq + 1)) Hq1 Hitem1 Hlo Hfresh
                (u16_range _) Hnonempty Hr Htotal1)
      as (st2 & acts2 & w2 & item2 & Hrun & Hq2 & Hitem2 & Hof2 & Hbt2 & Hres
          & Hsent & Hterm).
    rewrite Hbt in Hrun. rewrite Hrun.
    exists st2. eexists. exists w2, item2. split; [reflexivity|].
    repeat match goal with |- _ /\ _ => split end; auto.
    + rewrite Hof2, Hof. cbn [List.concat]. now rewrite <- app_assoc.
    + congruence.
    + cbn [app results_of flat_map]. rewrite Nat.eqb_refl.
      cbn [app]. fold (results_of (DownloadItem.callback item) acts2).
      rewrite <- Hcb, Hres. reflexivity.
    + cbn [app sent flat_map map]. fold (sent acts2).
      rewrite Hsent, Hpo, Hlo. cbn [List.length Nat.sub].
      rewrite Nat.sub_0_r. reflexivity.
    + intros seqT HseqT. rewrite <- Hcb. now apply Hterm.
Qed.

(** *** An upload through its write loop *)

Lemma carried_read_into (c : list Z) (p : PayloadHeader.t) :
  (List.length c <= 239)%nat ->
  carried (PayloadHeader.set_size
             (PayloadHeader.set_data p
                (read_into (PayloadHeader.data PayloadHeader.zero) c))
             (u8 (Z.of_nat (List.length c)))) = c.
Proof.
  intros Hle. unfold carried, read_into, u8.
  cbn [PayloadHeader.size PayloadHeader.data PayloadHeader.set_size
       PayloadHeader.set_data PayloadHeader.zero].
  rewrite Z.mod_small by lia. rewrite Nat2Z.id.
  rewrite repeat_length. change (Z.to_nat max_data_length) with 239%nat.
  rewrite firstn_firstn, Nat.min_l by exact Hle.
  rewrite firstn_app, Nat.sub_diag, firstn_all. cbn [firstn].
  apply app_nil_r.
Qed.

(** One ACK in the write loop, with bytes still to send: the chunk the
    local stream delivers goes out in a WRITE_FILE at the offset reached,
    is counted at once, and the callback gets one Next. *)
Lemma write_ack_step (st : Engine) (w : Work.t) (rest : list Work.t)
  (item : UploadItem.t) (seq req : Z) (c : list Z) :
  _work_queue st = w :: rest ->
  Work.item w = IUpload item ->
  Work.last_opcode w = req ->
  req = CMD_OPEN_FILE_WO \/ req = CMD_WRITE_FILE ->
  Work.last_seq_number w = 0 \/ Work.last_seq_number w <> seq ->
  (List.length c <= 239)%nat ->
  UploadItem.bytes_transferred item < UploadItem.file_size item ->
  exists st' w' item' p,
    step st (EvMessage (response seq 0 RSP_ACK req 0 0 [])
                       (mkEnv true true 0 c)) =
    (st',
     [StartTimer; Send p;
      Call (UploadItem.callback item) Next
           (mkProgressData
              (UploadItem.bytes_transferred item + Z.of_nat (List.length c))
              (UploadItem.file_size item))])
    /\ _work_queue st' = w' :: rest
    /\ Work.item w' = IUpload item'
    /\ UploadItem.bytes_transferred item' =
       UploadItem.bytes_transferred item + Z.of_nat (List.length c)
    /\ UploadItem.file_size item' = UploadItem.file_size item
    /\ UploadItem.callback item' = UploadItem.callback item
    /\ Work.last_seq_number w' = seq
    /\ Work.last_opcode w' = CMD_WRITE_FILE
    /\ PayloadHeader.opcode p = CMD_WRITE_FILE
    /\ PayloadHeader.offset p = u32 (UploadItem.bytes_transferred item)
    /\ carried p = c.
Proof.
  intros Hq Hitem Hop Hreq Hseq Hlen Hlt. cbn [step].
  rewrite (accepted_by_visit st _ w rest (mkEnv true true 0 c)).
  2:{ split; [split; left; reflexivity|]. cbn.
      split; [unfold max_data_length; lia|].
      split; [exact Hq|]. split; [exact Hop | exact Hseq]. }
  unfold process_visit. rewrite Hitem.
  cbn [msg_payload response PayloadHeader.opcode PayloadHeader.req_opcode
       PayloadHeader.seq_number].
  change (RSP_ACK =? RSP_ACK) with true.
  replace ((req =? CMD_OPEN_FILE_WO) || (req =? CMD_WRITE_FILE)) with true
    by (destruct Hreq as [-> | ->]; reflexivity).
  cbv iota. unfold upload_continue.
  apply Z.ltb_lt in Hlt. rewrite Hlt.
  cbn [readsome stream_ok negb].
  change (Z.to_nat max_data_length) with 239%nat.
  rewrite (firstn_all2 (n := 239) c) by exact Hlen.
  unfold next_seq_number. cbv zeta.
  do 4 eexists. split; [reflexivity|].
  cbn [_work_queue set_work_queue Work.item Work.set_item
       Work.set_last_seq_number Work.last_seq_number Work.last_opcode
       Work.set_payload Work.set_last_opcode Work.set_retries
       UploadItem.bytes_transferred UploadItem.set_bytes_transferred
       UploadItem.file_size UploadItem.callback].
  repeat match goal with |- _ /\ _ => split end; try reflexivity.
  apply carried_read_into. exact Hlen.
Qed.

(** The ACK that finds nothing left to send: TERMINATE_SESSION goes out. *)
Lemma write_done_step (st : Engine) (w : Work.t) (rest : list Work.t)
  (item : UploadItem.t) (seq : Z) (env : Env) :
  _work_queue st = w :: rest ->
  Work.item w = IUpload item ->
  Work.last_opcode w = CMD_WRITE_FILE ->
  seq <> Work.last_seq_number w ->
  UploadItem.file_size item <= UploadItem.bytes_transferred item ->
  exists st' w' p,
    step st (EvMessage (response seq 0 RSP_ACK CMD_WRITE_FILE 0 0 []) env) =
    (st',
     [StartTimer; Send p;
      Call (UploadItem.callback item) Next
           (mkProgressData (UploadItem.bytes_transferred item)
                           (UploadItem.file_size item))])
    /\ _work_queue st' = w' :: rest
    /\ Work.item w' = IUpload item
    /\ Work.last_opcode w' = CMD_TERMINATE_SESSION
    /\ PayloadHeader.opcode p = CMD_TERMINATE_SESSION
    /\ PayloadHeader.size p = 0.
Proof.
  intros Hq Hitem Hop Hseq Hge. cbn [step].
  rewrite (accepted_by_visit st _ w rest env).
  2:{ split; [split; left; reflexivity|]. cbn.
      split; [unfold max_data_length; lia|].
      split; [exact Hq|]. split; [exact Hop|]. right. congruence. }
  unfold process_visit. rewrite Hitem.
  cbn [msg_payload response PayloadHeader.opcode PayloadHeader.req_opcode
       PayloadHeader.seq_number].
  change (RSP_ACK =? RSP_ACK) with true.
  change ((CMD_WRITE_FILE =? CMD_OPEN_FILE_WO)
          || (CMD_WRITE_FILE =? CMD_WRITE_FILE)) with true.
  cbv iota. unfold upload_continue.
  apply Z.ltb_ge in Hge. rewrite Hge.
  unfold terminate_session_request, next_seq_number. cbv zeta.
  do 3 eexists. split; [reflexivity|].
  repeat match goal with |- _ /\ _ => split end; reflexivity.
Qed.

(** X10: an upload whose local stream delivers the rest of the file in
    chunks, each non-empty and at most 239 bytes, one per ACK, sends these
    chunks in order in WRITE_FILE requests, each at the offset where the
    previous one ended, and hands the callback one Next per chunk; the ACK
    of the last WRITE_FILE is answered with TERMINATE_SESSION. *)
Theorem upload_sends_the_file (chunks : list (list Z)) :
  forall (st : Engine) (w : Work.t) (rest : list Work.t)
         (item : UploadItem.t) (seq req : Z),
  _work_queue st = w :: rest ->
  Work.item w = IUpload item ->
  Work.last_opcode w = req ->
  req = CMD_OPEN_FILE_WO \/ req = CMD_WRITE_FILE ->
  Work.last_seq_number w = 0 \/ Work.last_seq_number w <> seq ->
  0 <= seq < 65536 ->
  chunks <> [] ->
  Forall (fun c => (0 < List.length c <= 239)%nat) chunks ->
  UploadItem.bytes_transferred item + total_length chunks
  = UploadItem.file_size item ->
  exists st' acts,
    run st (write_acks seq req chunks) = (st', acts)
    /\ map PayloadHeader.opcode (sent acts)
       = repeat CMD_WRITE_FILE (List.length chunks)
    /\ map carried (sent acts) = chunks
    /\ map PayloadHeader.offset (sent acts)
       = map u32 (offsets_from (UploadItem.bytes_transferred item) chunks)
    /\ results_of (UploadItem.callback item) acts
       = repeat Next (List.length chunks)
    /\ (forall seqT env,
           seqT <> u16 (seq + Z.of_nat (List.length chunks) - 1) ->
           exists p,
             sent (snd (step st'
                          (EvMessage
                             (response seqT 0 RSP_ACK CMD_WRITE_FILE 0 0 [])
                             env))) = [p]
             /\ PayloadHeader.opcode p = CMD_TERMINATE_SESSION).
Proof.
  induction chunks as [|c r IH];
    intros st w rest item seq req Hq Hitem Hop Hreq Hseq Hrange Hne Hall
           Htotal;
    [contradiction|].
  clear Hne. inversion_clear Hall as [|? ? Hc Hr].
  rewrite total_length_cons in Htotal.
  assert (Hnn : 0 <= total_length r) by (unfold total_length; lia).
  assert (Hlt : UploadItem.bytes_transferred item
                < UploadItem.file_size item) by lia.
  assert (Hc239 : (List.length c <= 239)%nat) by lia.
  destruct (write_ack_step st w rest item seq req c Hq Hitem Hop Hreq Hseq
              Hc239 Hlt)
    as (st1 & w1 & item1 & p & Hstep & Hq1 & Hitem1 & Hbt & Hfs & Hcb & Hls
        & Hlo & Hpo & Hpoff & Hcar).
  cbn [write_acks run]. rewrite Hstep.
  destruct r as [|c2 r2].
  - cbn [write_acks run]. do 2 eexists. split; [reflexivity|].
    cbn [app sent flat_map map List.length repeat offsets_from results_of].
    rewrite Nat.eqb_refl, Hpo, Hcar, Hpoff. cbn [app].
    repeat match goal with |- _ /\ _ => split end; try reflexivity.
    intros seqT env HseqT.
    replace (u16 (seq + Z.of_nat 1 - 1)) with seq in HseqT
      by (unfold u16; rewrite Z.mod_small; lia).
    unfold total_length in Htotal. cbn in Htotal.
    destruct (write_done_step st1 w1 rest item1 seqT env Hq1 Hitem1 Hlo
                ltac:(congruence) ltac:(lia))
      as (st2 & w2 & pT & HstepT & _ & _ & _ & HpT & _).
    exists pT. rewrite HstepT. split; [reflexivity | exact HpT].
  - pose proof (total_length_pos c2 r2 Hr) as Hpos.
    assert (Hfresh : Work.last_seq_number w1 = 0
                     \/ Work.last_seq_number w1 <> u16 (seq + 1))
      by (right; rewrite Hls; now apply u16_succ_neq).
    assert (Hnonempty : c2 :: r2 <> []) by discriminate.
    assert (Htotal1 : UploadItem.bytes_transferred item1
                      + total_length (c2 :: r2)
                      = UploadItem.file_size item1)
      by (rewrite Hbt, Hfs; lia).
    destruct (IH st1 w1 rest item1 (u16 (seq + 1)) CMD_WRITE_FILE Hq1 Hitem1
                Hlo (or_intror eq_refl) Hfresh (u16_range _) Hnonempty Hr
                Htotal1)
      as (st2 & acts2 & Hrun & Hops & Hcars & Hoffs & Hres & Hterm).
    rewrite Hrun. do 2 eexists. split; [reflexivity|].
    cbn [app sent flat_map map]. fold (sent acts2).
    cbn [results_of flat_map]. rewrite Nat.eqb_refl. cbn [app].
    fold (results_of (UploadItem.callback item) acts2).
    rewrite Hops, Hcars, Hoffs, Hpo, Hcar, Hpoff, Hbt, <- Hcb, Hres.
    repeat match goal with |- _ /\ _ => split end; try reflexivity.
    intros seqT env HseqT. apply Hterm.
    replace (u16 (u16 (seq + 1) + Z.of_nat (List.length (c2 :: r2)) - 1))
      with (u16 (seq + Z.of_nat (List.length (c :: c2 :: r2)) - 1));
      [exact HseqT|].
    unfold u16. cbn [List.length]. rewrite !Nat2Z.inj_succ.
    replace (seq + Z.succ (Z.succ (Z.of_nat (List.length r2))) - 1)
      with ((seq + 1) + (Z.succ (Z.of_nat (List.length r2)) - 1)) by lia.
    replace ((seq + 1) mod 65536 + Z.succ (Z.of_nat (List.length r2)) - 1)
      with ((seq + 1) mod 65536 + (Z.succ (Z.of_nat (List.length r2)) - 1))
      by lia.
    now rewrite Z.add_mod_idemp_l by lia.
Qed.

(** *** The session of the request handlers *)

Lemma firstn_memcpy_at_0 (data src : list Z) :
  (List.length src <= List.length data)%nat ->
  firstn (List.length src) (memcpy_at data 0 src) = src.
Proof.
  intros Hle. unfold memcpy_at. rewrite firstn_O, app_nil_l.
  rewrite firstn_firstn, Nat.min_l by exact Hle.
  rewrite firstn_app, Nat.sub_diag, firstn_all, firstn_O.
  apply app_nil_r.
Qed.

(** X11: when [_work_open] succeeds a file is open, and from then on every
    [_work_open] is refused with ERR_NO_SESSIONS_AVAILABLE, leaving
    server, payload and filesystem untouched: one session at a time. *)
Theorem one_session_at_a_time (fs : Fs) (srv srv' : Server)
  (payload payload' : PayloadHeader.t) (oflag : Z) (ops : list FsOp) :
  _work_open fs srv payload oflag = (SUCCESS, srv', payload', ops) ->
  0 <= si_fd (_session_info srv')
  /\ forall fs2 payload2 oflag2,
       _work_open fs2 srv' payload2 oflag2 =
       (ERR_NO_SESSIONS_AVAILABLE, srv', payload2, []).
Proof.
  intros H.
  assert (Hfd : 0 <= si_fd (_session_info srv')).
  { unfold _work_open in H.
    destruct (si_fd (_session_info srv) >=? 0); [discriminate H|].
    destruct (_data_as_string payload) as [p1 name].
    destruct (match tmp_files_find (_tmp_files srv) name with
              | Some staged => (p1, staged)
              | None => _get_path fs srv p1
              end) as [p2 path].
    destruct (String.length path =? 0)%nat; [discriminate H|].
    destruct ((Z.land oflag O_ACCMODE =? O_RDONLY) && negb (os_exists fs path));
      [discriminate H|].
    destruct (os_open fs path oflag) as [fd errno].
    destruct (Z.ltb_spec fd 0) as [Hlt|Hge].
    - destruct (errno =? ENOENT); discriminate H.
    - inversion H; subst. cbn. exact Hge. }
  split; [exact Hfd|].
  intros fs2 payload2 oflag2. unfold _work_open.
  replace (si_fd (_session_info srv') >=? 0) with true; [reflexivity|].
  symmetry. rewrite Z.geb_leb. now apply Z.leb_le.
Qed.

(** X12: [_work_reset] always succeeds and leaves no file open, closing
    the descriptor if there was one; a successful [_work_terminate] closes
    the open descriptor; and with no file open [_work_read] and
    [_work_terminate] answer ERR_INVALID_SESSION and do nothing. *)
Theorem closed_session_is_invalid (srv : Server) (payload : PayloadHeader.t) :
  (code_of (_work_reset srv payload) = SUCCESS
   /\ si_fd (_session_info (server_of (_work_reset srv payload))) = -1
   /\ ops_of (_work_reset srv payload)
      = if si_fd (_session_info srv) =? -1 then []
        else [OpClose (si_fd (_session_info srv))])
  /\ (forall srv' payload' ops,
         _work_terminate srv payload = (SUCCESS, srv', payload', ops) ->
         si_fd (_session_info srv') = -1
         /\ ops = [OpClose (si_fd (_session_info srv))]
         /\ PayloadHeader.size payload' = 0)
  /\ (si_fd (_session_info srv) < 0 ->
      (forall fs, _work_read fs srv payload
                  = (ERR_INVALID_SESSION, srv, payload, []))
      /\ _work_terminate srv payload
         = (ERR_INVALID_SESSION, srv, payload, [])).
Proof.
  split; [|split].
  - unfold _work_reset.
    destruct (Z.eqb_spec (si_fd (_session_info srv)) (-1)) as [E|N];
      cbn [negb]; cbn; auto.
  - intros srv' payload' ops H. unfold _work_terminate in H.
    destruct (negb (PayloadHeader.session payload =? 0)
              || (si_fd (_session_info srv) <? 0)); [discriminate H|].
    inversion H; subst. cbn. auto.
  - intros Hlt. apply Z.ltb_lt in Hlt.
    unfold _work_read, _work_terminate. rewrite Hlt, orb_true_r. auto.
Qed.

(** X13: with a file open and session byte 0, [_work_read] answers a
    request at or past the recorded file size with ERR_EOF without
    touching the file; below it, when seek and read succeed, it returns at
    most 239 bytes, the ones read, with [size] set to their number. *)
Theorem read_within_the_file (fs : Fs) (srv : Server)
  (payload : PayloadHeader.t) :
  PayloadHeader.session payload = 0 ->
  0 <= si_fd (_session_info srv) ->
  List.length (PayloadHeader.data payload) = 239%nat ->
  (si_file_size (_session_info srv) <= PayloadHeader.offset payload ->
   _work_read fs srv payload = (ERR_EOF, srv, payload, []))
  /\ (PayloadHeader.offset payload < si_file_size (_session_info srv) ->
      0 <= os_lseek fs (si_fd (_session_info srv))
                    (PayloadHeader.offset payload) ->
      forall bytes,
        os_read fs (si_fd (_session_info srv)) (PayloadHeader.offset payload)
        = Some bytes ->
        exists payload',
          _work_read fs srv payload =
          (SUCCESS, srv, payload',
           [OpLseek (si_fd (_session_info srv)) (PayloadHeader.offset payload);
            OpRead (si_fd (_session_info srv)) max_data_length])
          /\ carried payload' = firstn 239 bytes
          /\ PayloadHeader.size payload'
             = Z.of_nat (List.length (firstn 239 bytes))
          /\ PayloadHeader.size payload' <= 239).
Proof.
  intros Hs Hfd Hlen.
  assert (Hguard : negb (PayloadHeader.session payload =? 0)
                   || (si_fd (_session_info srv) <? 0) = false).
  { rewrite Hs. cbn. now apply Z.ltb_ge. }
  split.
  - intros Hge. unfold _work_read. rewrite Hguard.
    replace (PayloadHeader.offset payload >=? si_file_size (_session_info srv))
      with true; [reflexivity|].
    symmetry. rewrite Z.geb_leb. now apply Z.leb_le.
  - intros Hlt Hseek bytes Hread. unfold _work_read. rewrite Hguard.
    replace (PayloadHeader.offset payload >=? si_file_size (_session_info srv))
      with false by (symmetry; rewrite Z.geb_leb; apply Z.leb_gt; lia).
    replace (os_lseek fs (si_fd (_session_info srv))
                      (PayloadHeader.offset payload) <? 0) with false
      by (symmetry; now apply Z.ltb_ge).
    rewrite Hread. change (Z.to_nat max_data_length) with 239%nat.
    eexists. split; [reflexivity|].
    assert (Hb : (List.length (firstn 239 bytes) <= 239)%nat)
      by (rewrite length_firstn; lia).
    assert (Hu : u8 (Z.of_nat (List.length (firstn 239 bytes)))
                 = Z.of_nat (List.length (firstn 239 bytes)))
      by (unfold u8; rewrite Z.mod_small; lia).
    unfold carried.
    cbn [PayloadHeader.size PayloadHeader.data PayloadHeader.set_size
         PayloadHeader.set_data].
    rewrite Hu. split; [|split; [reflexivity|lia]].
    rewrite Nat2Z.id. apply firstn_memcpy_at_0. rewrite Hlen. exact Hb.
Qed.

(** X14: the guard of [_work_write] lets every request with session byte
    0 through, whether a file is open or not: it is never answered with
    ERR_INVALID_SESSION and its first act is the seek on the recorded
    descriptor, -1 included; [_work_read] refuses the same request when no
    file is open. *)
Theorem write_guard_admits_session_zero (fs : Fs) (srv : Server)
  (payload : PayloadHeader.t) :
  PayloadHeader.session payload = 0 ->
  (exists code srv' payload' ops,
      _work_write fs srv payload
      = (code, srv', payload',
         OpLseek (si_fd (_session_info srv)) (PayloadHeader.offset payload)
         :: ops)
      /\ code <> ERR_INVALID_SESSION)
  /\ (si_fd (_session_info srv) < 0 ->
      _work_read fs srv payload = (ERR_INVALID_SESSION, srv, payload, [])).
Proof.
  intros Hs. split.
  - unfold _work_write. rewrite Hs. cbn [Z.eqb negb andb].
    destruct (os_lseek fs _ _ <? 0).
    + do 4 eexists. split; [reflexivity | discriminate].
    + destruct (os_write fs _ _ _ <? 0);
        do 4 eexists; (split; [reflexivity | discriminate]).
  - intros Hlt. apply Z.ltb_lt in Hlt. unfold _work_read.
    now rewrite Hlt, orb_true_r.
Qed.

(** *** Payload data as strings *)

Lemma c_str_app_nul (l r : list Z) : c_str (l ++ 0 :: r) = c_str l.
Proof.
  induction l as [|b l IH]; cbn [app c_str]; [reflexivity|].
  destruct (b =? 0); [reflexivity|]. now rewrite IH.
Qed.

Lemma c_str_length (l : list Z) : (List.length (c_str l) <= List.length l)%nat.
Proof.
  induction l as [|b l IH]; cbn [c_str List.length]; [lia|].
  destruct (b =? 0); cbn [List.length]; lia.
Qed.

Lemma c_str_nul_free (l : list Z) : Forall (fun b => b <> 0) l -> c_str l = l.
Proof.
  induction 1 as [|b l Hb _ IH]; cbn [c_str]; [reflexivity|].
  apply Z.eqb_neq in Hb. now rewrite Hb, IH.
Qed.

Lemma c_str_idem (l : list Z) : c_str (c_str l) = c_str l.
Proof.
  induction l as [|b l IH]; cbn [c_str]; [reflexivity|].
  destruct (b =? 0) eqn:E; cbn [c_str]; [reflexivity|]. now rewrite E, IH.
Qed.

Lemma length_poke (buf : list Z) (i : nat) (v : Z) :
  List.length (poke buf i v) = List.length buf.
Proof.
  unfold poke. destruct (Nat.ltb_spec i (List.length buf)); [|reflexivity].
  rewrite length_app. cbn [List.length].
  rewrite length_firstn, length_skipn. lia.
Qed.

Lemma poke_poke (buf : list Z) (i : nat) (v : Z) :
  poke (poke buf i v) i v = poke buf i v.
Proof.
  unfold poke at 1. rewrite length_poke. unfold poke.
  destruct (Nat.ltb_spec i (List.length buf)) as [Hlt|]; [|reflexivity].
  rewrite firstn_app, length_firstn, Nat.min_l by lia.
  rewrite Nat.sub_diag, firstn_O, app_nil_r, firstn_firstn, Nat.min_id.
  f_equal. f_equal.
  rewrite skipn_app, length_firstn, Nat.min_l by lia.
  rewrite (skipn_all2 (n := S i)) by (rewrite length_firstn; lia).
  replace (S i - i)%nat with 1%nat by lia. reflexivity.
Qed.

Lemma string_of_bytes_length (bs : list Z) :
  String.length (string_of_bytes bs) = List.length bs.
Proof.
  unfold string_of_bytes. induction bs as [|b bs IH]; cbn; [reflexivity|].
  now rewrite IH.
Qed.

(** The index at which [_data_as_string] writes its terminator. *)
Lemma data_as_string_index (payload : PayloadHeader.t) :
  0 <= PayloadHeader.size payload ->
  let i := if PayloadHeader.size payload <? max_data_length
           then Z.to_nat (PayloadHeader.size payload)
           else Z.to_nat (max_data_length - 1) in
  (i < 239)%nat /\ Z.of_nat i <= PayloadHeader.size payload.
Proof.
  intros Hs. cbv zeta. unfold max_data_length.
  destruct (Z.ltb_spec (PayloadHeader.size payload) 239); split; lia.
Qed.

(** X15: [_data_as_string] returns the payload data up to its first NUL,
    never more than [size] bytes nor more than 238; when the first [size]
    bytes hold no NUL and [size] is below 239 it returns exactly these
    bytes; and a second call on the payload it leaves changes nothing and
    returns the same string. *)
Theorem data_as_string_terminated (payload : PayloadHeader.t) :
  0 <= PayloadHeader.size payload ->
  List.length (PayloadHeader.data payload) = 239%nat ->
  Z.of_nat (String.length (snd (_data_as_string payload)))
  <= Z.min (PayloadHeader.size payload) 238
  /\ _data_as_string (fst (_data_as_string payload))
     = _data_as_string payload
  /\ (PayloadHeader.size payload < 239 ->
      Forall (fun b => b <> 0)
             (firstn (Z.to_nat (PayloadHeader.size payload))
                     (PayloadHeader.data payload)) ->
      snd (_data_as_string payload)
      = string_of_bytes (firstn (Z.to_nat (PayloadHeader.size payload))
                                (PayloadHeader.data payload))).
Proof.
  intros Hs Hlen. destruct (data_as_string_index payload Hs) as [Hi Hle].
  unfold _data_as_string.
  set (i := if PayloadHeader.size payload <? max_data_length
            then Z.to_nat (PayloadHeader.size payload)
            else Z.to_nat (max_data_length - 1)) in *.
  cbn [fst snd PayloadHeader.data PayloadHeader.set_data PayloadHeader.size].
  assert (Hpoke : poke (PayloadHeader.data payload) i 0
                  = firstn i (PayloadHeader.data payload)
                    ++ 0 :: skipn (S i) (PayloadHeader.data payload)).
  { unfold poke. rewrite Hlen.
    destruct (Nat.ltb_spec i 239); [reflexivity|lia]. }
  split; [|split].
  - rewrite string_of_bytes_length, Hpoke, c_str_app_nul.
    pose proof (c_str_length (firstn i (PayloadHeader.data payload))) as Hc.
    rewrite length_firstn in Hc. lia.
  - rewrite poke_poke. reflexivity.
  - intros Hlt Hfree. rewrite Hpoke, c_str_app_nul.
    assert (Ei : i = Z.to_nat (PayloadHeader.size payload)).
    { unfold i, max_data_length.
      destruct (Z.ltb_spec (PayloadHeader.size payload) 239); [reflexivity|lia]. }
    rewrite Ei. now rewrite c_str_nul_free.
Qed.

(** *** The root directory and the staged files *)

(** X16: a request whose path canonicalises outside the root directory is
    answered with ERR_FAIL by [_work_list], [_work_create_directory],
    [_work_remove_directory] and [_work_remove_file], and a rename with
    either name outside it by [_work_rename]'s check, in each case without
    a call that opens, lists or changes anything in the filesystem. *)
Theorem handlers_confined_to_root (fs : Fs) (srv : Server)
  (payload : PayloadHeader.t) :
  not_prefixed_by (_root_dir srv) (snd (_get_path fs srv payload)) = true ->
  (forall list_hidden,
      code_of (_work_list fs srv payload list_hidden) = ERR_FAIL
      /\ ops_of (_work_list fs srv payload list_hidden) = [])
  /\ (code_of (_work_create_directory fs srv payload) = ERR_FAIL
      /\ ops_of (_work_create_directory fs srv payload) = [])
  /\ (code_of (_work_remove_directory fs srv payload) = ERR_FAIL
      /\ ops_of (_work_remove_directory fs srv payload) = [])
  /\ (code_of (_work_remove_file fs srv payload) = ERR_FAIL
      /\ ops_of (_work_remove_file fs srv payload) = [])
  /\ (forall other,
         rename_checked fs srv (snd (_get_path fs srv payload)) other
         = (ERR_FAIL, [])
         /\ rename_checked fs srv other (snd (_get_path fs srv payload))
            = (ERR_FAIL, [])).
Proof.
  intros H.
  unfold _work_list, _work_create_directory, _work_remove_directory,
    _work_remove_file, rename_checked.
  destruct (_get_path fs srv payload) as [p path]. cbn [snd] in *.
  rewrite H.
  split; [intros list_hidden; split; reflexivity|].
  split; [split; reflexivity|].
  split; [split; reflexivity|].
  split; [split; reflexivity|].
  intros other. split; [reflexivity|]. now rewrite orb_true_r.
Qed.

Lemma tmp_files_find_set_same (m : list (string * string))
  (key value : string) :
  tmp_files_find (tmp_files_set m key value) key = Some value.
Proof. unfold tmp_files_set. cbn. now rewrite String.eqb_refl. Qed.

Lemma tmp_files_find_set_other (m : list (string * string))
  (key value other : string) :
  other <> key ->
  tmp_files_find (tmp_files_set m key value) other = tmp_files_find m other.
Proof.
  intros Hne. unfold tmp_files_set. cbn [tmp_files_find].
  assert (E : String.eqb key other = false)
    by (apply String.eqb_neq; congruence).
  rewrite E. induction m as [|[k v] m IH]; cbn; [reflexivity|].
  destruct (String.eqb_spec k key) as [->|Hk]; cbn.
  - now rewrite E.
  - destruct (String.eqb k other); [reflexivity | exact IH].
Qed.

Lemma write_tmp_file_success (fs : Fs) (srv srv' : Server)
  (path content file_path : string) (ops : list FsOp) :
  write_tmp_file fs srv path content = (Some file_path, srv', ops) ->
  file_path = (_tmp_dir srv' ++ path_separator ++ path)%string
  /\ ops = [OpWriteFile file_path content]
  /\ tmp_files_find (_tmp_files srv') path = Some file_path
  /\ (forall other,
         other <> path ->
         tmp_files_find (_tmp_files srv') other
         = tmp_files_find (_tmp_files srv) other)
  /\ _session_info srv' = _session_info srv
  /\ _root_dir srv' = _root_dir srv.
Proof.
  unfold write_tmp_file. intros H.
  destruct (contains ".." path); [discriminate H|].
  destruct (contains "/" path); [discriminate H|].
  destruct (contains backslash path); [discriminate H|].
  set (srv1 := if (String.length (_tmp_dir srv) =? 0)%nat
               then match os_create_tmp_directory fs
                            "mavsdk-mavlink-ftp-tmp-files" with
                    | Some dir =>
                        mkServer (_session_info srv) (_root_dir srv) dir
                                 (_tmp_files srv) (system_id srv)
                    | None => srv
                    end
               else srv) in *.
  assert (Hsame : _tmp_files srv1 = _tmp_files srv
                  /\ _session_info srv1 = _session_info srv
                  /\ _root_dir srv1 = _root_dir srv).
  { unfold srv1. destruct (String.length (_tmp_dir srv) =? 0)%nat;
      [|auto]. destruct (os_create_tmp_directory fs _); cbn; auto. }
  destruct Hsame as (Hf & Hsi & Hr).
  destruct (os_write_file fs _ content); cbn [negb] in H;
    [|discriminate H].
  inversion H; subst. cbn [_tmp_dir _tmp_files _session_info _root_dir].
  repeat split; auto.
  - apply tmp_files_find_set_same.
  - intros other Hne. rewrite tmp_files_find_set_other by exact Hne.
    now rewrite Hf.
Qed.

(** X17: [write_tmp_file] refuses a name that contains "..", a slash or a
    backslash without touching anything; when it succeeds, the file
    written is the temporary directory, a separator and the name, and from
    then on the name maps to that file while every other name maps to what
    it mapped to before. *)
Theorem write_tmp_file_stages (fs : Fs) (srv : Server) (path content : string) :
  (contains ".." path || contains "/" path || contains backslash path = true ->
   write_tmp_file fs srv path content = (None, srv, []))
  /\ (forall file_path srv' ops,
         write_tmp_file fs srv path content = (Some file_path, srv', ops) ->
         file_path = (_tmp_dir srv' ++ path_separator ++ path)%string
         /\ ops = [OpWriteFile file_path content]
         /\ tmp_files_find (_tmp_files srv') path = Some file_path
         /\ (forall other,
                other <> path ->
                tmp_files_find (_tmp_files srv') other
                = tmp_files_find (_tmp_files srv) other)
         /\ _session_info srv' = _session_info srv
         /\ _root_dir srv' = _root_dir srv).
Proof.
  split.
  - unfold write_tmp_file. intros H.
    destruct (contains ".." path); [reflexivity|].
    destruct (contains "/" path); [reflexivity|].
    cbn [orb] in H. now rewrite H.
  - intros file_path srv' ops. apply write_tmp_file_success.
Qed.

(** *** Opening a file *)

Lemma memcpy_at_0_app (data src : list Z) :
  (List.length src <= List.length data)%nat ->
  memcpy_at data 0 src = src ++ skipn (List.length src) data.
Proof.
  intros Hle. unfold memcpy_at. rewrite firstn_O, app_nil_l.
  apply firstn_all2. rewrite length_app, length_skipn. lia.
Qed.

Lemma data_as_string_data_length (payload : PayloadHeader.t) :
  List.length (PayloadHeader.data (fst (_data_as_string payload)))
  = List.length (PayloadHeader.data payload).
Proof. unfold _data_as_string. cbn. apply length_poke. Qed.

Lemma get_path_payload (fs : Fs) (srv : Server) (payload : PayloadHeader.t) :
  _get_path fs srv payload
  = (fst (_data_as_string payload),
     _get_path_of fs srv (snd (_data_as_string payload))).
Proof. unfold _get_path. now destruct (_data_as_string payload). Qed.

Lemma work_open_unfold (fs : Fs) (srv : Server) (payload : PayloadHeader.t)
  (oflag : Z) :
  si_fd (_session_info srv) < 0 ->
  _work_open fs srv payload oflag =
  let p1 := fst (_data_as_string payload) in
  let path := open_path fs srv payload in
  if (String.length path =? 0)%nat then (ERR_FAIL, srv, p1, [])
  else if (Z.land oflag O_ACCMODE =? O_RDONLY) && negb (os_exists fs path)
  then (ERR_FAIL_FILE_DOES_NOT_EXIST, srv, p1, [])
  else if fst (os_open fs path oflag) <? 0 then
    (if snd (os_open fs path oflag) =? ENOENT
     then ERR_FAIL_FILE_DOES_NOT_EXIST else ERR_FAIL,
     srv, p1, [OpOpen path oflag])
  else
    (SUCCESS,
     set_session_info srv
       (mkSessionInfo (fst (os_open fs path oflag))
          (u32 (os_file_size fs path)) false
          (stream_offset (_session_info srv))
          (stream_seq_number (_session_info srv))
          (stream_target_system_id (_session_info srv))
          (stream_chunk_transmitted (_session_info srv))),
     PayloadHeader.set_data
       (PayloadHeader.set_size (PayloadHeader.set_session p1 0) 4)
       (memcpy_at (PayloadHeader.data p1) 0
                  (u32_bytes (u32 (os_file_size fs path)))),
     [OpOpen path oflag]).
Proof.
  intros Hfd. unfold _work_open, open_path.
  replace (si_fd (_session_info srv) >=? 0) with false
    by (symmetry; rewrite Z.geb_leb; apply Z.leb_gt; exact Hfd).
  assert (Hidem : _data_as_string (fst (_data_as_string payload))
                  = _data_as_string payload).
  { unfold _data_as_string. cbn. now rewrite poke_poke. }
  destruct (_data_as_string payload) as [p1 name] eqn:Hd. cbn [fst snd] in *.
  destruct (tmp_files_find (_tmp_files srv) name) as [staged|].
  - cbv zeta.
    destruct (String.length staged =? 0)%nat; [reflexivity|].
    destruct ((Z.land oflag O_ACCMODE =? O_RDONLY)
              && negb (os_exists fs staged)); [reflexivity|].
    destruct (os_open fs staged oflag) as [fd errno]. cbn [fst snd].
    destruct (fd <? 0); reflexivity.
  - rewrite get_path_payload, Hidem. cbn [fst snd]. cbv zeta.
    destruct (String.length (_get_path_of fs srv name) =? 0)%nat;
      [reflexivity|].
    destruct ((Z.land oflag O_ACCMODE =? O_RDONLY)
              && negb (os_exists fs (_get_path_of fs srv name)));
      [reflexivity|].
    destruct (os_open fs (_get_path_of fs srv name) oflag) as [fd errno].
    cbn [fst snd]. destruct (fd <? 0); reflexivity.
Qed.

(** X18: a successful [_work_open] leaves in the payload session 0, size
    4 and, in the first four data bytes, least significant first, the size
    of the file it opened, which is also the size it records for the
    session and tests reads against; its one filesystem call is the
    [open] of that file. *)
Theorem open_reports_file_size (fs : Fs) (srv srv' : Server)
  (payload payload' : PayloadHeader.t) (oflag : Z) (ops : list FsOp) :
  _work_open fs srv payload oflag = (SUCCESS, srv', payload', ops) ->
  List.length (PayloadHeader.data payload) = 239%nat ->
  PayloadHeader.session payload' = 0
  /\ PayloadHeader.size payload' = 4
  /\ read_u32 (PayloadHeader.data payload')
     = si_file_size (_session_info srv')
  /\ si_file_size (_session_info srv')
     = u32 (os_file_size fs (open_path fs srv payload))
  /\ si_fd (_session_info srv')
     = fst (os_open fs (open_path fs srv payload) oflag)
  /\ ops = [OpOpen (open_path fs srv payload) oflag].
Proof.
  intros H Hlen.
  destruct (Z.ltb_spec (si_fd (_session_info srv)) 0) as [Hfd|Hfd].
  2:{ unfold _work_open in H.
      replace (si_fd (_session_info srv) >=? 0) with true in H
        by (symmetry; rewrite Z.geb_leb; now apply Z.leb_le).
      discriminate H. }
  rewrite (work_open_unfold fs srv payload oflag Hfd) in H. cbv zeta in H.
  destruct (String.length (open_path fs srv payload) =? 0)%nat;
    [discriminate H|].
  destruct ((Z.land oflag O_ACCMODE =? O_RDONLY)
            && negb (os_exists fs (open_path fs srv payload)));
    [discriminate H|].
  destruct (fst (os_open fs (open_path fs srv payload) oflag) <? 0).
  - destruct (snd (os_open fs (open_path fs srv payload) oflag) =? ENOENT);
      discriminate H.
  - injection H as Hsrv Hp Hops. subst srv' payload' ops.
    cbn [PayloadHeader.session PayloadHeader.size PayloadHeader.data
         PayloadHeader.set_session PayloadHeader.set_size
         PayloadHeader.set_data _session_info set_session_info si_file_size
         si_fd].
    repeat match goal with |- _ /\ _ => split end; try reflexivity.
    rewrite memcpy_at_0_app by (rewrite length_poke, Hlen; cbn; lia).
    apply read_u32_little_endian. unfold u32. apply Z.mod_pos_bound. lia.
Qed.

Lemma append_length (a b : string) :
  String.length (a ++ b) = (String.length a + String.length b)%nat.
Proof. induction a as [|c a IH]; cbn; [reflexivity|]. now rewrite IH. Qed.

(** X19: a name staged by [write_tmp_file] is what [_work_open] opens
    when a request names it: with no file open, and the staged file
    present or the open not read-only, the one filesystem call of
    [_work_open] is the [open] of the staged path, not of a path under the
    root directory. *)
Theorem staged_file_is_opened (fs fs2 : Fs) (srv srv' : Server)
  (name content file_path : string) (ops : list FsOp)
  (payload : PayloadHeader.t) (oflag : Z) :
  write_tmp_file fs srv name content = (Some file_path, srv', ops) ->
  si_fd (_session_info srv') < 0 ->
  snd (_data_as_string payload) = name ->
  Z.land oflag O_ACCMODE <> O_RDONLY \/ os_exists fs2 file_path = true ->
  ops_of (_work_open fs2 srv' payload oflag) = [OpOpen file_path oflag].
Proof.
  intros Hw Hfd Hname Hok.
  destruct (write_tmp_file_success fs srv srv' name content file_path ops Hw)
    as (Hpath & _ & Hfind & _).
  rewrite (work_open_unfold fs2 srv' payload oflag Hfd). cbv zeta.
  assert (Hop : open_path fs2 srv' payload = file_path)
    by (unfold open_path; now rewrite Hname, Hfind).
  rewrite Hop.
  assert (Hl : (String.length file_path =? 0)%nat = false).
  { apply Nat.eqb_neq. rewrite Hpath, !append_length. cbn. lia. }
  rewrite Hl.
  assert (Hg : (Z.land oflag O_ACCMODE =? O_RDONLY)
               && negb (os_exists fs2 file_path) = false).
  { destruct Hok as [Hne|He].
    - apply Z.eqb_neq in Hne. now rewrite Hne.
    - rewrite He. now rewrite andb_false_r. }
  rewrite Hg.
  destruct (fst (os_open fs2 file_path oflag) <? 0); reflexivity.
Qed.

(** *** The single-operation machine *)

(** X20: with a progress callback registered and a non-zero total,
    [_call_op_progress_callback] reports at most once, with Next and the
    two counts it was given, and a following call whose whole percentage
    is the same reports nothing and changes nothing; with a total of zero
    it divides by zero. *)
Theorem progress_reported_once_per_percent (l : Legacy) (cb : CallbackId)
  (bytes1 bytes2 total : Z) :
  _curr_op_progress_callback l = Some cb ->
  total <> 0 ->
  (exists l1 acts1,
      _call_op_progress_callback l bytes1 total = Some (l1, acts1)
      /\ (acts1 = []
          \/ acts1 = [Act (Call cb Next (mkProgressData bytes1 total))])
      /\ (progress_percentage bytes2 total = progress_percentage bytes1 total ->
          _call_op_progress_callback l1 bytes2 total = Some (l1, [])))
  /\ _call_op_progress_callback l bytes1 0 = None.
Proof.
  intros Hcb Hne. apply Z.eqb_neq in Hne. split.
  - unfold _call_op_progress_callback at 1. rewrite Hcb, Hne.
    destruct (Z.eqb_spec (_last_progress_percentage l)
                (int_of_u32 (progress_percentage bytes1 total))) as [E|N];
      cbn [negb]; do 2 eexists; (split; [reflexivity|]); (split; [auto|]);
      intros Hsame; unfold _call_op_progress_callback;
      cbn [_curr_op_progress_callback set_last_progress_percentage
           _last_progress_percentage];
      rewrite Hcb, Hne, Hsame.
    + rewrite E, Z.eqb_refl. reflexivity.
    + rewrite Z.eqb_refl. reflexivity.
  - unfold _call_op_progress_callback. now rewrite Hcb.
Qed.

Lemma translate_success_iff (result : Z) :
  _translate result = Success <-> result = SUCCESS.
Proof.
  unfold _translate. destruct (Z.eqb_spec result SUCCESS) as [E|N].
  - tauto.
  - split; [|contradiction].
    repeat match goal with
    | |- context [if ?c then _ else _] => destruct c
    end; discriminate.
Qed.

(** X21: [are_files_identical_async] without a callback does nothing; when
    the local checksum cannot be computed it reports that result with
    "not identical" and sends nothing; otherwise, the machine being idle
    and the path short enough, it sends CALC_FILE_CRC32, and the ACK of
    that request reports Success together with whether the checksum in
    its first four data bytes equals the local one, while a NAK with a
    server result other than SUCCESS reports the translated result with
    "not identical". *)
Theorem files_identical_verdict (l : Legacy) (cb : CallbackId)
  (crc_local : Z) (remote_path : string) :
  _curr_op (engine l) = CMD_NONE ->
  str_length remote_path < max_data_length ->
  are_files_identical_async l (Success, crc_local) remote_path None = (l, [])
  /\ (forall r crc,
         r <> Success ->
         are_files_identical_async l (r, crc) remote_path (Some cb)
         = (l, [CallIdentical cb r false]))
  /\ exists l1 p,
       are_files_identical_async l (Success, crc_local) remote_path (Some cb)
       = (l1, [Act StartTimer; Act (Send p)])
       /\ PayloadHeader.opcode p = CMD_CALC_FILE_CRC32
       /\ PayloadHeader.seq_number p = _seq_number (engine l)
       /\ (forall payload env,
              seq_lt (PayloadHeader.seq_number payload)
                     (_seq_number (engine l1)) = false ->
              PayloadHeader.req_opcode payload = CMD_CALC_FILE_CRC32 ->
              exists l2,
                _process_ack l1 payload env =
                Some (l2,
                      [CallIdentical cb Success
                         (crc_local
                          =? read_u32 (PayloadHeader.data payload))])
                /\ _curr_op (engine l2) = CMD_NONE)
       /\ (forall result,
              result <> SUCCESS ->
              exists l2,
                _process_nak_result l1 result =
                (l2, [CallIdentical cb (_translate result) false])
                /\ _curr_op (engine l2) = CMD_NONE).
Proof.
  intros Hop Hlen. split; [reflexivity|]. split.
  - intros r crc Hr. unfold are_files_identical_async.
    destruct r; try reflexivity. contradiction.
  - unfold are_files_identical_async. cbn [ClientResult_eqb negb].
    unfold _calc_file_crc32_async. rewrite Hop.
    change (CMD_NONE =? CMD_NONE) with true. cbn [negb].
    replace (str_length remote_path >=? max_data_length) with false
      by (symmetry; rewrite Z.geb_leb; apply Z.leb_gt; exact Hlen).
    unfold next_seq_number. cbv zeta.
    do 2 eexists. split; [reflexivity|].
    split; [reflexivity|]. split; [reflexivity|]. split.
    + intros payload env Hfresh Hreq. unfold _process_ack.
      cbn [engine set_engine set_current_crc32_result_callback _seq_number
           set_curr_op set_seq_number _curr_op] in *.
      rewrite Hfresh, Hreq.
      eexists. split; [reflexivity|]. reflexivity.
    + intros result Hres. unfold _process_nak_result.
      cbn [engine set_engine set_current_crc32_result_callback _curr_op
           set_curr_op set_seq_number].
      change (CMD_CALC_FILE_CRC32 =? CMD_NONE) with false.
      change ((CMD_CALC_FILE_CRC32 =? CMD_OPEN_FILE_RO)
              || (CMD_CALC_FILE_CRC32 =? CMD_READ_FILE)) with false.
      change ((CMD_CALC_FILE_CRC32 =? CMD_OPEN_FILE_WO)
              || (CMD_CALC_FILE_CRC32 =? CMD_WRITE_FILE)) with false.
      change (CMD_CALC_FILE_CRC32 =? CMD_TERMINATE_SESSION) with false.
      change (CMD_CALC_FILE_CRC32 =? CMD_LIST_DIRECTORY) with false.
      change (CMD_CALC_FILE_CRC32 =? CMD_CALC_FILE_CRC32) with true.
      cbv iota.
      match goal with
      | |- exists l2, (?a, _) = _ /\ _ => exists a
      end.
      split; [|reflexivity]. f_equal.
      unfold _call_crc32_result_callback.
      cbn [_current_crc32_result_callback run_crc32_callback].
      destruct (_translate result) eqn:Et; try reflexivity.
      apply translate_success_iff in Et. contradiction.
Qed.

(** *** Directory listings *)

Lemma string_of_bytes_of_string (s : string) :
  string_of_bytes (bytes_of_string s) = s.
Proof.
  unfold string_of_bytes, bytes_of_string. rewrite map_map.
  induction s as [|c s IH]; cbn; [reflexivity|].
  rewrite N2Z.id, ascii_N_embedding. f_equal. exact IH.
Qed.

Lemma bytes_of_string_length (s : string) :
  List.length (bytes_of_string s) = String.length s.
Proof.
  unfold bytes_of_string. rewrite length_map.
  induction s as [|c s IH]; cbn; [reflexivity|]. now rewrite IH.
Qed.

Lemma scan_entries_skip (data : list Z) (idxs1 idxs2 : list nat)
  (start : nat) (acc : list string) :
  Forall (fun i => nth i data 0 <> 0) idxs1 ->
  scan_entries data (idxs1 ++ idxs2) start acc
  = scan_entries data idxs2 start acc.
Proof.
  induction 1 as [|i idxs1 Hi _ IH]; cbn [app scan_entries]; [reflexivity|].
  apply Z.eqb_neq in Hi. now rewrite Hi.
Qed.

Lemma encode_entries_cons (e : string) (es : list string) :
  encode_entries (e :: es) = bytes_of_string e ++ 0 :: encode_entries es.
Proof.
  unfold encode_entries. cbn [map List.concat].
  now rewrite <- app_assoc.
Qed.

(** Scanning a buffer that holds entries, each with its NUL, finds the
    entries. *)
Lemma scan_entries_encoded (es : list string) :
  forall (pre rest : list Z) (acc : list string),
  Forall (fun e => nul_free e /\ e <> EmptyString) es ->
  scan_entries (pre ++ encode_entries es ++ rest)
               (seq (List.length pre) (List.length (encode_entries es)))
               (List.length pre) acc
  = acc ++ es.
Proof.
  induction es as [|e es IH]; intros pre rest acc Hall.
  - cbn. now rewrite app_nil_r.
  - inversion_clear Hall as [|? ? [Hfree Hne] Hes].
    rewrite encode_entries_cons.
    set (b := bytes_of_string e) in *.
    assert (Hb : List.length b = String.length e)
      by apply bytes_of_string_length.
    rewrite length_app. cbn [List.length].
    rewrite seq_app. cbn [seq].
    rewrite <- (app_assoc b). cbn [app].
    rewrite scan_entries_skip.
    2:{ apply Forall_forall. intros i Hi. apply in_seq in Hi.
        replace i with (List.length pre + (i - List.length pre))%nat by lia.
        rewrite app_nth2_plus. rewrite app_nth1 by lia.
        unfold nul_free in Hfree. fold b in Hfree.
        rewrite Forall_forall in Hfree. apply Hfree. apply nth_In. lia. }
    cbn [scan_entries].
    rewrite app_nth2_plus. rewrite app_nth2 by lia.
    rewrite Nat.sub_diag. cbn [nth].
    change (0 =? 0) with true. cbv iota.
    rewrite skipn_app, skipn_all, Nat.sub_diag, skipn_O. cbn [app].
    rewrite c_str_app_nul, c_str_nul_free by exact Hfree.
    subst b. rewrite string_of_bytes_of_string.
    replace (0 <? String.length e)%nat with true.
    2:{ symmetry. apply Nat.ltb_lt. destruct e; [contradiction|cbn; lia]. }
    specialize (IH (pre ++ bytes_of_string e ++ [0]) rest (acc ++ [e]) Hes).
    rewrite !length_app in IH. cbn [List.length] in IH.
    replace (List.length pre + (List.length (bytes_of_string e) + 1))%nat
      with (S (List.length pre + List.length (bytes_of_string e))) in IH
      by lia.
    rewrite <- !app_assoc in IH. cbn [app] in IH.
    exact IH.
Qed.

Lemma parse_entries_encoded (payload : PayloadHeader.t) (es : list string)
  (rest : list Z) :
  PayloadHeader.data payload = encode_entries es ++ rest ->
  PayloadHeader.size payload = Z.of_nat (List.length (encode_entries es)) ->
  Forall (fun e => nul_free e /\ e <> EmptyString) es ->
  parse_entries payload = es.
Proof.
  intros Hdata Hsize Hall. unfold parse_entries.
  rewrite Hdata, Hsize, Nat2Z.id.
  exact (scan_entries_encoded es [] rest [] Hall).
Qed.

(** X22: an ACK of LIST_DIRECTORY whose data are entries, each non-empty,
    without NUL and followed by a NUL, adds exactly these entries, in
    order, to the accumulated list; if it brought entries, the next batch
    is requested with an offset equal to the number of entries accumulated
    so far; if it brought none, the listing completes: the callback gets
    Success and the accumulated list. *)
Theorem directory_listing_accumulates (l : Legacy)
  (payload : PayloadHeader.t) (env : Env) (es : list string) (rest : list Z) :
  _curr_op (engine l) = CMD_LIST_DIRECTORY ->
  PayloadHeader.req_opcode payload = CMD_LIST_DIRECTORY ->
  seq_lt (PayloadHeader.seq_number payload) (_seq_number (engine l)) = false ->
  PayloadHeader.data payload = encode_entries es ++ rest ->
  PayloadHeader.size payload = Z.of_nat (List.length (encode_entries es)) ->
  Forall (fun e => nul_free e /\ e <> EmptyString) es ->
  Z.of_nat (List.length (_curr_directory_list (engine l) ++ es)) < 4294967296 ->
  exists l' acts,
    _process_ack l payload env = Some (l', acts)
    /\ _curr_directory_list (engine l')
       = _curr_directory_list (engine l) ++ es
    /\ (es <> [] ->
        _curr_op (engine l') = CMD_LIST_DIRECTORY
        /\ exists p,
             acts = [Act (Send p)]
             /\ PayloadHeader.opcode p = CMD_LIST_DIRECTORY
             /\ PayloadHeader.offset p
                = Z.of_nat (List.length (_curr_directory_list (engine l)
                                         ++ es)))
    /\ (es = [] ->
        _curr_op (engine l') = CMD_NONE
        /\ acts
           = match _curr_dir_items_result_callback (engine l) with
             | Some cb =>
                 [Act (CallDirItems cb Success
                         (_curr_directory_list (engine l)))]
             | None => []
             end).
Proof.
  intros Hop Hreq Hfresh Hdata Hsize Hall Hbound.
  pose proof (parse_entries_encoded payload es rest Hdata Hsize Hall) as Hparse.
  unfold _process_ack. rewrite Hfresh, Hop, Hreq.
  change (negb (CMD_LIST_DIRECTORY =? CMD_LIST_DIRECTORY)) with false.
  change (CMD_LIST_DIRECTORY =? CMD_NONE) with false.
  change (CMD_LIST_DIRECTORY =? CMD_OPEN_FILE_RO) with false.
  change (CMD_LIST_DIRECTORY =? CMD_READ_FILE) with false.
  change (CMD_LIST_DIRECTORY =? CMD_OPEN_FILE_WO) with false.
  change (CMD_LIST_DIRECTORY =? CMD_WRITE_FILE) with false.
  change ((CMD_LIST_DIRECTORY =? CMD_TERMINATE_SESSION)
          || (CMD_LIST_DIRECTORY =? CMD_RESET_SESSIONS)) with false.
  change (CMD_LIST_DIRECTORY =? CMD_LIST_DIRECTORY) with true.
  cbv iota zeta. rewrite Hparse.
  destruct es as [|e es'].
  - cbn [List.length Nat.ltb Nat.leb].
    do 2 eexists. split; [reflexivity|].
    cbn [engine set_engine set_op set_curr_op set_curr_directory_list
         _curr_directory_list _curr_op].
    rewrite app_nil_r.
    split; [reflexivity|]. split; [intros H; contradiction|].
    intros _. split; [reflexivity|].
    unfold _call_dir_items_result_callback.
    cbn [engine set_engine set_op set_curr_op set_curr_directory_list
         _curr_dir_items_result_callback].
    destruct (_curr_dir_items_result_callback (engine l)); reflexivity.
  - cbn [List.length Nat.ltb Nat.leb].
    unfold legacy_list_directory, _list_directory, next_seq_number.
    cbn [engine set_engine set_curr_directory_list _curr_directory_list].
    assert (Hu : u32 (Z.of_nat (List.length
                                  (_curr_directory_list (engine l)
                                   ++ e :: es')))
                 = Z.of_nat (List.length (_curr_directory_list (engine l)
                                          ++ e :: es'))).
    { unfold u32. apply Z.mod_small. lia. }
    rewrite Hu.
    assert (Hnz : (Z.of_nat (List.length (_curr_directory_list (engine l)
                                          ++ e :: es')) =? 0) = false).
    { apply Z.eqb_neq. rewrite length_app. cbn [List.length]. lia. }
    cbv zeta. rewrite Hnz.
    do 2 eexists. split; [reflexivity|].
    split; [reflexivity|]. split; [|intros H; discriminate H].
    intros _. split; [reflexivity|].
    eexists. split; [reflexivity|]. split; reflexivity.
Qed.

Lemma memcpy_at_in_bounds (buf : list Z) (at_ : nat) (src : list Z) :
  (at_ + List.length src <= List.length buf)%nat ->
  memcpy_at buf at_ src
  = firstn at_ buf ++ src ++ skipn (at_ + List.length src) buf.
Proof.
  intros Hle. unfold memcpy_at. apply firstn_all2.
  rewrite !length_app, length_firstn, length_skipn. lia.
Qed.

Lemma length_memcpy_at (buf : list Z) (at_ : nat) (src : list Z) :
  (at_ + List.length src <= List.length buf)%nat ->
  List.length (memcpy_at buf at_ src) = List.length buf.
Proof.
  intros Hle. rewrite memcpy_at_in_bounds by exact Hle.
  rewrite !length_app, length_firstn, length_skipn. lia.
Qed.

Lemma memcpy_at_nil (buf : list Z) (at_ : nat) :
  (at_ <= List.length buf)%nat -> memcpy_at buf at_ [] = buf.
Proof.
  intros Hle. rewrite memcpy_at_in_bounds by (cbn; lia).
  cbn [app List.length]. rewrite Nat.add_0_r. apply firstn_skipn.
Qed.

Lemma memcpy_at_compose (buf : list Z) (at_ : nat) (a b : list Z) :
  (at_ + List.length a + List.length b <= List.length buf)%nat ->
  memcpy_at (memcpy_at buf at_ a) (at_ + List.length a) b
  = memcpy_at buf at_ (a ++ b).
Proof.
  intros Hle.
  rewrite (memcpy_at_in_bounds (memcpy_at buf at_ a))
    by (rewrite length_memcpy_at; lia).
  rewrite (memcpy_at_in_bounds buf at_ a) by lia.
  rewrite (memcpy_at_in_bounds buf at_ (a ++ b))
    by (rewrite length_app; lia).
  assert (Hf : List.length (firstn at_ buf) = at_)
    by (rewrite length_firstn; lia).
  rewrite (app_assoc (firstn at_ buf) a).
  rewrite firstn_app.
  replace (at_ + List.length a - List.length (firstn at_ buf ++ a))%nat
    with 0%nat by (rewrite length_app; lia).
  rewrite firstn_O, app_nil_r.
  rewrite firstn_all2 by (rewrite length_app; lia).
  rewrite skipn_app.
  rewrite (skipn_all2 (firstn at_ buf ++ a)) by (rewrite length_app; lia).
  replace (at_ + List.length a + List.length b
           - List.length (firstn at_ buf ++ a))%nat
    with (List.length b) by (rewrite length_app; lia).
  rewrite skipn_skipn, length_app. cbn [app].
  rewrite <- !app_assoc. do 3 f_equal. f_equal. lia.
Qed.

Lemma fit_entries_bound (es : list string) : forall off : Z,
  0 <= off <= max_data_length ->
  off + Z.of_nat (List.length (encode_entries (fit_entries es off)))
  <= max_data_length.
Proof.
  induction es as [|e es IH]; intros off Hoff; cbn [fit_entries].
  - cbn. lia.
  - destruct (Z.gtb_spec (off + str_length e + 1) max_data_length) as [G|G].
    + cbn. lia.
    + rewrite encode_entries_cons, length_app. cbn [List.length].
      rewrite bytes_of_string_length.
      assert (Hs : 0 <= str_length e) by (unfold str_length; lia).
      specialize (IH (off + str_length e + 1) ltac:(lia)).
      unfold str_length in *. lia.
Qed.

Lemma fit_entries_Forall (P : string -> Prop) (es : list string) :
  forall off, Forall P es -> Forall P (fit_entries es off).
Proof.
  induction es as [|e es IH]; intros off H; cbn [fit_entries];
    [constructor|].
  inversion_clear H.
  destruct (off + str_length e + 1 >? max_data_length); [constructor|].
  constructor; auto.
Qed.

Lemma Forall_skipn_any {A : Type} (P : A -> Prop) (n : nat) :
  forall l : list A, Forall P l -> Forall P (skipn n l).
Proof.
  induction n as [|n IH]; intros l H; [exact H|].
  destruct l as [|a l]; [constructor|]. inversion_clear H. now apply IH.
Qed.

(** Skipping the requested number of entries, then filling. *)
Lemma list_fill_skip (fs : Fs) (srv : Server) (path : string)
  (list_hidden : bool) (entries : list Dirent) :
  forall (k : Z) (data : list Z) (off : Z),
  0 <= k ->
  list_fill fs srv path list_hidden entries k data off
  = list_fill fs srv path list_hidden (skipn (Z.to_nat k) entries) 0 data off.
Proof.
  induction entries as [|dp r IH]; intros k data off Hk.
  - now rewrite skipn_nil.
  - destruct (Z.eq_dec k 0) as [->|Hne]; [reflexivity|].
    cbn [list_fill].
    replace (k >? 0) with true by (symmetry; apply Z.gtb_lt; lia).
    rewrite IH by lia.
    replace (Z.to_nat k) with (S (Z.to_nat (k - 1))) by lia.
    reflexivity.
Qed.

(** Filling a buffer from [off] on writes the entries that fit. *)
Lemma list_fill_fit (fs : Fs) (srv : Server) (path : string)
  (list_hidden : bool) (entries : list Dirent) :
  forall (data : list Z) (off : Z),
  List.length data = 239%nat ->
  0 <= off <= max_data_length ->
  list_fill fs srv path list_hidden entries 0 data off
  = (memcpy_at data (Z.to_nat off)
       (encode_entries
          (fit_entries (map (list_entry fs srv path list_hidden) entries)
                       off)),
     off + Z.of_nat
             (List.length
                (encode_entries
                   (fit_entries
                      (map (list_entry fs srv path list_hidden) entries)
                      off)))).
Proof.
  induction entries as [|dp r IH]; intros data off Hlen Hoff.
  - cbn [list_fill map fit_entries encode_entries List.concat List.length].
    rewrite memcpy_at_nil by (rewrite Hlen; unfold max_data_length in *; lia).
    f_equal. cbn. lia.
  - cbn [list_fill map fit_entries]. change (0 >? 0) with false. cbv iota.
    set (e := list_entry fs srv path list_hidden dp).
    destruct (Z.gtb_spec (off + str_length e + 1) max_data_length) as [G|G].
    + cbn [encode_entries map List.concat List.length].
      rewrite memcpy_at_nil
        by (rewrite Hlen; unfold max_data_length in *; lia).
      f_equal. cbn. lia.
    + assert (Hs : 0 <= str_length e) by (unfold str_length; lia).
      unfold max_data_length in *.
      assert (Hu1 : u8 (str_length e + 1) = str_length e + 1)
        by (unfold u8; apply Z.mod_small; lia).
      rewrite Hu1.
      assert (Hu2 : u8 (off + (str_length e + 1)) = off + str_length e + 1)
        by (unfold u8; rewrite Z.mod_small; lia).
      rewrite Hu2.
      assert (Hbl : List.length (bytes_of_string e ++ [0])
                    = Z.to_nat (str_length e + 1)).
      { rewrite length_app, bytes_of_string_length. cbn [List.length].
        unfold str_length. lia. }
      rewrite <- Hbl, firstn_all.
      pose proof (fit_entries_bound
                    (map (list_entry fs srv path list_hidden) r)
                    (off + str_length e + 1)
                    ltac:(unfold max_data_length; lia)) as Hfit.
      unfold max_data_length in Hfit.
      rewrite IH.
      2:{ rewrite length_memcpy_at; [exact Hlen|]. rewrite Hlen, Hbl. lia. }
      2:{ lia. }
      rewrite encode_entries_cons.
      replace (Z.to_nat (off + str_length e + 1))
        with (Z.to_nat off + List.length (bytes_of_string e ++ [0%Z]))%nat
        by (rewrite Hbl; lia).
      rewrite memcpy_at_compose by (rewrite Hlen, Hbl; lia).
      rewrite <- app_assoc. cbn [app].
      f_equal. rewrite length_app. cbn [List.length].
      rewrite bytes_of_string_length. unfold str_length. lia.
Qed.

Lemma list_entry_not_empty (fs : Fs) (srv : Server) (path : string)
  (list_hidden : bool) (dp : Dirent) :
  list_entry fs srv path list_hidden dp <> EmptyString.
Proof.
  unfold list_entry.
  destruct (list_hidden || not_prefixed_by "." (d_name dp));
    [|discriminate].
  destruct (type_reg dp); [discriminate|].
  destruct (type_dir dp); discriminate.
Qed.

(** X23: what [_work_list] writes for a directory under the root, the
    client reads back.  With [offset] entries of the directory skipped,
    the payload it leaves holds the longest run of the following entries
    that fits in 239 bytes with their terminators, [size] is the number of
    bytes used, and [parse_entries], the scan of [_process_ack], returns
    exactly these entries, provided no entry contains a NUL. *)
Theorem listing_round_trip (fs : Fs) (srv : Server)
  (payload : PayloadHeader.t) (list_hidden : bool) (dirents : list Dirent) :
  List.length (PayloadHeader.data payload) = 239%nat ->
  0 <= PayloadHeader.offset payload ->
  not_prefixed_by (_root_dir srv) (snd (_get_path fs srv payload)) = false ->
  os_exists fs (snd (_get_path fs srv payload)) = true ->
  os_readdir fs (snd (_get_path fs srv payload)) = Some dirents ->
  Forall (fun dp =>
            nul_free (list_entry fs srv (snd (_get_path fs srv payload))
                                 list_hidden dp)) dirents ->
  code_of (_work_list fs srv payload list_hidden) = SUCCESS
  /\ parse_entries (payload_of (_work_list fs srv payload list_hidden))
     = fit_entries
         (map (list_entry fs srv (snd (_get_path fs srv payload)) list_hidden)
              (skipn (Z.to_nat (PayloadHeader.offset payload)) dirents)) 0
  /\ PayloadHeader.size (payload_of (_work_list fs srv payload list_hidden))
     = Z.of_nat
         (List.length
            (encode_entries
               (fit_entries
                  (map (list_entry fs srv (snd (_get_path fs srv payload))
                                   list_hidden)
                       (skipn (Z.to_nat (PayloadHeader.offset payload))
                              dirents)) 0)))
  /\ PayloadHeader.size (payload_of (_work_list fs srv payload list_hidden))
     <= 239.
Proof.
  intros Hlen Hoff Hroot Hex Hdir Hfree.
  unfold _work_list. rewrite get_path_payload in *. cbn [snd] in *.
  set (path := _get_path_of fs srv (snd (_data_as_string payload))) in *.
  rewrite Hroot, Hex, Hdir. cbn [negb].
  rewrite list_fill_skip by exact Hoff.
  rewrite list_fill_fit.
  2:{ now rewrite data_as_string_data_length. }
  2:{ unfold max_data_length. lia. }
  set (es := fit_entries
               (map (list_entry fs srv path list_hidden)
                    (skipn (Z.to_nat (PayloadHeader.offset payload)) dirents))
               0).
  pose proof (fit_entries_bound
                (map (list_entry fs srv path list_hidden)
                     (skipn (Z.to_nat (PayloadHeader.offset payload))
                            dirents)) 0
                ltac:(unfold max_data_length; lia)) as Hb.
  fold es in Hb. unfold max_data_length in Hb.
  cbn [code_of payload_of fst snd].
  split; [reflexivity|]. split; [|split].
  - apply (parse_entries_encoded _ es
             (skipn (List.length (encode_entries es))
                    (PayloadHeader.data (fst (_data_as_string payload))))).
    + cbn [PayloadHeader.data PayloadHeader.set_data PayloadHeader.set_size].
      change (Z.to_nat 0) with 0%nat.
      apply memcpy_at_0_app.
      rewrite data_as_string_data_length, Hlen. lia.
    + cbn [PayloadHeader.size PayloadHeader.set_size]. lia.
    + unfold es. apply fit_entries_Forall. apply Forall_map.
      apply Forall_skipn_any.
      apply Forall_impl with (2 := Hfree).
      intros dp Hdp. split; [exact Hdp | apply list_entry_not_empty].
  - cbn [PayloadHeader.size PayloadHeader.set_size]. lia.
  - cbn [PayloadHeader.size PayloadHeader.set_size]. lia.
Qed.

Lemma firstn_repeat_le {A : Type} (a : A) (m n : nat) :
  (m <= n)%nat -> firstn m (repeat a n) = repeat a m.
Proof.
  revert n. induction m as [|m IH]; intros n Hle; [reflexivity|].
  destruct n as [|n]; [lia|]. cbn. f_equal. apply IH. lia.
Qed.

Lemma strncpy_in_bounds (dst : list Z) (at_ : nat) (src : list Z) (n : nat) :
  Forall (fun b => b <> 0) src ->
  (List.length src <= n)%nat ->
  (at_ + n <= List.length dst)%nat ->
  strncpy dst at_ src n
  = firstn at_ dst ++ src ++ repeat 0 (n - List.length src)
    ++ skipn (at_ + n) dst.
Proof.
  intros Hsrc Hn Hdst. unfold strncpy.
  rewrite c_str_nul_free by exact Hsrc.
  rewrite (firstn_app n src), (firstn_all2 src) by lia.
  rewrite firstn_repeat_le by lia.
  rewrite firstn_all2.
  2:{ rewrite !length_app, !length_firstn, length_skipn, repeat_length. lia. }
  now rewrite <- app_assoc.
Qed.

Lemma poke_beyond (pre r : list Z) (i : nat) (v : Z) :
  (List.length pre <= i)%nat ->
  poke (pre ++ r) i v = pre ++ poke r (i - List.length pre) v.
Proof.
  intros Hle. unfold poke. rewrite length_app.
  destruct (Nat.ltb_spec i (List.length pre + List.length r)) as [L|L];
    destruct (Nat.ltb_spec (i - List.length pre) (List.length r)) as [L'|L'];
    try lia; [|reflexivity].
  rewrite (firstn_app i pre), (skipn_app (S i) pre).
  rewrite (firstn_all2 pre) by lia.
  assert (Hs : skipn (S i) pre = []) by (apply skipn_all2; lia).
  rewrite Hs, <- app_assoc. cbn [app].
  replace (S i - List.length pre)%nat with (S (i - List.length pre)) by lia.
  reflexivity.
Qed.

Lemma poke_nul_head (r : list Z) (i : nat) :
  exists r', poke (0 :: r) i 0 = 0 :: r'.
Proof.
  unfold poke. destruct (Nat.ltb i (List.length (0 :: r))); [|now exists r].
  destruct i as [|i]; cbn [firstn app]; eexists; reflexivity.
Qed.

(** The two names of a rename request, as [_work_rename] reads them from
    a buffer holding the first name, a NUL, the second name and a NUL. *)
Lemma rename_names_decoded (from_path to_path : string) (rest : list Z)
  (i : nat) :
  nul_free from_path -> nul_free to_path ->
  (String.length from_path + String.length to_path + 1 <= i)%nat ->
  let data := poke (bytes_of_string from_path
                    ++ 0 :: bytes_of_string to_path ++ 0 :: rest) i 0 in
  string_of_bytes (c_str data) = from_path
  /\ string_of_bytes (c_str (skipn (String.length from_path + 1) data))
     = to_path
  /\ existsb (fun b => b =? 0) (skipn (String.length from_path + 1) data)
     = true.
Proof.
  intros Hf Ht Hi data. subst data.
  replace (bytes_of_string from_path
           ++ 0 :: bytes_of_string to_path ++ 0 :: rest)
    with ((bytes_of_string from_path ++ 0 :: bytes_of_string to_path)
          ++ 0 :: rest)
    by (rewrite <- app_assoc; reflexivity).
  rewrite poke_beyond
    by (rewrite length_app; cbn [List.length];
        rewrite !bytes_of_string_length; lia).
  destruct (poke_nul_head rest
              (i - List.length (bytes_of_string from_path
                                ++ 0 :: bytes_of_string to_path)))
    as [r' ->].
  rewrite <- app_assoc. cbn [app]. split.
  - rewrite c_str_app_nul, c_str_nul_free by exact Hf.
    apply string_of_bytes_of_string.
  - replace (String.length from_path + 1)%nat
      with (List.length (bytes_of_string from_path ++ [0]))
      by (rewrite length_app, bytes_of_string_length; reflexivity).
    replace (bytes_of_string from_path
             ++ 0 :: bytes_of_string to_path ++ 0 :: r')
      with ((bytes_of_string from_path ++ [0])
            ++ bytes_of_string to_path ++ 0 :: r')
      by (rewrite <- app_assoc; reflexivity).
    rewrite skipn_app, skipn_all, Nat.sub_diag. cbn [app skipn]. split.
    + rewrite c_str_app_nul, c_str_nul_free by exact Ht.
      apply string_of_bytes_of_string.
    + rewrite existsb_app. cbn [existsb]. change (0 =? 0) with true.
      cbn [orb]. apply orb_true_r.
Qed.

(** X24: a rename request is read back by the server as it was written.
    For two names without NUL that pass the length test of
    [rename_async], the idle engine sends one [CMD_RENAME] payload of size
    [len from + len to + 2], and [_work_rename] applied to that payload
    reads both names inside the data array, and checks and renames exactly
    the two paths [_get_path] makes of the two names. *)
Theorem rename_request_decoded (st : Engine) (fs : Fs) (srv : Server)
  (from_path to_path : string) (cb : CallbackId) :
  _curr_op st = CMD_NONE ->
  nul_free from_path -> nul_free to_path ->
  str_length from_path + str_length to_path + 1 < max_data_length ->
  exists p,
    snd (rename_async st from_path to_path cb) = [Send p]
    /\ PayloadHeader.opcode p = CMD_RENAME
    /\ PayloadHeader.size p = str_length from_path + str_length to_path + 2
    /\ exists h,
         _work_rename fs srv p = Some h
         /\ code_of h
            = fst (rename_checked fs srv (_get_path_of fs srv from_path)
                                  (_get_path_of fs srv to_path))
         /\ ops_of h
            = snd (rename_checked fs srv (_get_path_of fs srv from_path)
                                  (_get_path_of fs srv to_path)).
Proof.
  intros Hop Hf Ht Hlen.
  unfold rename_async. rewrite Hop. change (CMD_NONE =? CMD_NONE) with true.
  cbn [negb].
  replace (str_length from_path + str_length to_path + 1 >=? max_data_length)
    with false by (symmetry; rewrite Z.geb_leb; apply Z.leb_gt; exact Hlen).
  unfold next_seq_number. cbn [snd].
  eexists. split; [reflexivity|].
  unfold str_length, max_data_length in *.
  set (lf := String.length from_path) in *.
  set (lt := String.length to_path) in *.
  cbn [PayloadHeader.opcode PayloadHeader.size PayloadHeader.data
       PayloadHeader.set_seq_number PayloadHeader.set_session
       PayloadHeader.set_opcode PayloadHeader.set_offset
       PayloadHeader.set_data PayloadHeader.set_size PayloadHeader.zero].
  assert (Hu1 : u8 (Z.of_nat lf + 1) = Z.of_nat lf + 1)
    by (unfold u8; apply Z.mod_small; lia).
  rewrite Hu1.
  assert (Hu2 : u8 (Z.of_nat lf + 1 + (Z.of_nat lt + 1))
                = Z.of_nat lf + Z.of_nat lt + 2)
    by (unfold u8; rewrite Z.mod_small; lia).
  rewrite Hu2.
  split; [reflexivity|]. split; [reflexivity|].
  (* the buffer after the two [strncpy] *)
  rewrite (strncpy_in_bounds _ 0 (bytes_of_string from_path))
    by (try exact Hf; rewrite ?bytes_of_string_length, ?repeat_length;
        fold lf; cbn; lia).
  rewrite bytes_of_string_length. fold lf. cbn [firstn app].
  replace (Z.to_nat (239 - 1) - lf)%nat with (S (237 - lf)) by lia.
  change (skipn (0 + Z.to_nat (239 - 1)) (repeat 0 (Z.to_nat max_data_length)))
    with [0].
  rewrite (strncpy_in_bounds _ _ (bytes_of_string to_path)).
  2:{ exact Ht. }
  2:{ rewrite bytes_of_string_length. fold lt. lia. }
  2:{ rewrite !length_app, bytes_of_string_length, !repeat_length.
      fold lf. cbn [List.length]. lia. }
  rewrite bytes_of_string_length. fold lt.
  replace (Z.to_nat (Z.of_nat lf + 1)) with (lf + 1)%nat by lia.
  rewrite firstn_app, bytes_of_string_length. fold lf.
  rewrite firstn_all2 by (rewrite bytes_of_string_length; fold lf; lia).
  replace (lf + 1 - lf)%nat with 1%nat by lia.
  cbn [repeat firstn app].
  replace (Z.to_nat (239 - (Z.of_nat lf + 1)) - lt)%nat
    with (S (237 - lf - lt)) by lia.
  cbn [repeat app].
  set (rest := repeat 0 (237 - lf - lt) ++ skipn _ _).
  unfold _work_rename, max_data_length.
  cbn [PayloadHeader.size PayloadHeader.data PayloadHeader.set_data
       PayloadHeader.set_size].
  set (term_i := if _ >=? _ then _ else _).
  assert (Hti : (lf + lt + 1 <= term_i)%nat).
  { subst term_i. destruct (_ >=? _); lia. }
  rewrite <- (app_assoc (bytes_of_string from_path) [0]). cbn [app].
  destruct (rename_names_decoded from_path to_path rest term_i Hf Ht Hti)
    as (Hold & Hnew & Hnul).
  rewrite Hold, Hnul, Hnew. cbn [negb].
  destruct (rename_checked fs srv _ _) as [r ops].
  eexists. split; [reflexivity|]. split; reflexivity.
Qed.

(** *** Paths on the wire *)

Lemma Forall_firstn_any {A : Type} (P : A -> Prop) (n : nat) :
  forall l : list A, Forall P l -> Forall P (firstn n l).
Proof.
  induction n as [|n IH]; intros l H; [constructor|].
  destruct l as [|a l]; [constructor|]. inversion_clear H.
  cbn [firstn]. constructor; auto.
Qed.

Lemma string_of_bytes_firstn (n : nat) : forall s : string,
  string_of_bytes (firstn n (bytes_of_string s)) = substring 0 n s.
Proof.
  unfold string_of_bytes, bytes_of_string.
  induction n as [|n IH]; intros s.
  - destruct s; reflexivity.
  - destruct s as [|c s]; [reflexivity|].
    cbn. rewrite N2Z.id, ascii_N_embedding. f_equal. apply IH.
Qed.

Lemma substring_all (s : string) : forall n : nat,
  (String.length s <= n)%nat -> substring 0 n s = s.
Proof.
  induction s as [|c s IH]; intros n Hn.
  - destruct n; reflexivity.
  - destruct n as [|n]; [cbn in Hn; lia|].
    cbn. f_equal. apply IH. cbn in Hn. lia.
Qed.

Lemma substring_length_le (n : nat) : forall s : string,
  (String.length (substring 0 n s) <= n)%nat.
Proof.
  induction n as [|n IH]; intros s.
  - destruct s; cbn; lia.
  - destruct s as [|c s]; cbn; [lia|]. specialize (IH s). lia.
Qed.

(** A path written by [strncpy] into a fresh payload with
    [size = length + 1], as every request that carries one path does, and
    read by [_data_as_string]: its first 238 characters. *)
Lemma path_request_decoded (s : string) (p : PayloadHeader.t) :
  nul_free s ->
  str_length s <= 254 ->
  PayloadHeader.data p
  = strncpy (PayloadHeader.data PayloadHeader.zero) 0 (bytes_of_string s)
            (Z.to_nat (max_data_length - 1)) ->
  PayloadHeader.size p = u8 (str_length s + 1) ->
  snd (_data_as_string p) = substring 0 238 s.
Proof.
  intros Hs Hlen Hd Hsz.
  unfold str_length in *.
  assert (Hu : u8 (Z.of_nat (String.length s) + 1)
               = Z.of_nat (String.length s) + 1)
    by (unfold u8; apply Z.mod_small; lia).
  rewrite Hu in Hsz.
  set (b := firstn 238 (bytes_of_string s)).
  assert (Hbl : List.length b = Nat.min 238 (String.length s))
    by (unfold b; rewrite length_firstn, bytes_of_string_length; reflexivity).
  assert (Hdata : exists rest, PayloadHeader.data p = b ++ 0 :: rest).
  { rewrite Hd. unfold strncpy.
    rewrite c_str_nul_free by exact Hs.
    change (Z.to_nat (max_data_length - 1)) with 238%nat.
    change (PayloadHeader.data PayloadHeader.zero) with (repeat 0 239).
    change (skipn (0 + 238) (repeat 0 239)) with [0].
    change (firstn 0 (repeat 0 239)) with (@nil Z).
    cbn [app]. rewrite repeat_length.
    rewrite (firstn_app 238 (bytes_of_string s)). fold b.
    rewrite bytes_of_string_length.
    rewrite firstn_repeat_le by lia.
    rewrite firstn_all2
      by (rewrite !length_app, Hbl, repeat_length; cbn [List.length]; lia).
    rewrite <- app_assoc.
    destruct (238 - String.length s)%nat as [|k]; cbn [repeat app].
    - now exists [].
    - now exists (repeat 0 k ++ [0]). }
  destruct Hdata as [rest Hdata].
  unfold _data_as_string. cbn [snd PayloadHeader.data PayloadHeader.set_data].
  rewrite Hdata, Hsz.
  set (i := if _ <? max_data_length then _ else _).
  assert (Hi : (List.length b <= i)%nat).
  { subst i. unfold max_data_length.
    destruct (Z.ltb_spec (Z.of_nat (String.length s) + 1) 239); lia. }
  rewrite poke_beyond by exact Hi.
  destruct (poke_nul_head rest (i - List.length b)) as [r' ->].
  rewrite c_str_app_nul, c_str_nul_free
    by (apply Forall_firstn_any; exact Hs).
  apply string_of_bytes_firstn.
Qed.

(** X25: the path of a download as the server reads it.  When [do_work]
    starts a download whose local file opens, it sends one OPEN_FILE_RO
    request, and [_data_as_string] applied to that request yields the
    first 238 characters of the remote path: the path itself when it has
    at most 238 characters, a proper prefix of it when it has 239 to 254
    (the path has no NUL). *)
Theorem download_request_path_decoded (st : Engine) (env : Env)
  (w : Work.t) (rest : list Work.t) (item : DownloadItem.t) :
  _work_queue st = w :: rest ->
  Work.started w = false ->
  Work.item w = IDownload item ->
  stream_ok env = true ->
  nul_free (DownloadItem.remote_path item) ->
  str_length (DownloadItem.remote_path item) <= 254 ->
  exists p,
    snd (do_work st env) = [StartTimer; Send p]
    /\ PayloadHeader.opcode p = CMD_OPEN_FILE_RO
    /\ snd (_data_as_string p)
       = substring 0 238 (DownloadItem.remote_path item)
    /\ (str_length (DownloadItem.remote_path item) <= 238 ->
        snd (_data_as_string p) = DownloadItem.remote_path item)
    /\ (238 < str_length (DownloadItem.remote_path item) ->
        snd (_data_as_string p) <> DownloadItem.remote_path item).
Proof.
  intros Hq Hst Hi Hok Hs Hlen.
  unfold do_work. rewrite Hq, Hst.
  cbn [Work.item Work.set_started]. rewrite Hi.
  unfold download_start. rewrite Hok. cbn [negb].
  unfold next_seq_number. cbn [snd].
  eexists. split; [reflexivity|]. split; [reflexivity|].
  match goal with
  | |- snd (_data_as_string ?p) = _ /\ _ =>
      assert (Hd : snd (_data_as_string p)
                   = substring 0 238 (DownloadItem.remote_path item))
  end.
  { apply path_request_decoded; [exact Hs | exact Hlen | reflexivity
                                | reflexivity]. }
  split; [exact Hd|]. split.
  - intros Hle. rewrite Hd. apply substring_all.
    unfold str_length in Hle. lia.
  - intros Hgt Heq. rewrite Hd in Heq.
    apply (f_equal String.length) in Heq.
    pose proof (substring_length_le 238 (DownloadItem.remote_path item)).
    unfold str_length in Hgt. lia.
Qed.

(** X26: the path of an upload as the server reads it.  When [do_work]
    starts an upload of an existing local file that opens, and the remote
    file path (remote folder, separator, file name of the local path) has
    no NUL: if the path is shorter than 239 characters, one OPEN_FILE_WO
    request is sent from which [_data_as_string] reads exactly that path;
    otherwise nothing is sent, the callback gets InvalidParameter and the
    item is popped. *)
Theorem upload_request_path_decoded (st : Engine) (env : Env)
  (w : Work.t) (rest : list Work.t) (item : UploadItem.t) :
  _work_queue st = w :: rest ->
  Work.started w = false ->
  Work.item w = IUpload item ->
  fs_exists env = true ->
  stream_ok env = true ->
  nul_free (UploadItem.remote_folder item ++ path_separator
            ++ fs_filename (UploadItem.local_file_path item)) ->
  (str_length (UploadItem.remote_folder item ++ path_separator
               ++ fs_filename (UploadItem.local_file_path item))
   < max_data_length ->
   exists p,
     snd (do_work st env) = [StartTimer; Send p]
     /\ PayloadHeader.opcode p = CMD_OPEN_FILE_WO
     /\ snd (_data_as_string p)
        = (UploadItem.remote_folder item ++ path_separator
           ++ fs_filename (UploadItem.local_file_path item))%string)
  /\ (max_data_length
      <= str_length (UploadItem.remote_folder item ++ path_separator
                     ++ fs_filename (UploadItem.local_file_path item)) ->
      snd (do_work st env)
      = [Call (UploadItem.callback item) InvalidParameter no_progress]
      /\ _work_queue (fst (do_work st env)) = rest).
Proof.
  intros Hq Hst Hi Hex Hok Hs.
  unfold do_work. rewrite Hq, Hst.
  cbn [Work.item Work.set_started]. rewrite Hi.
  unfold upload_start. rewrite Hex, Hok. cbn [negb].
  cbn [UploadItem.remote_folder UploadItem.local_file_path
       UploadItem.callback UploadItem.set_file_size].
  set (path := (UploadItem.remote_folder item ++ path_separator
                ++ fs_filename (UploadItem.local_file_path item))%string)
    in *.
  split.
  - intros Hlt.
    replace (str_length path >=? max_data_length) with false
      by (symmetry; rewrite Z.geb_leb; apply Z.leb_gt; exact Hlt).
    unfold next_seq_number. cbn [snd].
    eexists. split; [reflexivity|]. split; [reflexivity|].
    rewrite (path_request_decoded path); [| exact Hs | | reflexivity
                                          | reflexivity].
    + apply substring_all. unfold str_length, max_data_length in Hlt. lia.
    + unfold max_data_length in Hlt. lia.
  - intros Hge.
    replace (str_length path >=? max_data_length) with true
      by (symmetry; rewrite Z.geb_leb; apply Z.leb_le; exact Hge).
    cbn [fst snd]. split; reflexivity.
Qed.

End Client.

(** ** Instances

    The statements above hold for every numbering of the two client-side
    enumerators; below they are taken as 200 and 201, past the wire
    codes. *)

Lemma case_labels_distinct_200_201 : case_labels_distinct 200 201.
Proof.
  unfold case_labels_distinct.
  repeat (constructor;
          [cbn; intros H;
           repeat (destruct H as [H|H]; [discriminate H|]); exact H|]).
  constructor.
Defined.

Lemma nak_result_translation_witness :
  case_labels_distinct 200 201
  /\ result_from_nak 200 201
       (msg_payload (response 2 0 RSP_NAK CMD_OPEN_FILE_RO 2 0
                              [ERR_FAIL_ERRNO; ENOENT])) = FileDoesNotExist
  /\ _translate 200 201 ERR_EOF = ProtocolError
  /\ result_from_nak 200 201 (msg_payload (nak 3 CMD_READ_FILE ERR_EOF))
     = ProtocolError
  /\ result_from_nak 200 201
       (msg_payload (nak 3 CMD_READ_FILE ERR_FAIL_FILE_PROTECTED))
     = _translate 200 201 ERR_FAIL_FILE_PROTECTED.
Proof.
  split; [exact case_labels_distinct_200_201|].
  destruct (nak_result_translation 200 201 case_labels_distinct_200_201)
    as (H1 & _ & H3 & H4 & H5 & _).
  split; [|split; [|split]].
  - apply H1; reflexivity.
  - apply H3. cbn. intros H.
    repeat (destruct H as [H|H]; [discriminate H|]). exact H.
  - apply H5.
    + left. vm_compute. discriminate.
    + vm_compute. intros H.
      repeat (destruct H as [H|H]; [discriminate H|]). exact H.
  - apply (H4 (msg_payload (nak 3 CMD_READ_FILE ERR_FAIL_FILE_PROTECTED))).
    left. vm_compute. discriminate.
Defined.

Lemma duplicate_response_ignored_witness :
  process_mavlink_ftp_message 200 201 (reading_large 200 201)
    (ack_read 2 0 0 239) env_ok = (reading_large 200 201, []).
Proof.
  eapply (duplicate_response_ignored 200 201 (reading_large 200 201)
            (ack_read 2 0 0 239) env_ok).
  - vm_compute. reflexivity.
  - vm_compute. discriminate.
  - vm_compute. reflexivity.
Defined.

(** C1, the claim as stated fails after the wrap: the head work has
    recorded 0 as the number of the last response it accepted, and the
    same response arriving again is processed again: 239 more bytes go to
    the local file, the callback gets Next and a further READ_FILE is
    sent. *)
Lemma duplicate_after_wrap_processed :
  map Work.last_seq_number (_work_queue (wrapped 200 201)) = [0]
  /\ PayloadHeader.seq_number (msg_payload (ack_read 0 0 0 239)) = 0
  /\ map download_written (_work_queue (wrapped 200 201)) = [239%nat]
  /\ map download_written
       (_work_queue
          (fst (process_mavlink_ftp_message 200 201 (wrapped 200 201)
                  (ack_read 0 0 0 239) env_ok))) = [478%nat]
  /\ results_of 1%nat
       (snd (process_mavlink_ftp_message 200 201 (wrapped 200 201)
               (ack_read 0 0 0 239) env_ok)) = [Next]
  /\ map request_summary
       (sent (snd (process_mavlink_ftp_message 200 201 (wrapped 200 201)
                     (ack_read 0 0 0 239) env_ok))) =
     [(CMD_READ_FILE, 0, 478, 239)]
  /\ process_mavlink_ftp_message 200 201 (wrapped 200 201)
       (ack_read 0 0 0 239) env_ok <> (wrapped 200 201, []).
Proof.
  conjuncts; try (vm_compute; reflexivity).
  intros H. apply (f_equal snd) in H. vm_compute in H. discriminate H.
Qed.

Lemma inbound_filter_witness :
  process_mavlink_ftp_message 200 201 (reading_large 200 201)
    (ack_read 3 0 239 239) env_ok =
  process_front_work 200 201 (reading_large 200 201)
    (msg_payload (ack_read 3 0 239 239)) env_ok
  /\ process_mavlink_ftp_message 200 201
       (set_work_queue (reading_large 200 201) [])
       (mkFtpMessage 1 190 (msg_payload (ack_read 3 0 239 239))) env_ok =
     (set_work_queue (reading_large 200 201) [], []).
Proof.
  split.
  - apply (proj1 (inbound_filter 200 201 (reading_large 200 201)
                    (ack_read 3 0 239 239) env_ok)).
    split; [split; left; reflexivity|]. vm_compute. discriminate.
  - apply (proj2 (inbound_filter 200 201 (reading_large 200 201)
                    (mkFtpMessage 1 190 (msg_payload (ack_read 3 0 239 239)))
                    env_ok)).
    intros [[[H|H] _] _]; vm_compute in H; discriminate H.
Defined.

(** C10, the claim as stated fails on the size byte: a response with both
    target ids 0 that the head work is waiting for is dropped before the
    queue is looked at when its size byte is 240, although none of its
    target ids is a nonzero foreign one. *)
Lemma oversized_wildcard_dropped :
  target_system oversized = 0
  /\ target_component oversized = 0
  /\ PayloadHeader.size (msg_payload oversized) = 240
  /\ process_mavlink_ftp_message 200 201 (reading 200 201 0 0 1000)
       oversized env_ok = (reading 200 201 0 0 1000, [])
  /\ process_front_work 200 201 (reading 200 201 0 0 1000)
       (msg_payload oversized) env_ok <> (reading 200 201 0 0 1000, []).
Proof.
  conjuncts; try (vm_compute; reflexivity).
  intros H. apply (f_equal snd) in H. vm_compute in H. discriminate H.
Qed.

Lemma download_nak_translated_witness :
  snd (process_mavlink_ftp_message 200 201 (reading_large 200 201)
         (nak 3 CMD_READ_FILE ERR_FAIL_FILE_PROTECTED) env_ok) =
  [StopTimer; Call 1%nat FileProtected no_progress].
Proof.
  assert (Hacc : exists work item,
             accepted_by (reading_large 200 201)
               (nak 3 CMD_READ_FILE ERR_FAIL_FILE_PROTECTED) work []
             /\ Work.item work = IDownload item
             /\ DownloadItem.callback item = 1%nat).
  { do 2 eexists. split; [|split].
    - split; [split; left; reflexivity|].
      split; [vm_compute; discriminate|].
      split; [vm_compute; reflexivity|].
      split; [vm_compute; reflexivity|].
      right. vm_compute. discriminate.
    - vm_compute. reflexivity.
    - reflexivity. }
  destruct Hacc as (work & item & Hacc & Hitem & Hcb).
  destruct (download_nak_translated 200 201 (reading_large 200 201)
              (nak 3 CMD_READ_FILE ERR_FAIL_FILE_PROTECTED) env_ok
              work [] item Hacc Hitem eq_refl) as [Hp _].
  rewrite Hp, Hcb. reflexivity.
Defined.

(** C3, the claim as stated fails: in the read loop, with 239 of 100000
    bytes in, a NAK carrying ERR_EOF completes the download with
    ProtocolError, not with Success. *)
Lemma download_nak_eof_not_success :
  map Work.last_opcode (_work_queue (reading_large 200 201)) = [CMD_READ_FILE]
  /\ map download_progress (_work_queue (reading_large 200 201)) =
     [Some (239, 100000)]
  /\ process_mavlink_ftp_message 200 201 (reading_large 200 201)
       (nak 3 CMD_READ_FILE ERR_EOF) env_ok =
     (set_work_queue (reading_large 200 201) [],
      [StopTimer; Call 1%nat ProtocolError no_progress])
  /\ results_of 1%nat
       (snd (process_mavlink_ftp_message 200 201 (reading_large 200 201)
               (nak 3 CMD_READ_FILE ERR_EOF) env_ok)) <> [Success].
Proof.
  conjuncts; try (vm_compute; reflexivity).
  vm_compute. discriminate.
Qed.

Lemma timeout_retry_budget_witness :
  map Work.retries (_work_queue (opening 200 201 0)) = [RETRIES]
  /\ count is_send (snd (run 200 201 (opening 200 201 0) (repeat EvTimeout 4)))
     = 3%nat
  /\ last (snd (run 200 201 (opening 200 201 0) (repeat EvTimeout 4)))
          StartTimer = Call 1%nat Timeout no_progress.
Proof.
  split; [vm_compute; reflexivity|].
  assert (H : exists work,
             _work_queue (opening 200 201 0) = [work]
             /\ Work.retries work = RETRIES
             /\ item_callback (Work.item work) = 1%nat).
  { eexists. split; [vm_compute; reflexivity|].
    split; vm_compute; reflexivity. }
  destruct H as (work & Hq & Hr & Hcb).
  destruct (timeout_retry_budget 200 201 (opening 200 201 0) work [] Hq)
    as (_ & _ & _ & Hdef & _).
  destruct (Hdef Hr) as [Hn Hl]. rewrite Hl, Hcb. split; [exact Hn|reflexivity].
Defined.

(** C5, the claim as stated fails on the count: a download that is started
    with the default retries = RETRIES = 4 and never hears from the server
    is transmitted 4 times in all (the first send and 3 resends) and gets
    Timeout on the fourth timer fire. *)
Lemma default_budget_four_transmissions :
  map Work.retries (_work_queue (opening 200 201 0)) = [RETRIES]
  /\ RETRIES = 4
  /\ count is_send
       (snd (run 200 201 (queued_download 0)
               [EvDoWork env_ok; EvTimeout; EvTimeout; EvTimeout; EvTimeout]))
     = 4%nat
  /\ results_of 1%nat
       (snd (run 200 201 (queued_download 0)
               [EvDoWork env_ok; EvTimeout; EvTimeout; EvTimeout; EvTimeout]))
     = [Timeout]
  /\ _work_queue
       (fst (run 200 201 (queued_download 0)
               [EvDoWork env_ok; EvTimeout; EvTimeout; EvTimeout; EvTimeout]))
     = []
  /\ count is_send
       (snd (run 200 201 (queued_download 0)
               [EvDoWork env_ok; EvTimeout; EvTimeout; EvTimeout; EvTimeout]))
     <> 5%nat.
Proof.
  conjuncts; try (vm_compute; reflexivity).
  vm_compute. discriminate.
Qed.

Lemma ack_resets_retries_witness :
  map Work.retries (_work_queue (retried 200 201)) = [3]
  /\ map Work.retries
       (_work_queue
          (fst (process_mavlink_ftp_message 200 201 (retried 200 201)
                  (ack_read 3 0 239 239) env_ok))) = [RETRIES]
  /\ existsb is_send
       (snd (process_mavlink_ftp_message 200 201 (retried 200 201)
               (ack_read 3 0 239 239) env_ok)) = true.
Proof.
  split; [vm_compute; reflexivity|].
  assert (Hacc : exists work item,
             accepted_by (retried 200 201) (ack_read 3 0 239 239) work []
             /\ Work.item work = IDownload item).
  { do 2 eexists. split.
    - split; [split; left; reflexivity|].
      split; [vm_compute; discriminate|].
      split; [vm_compute; reflexivity|].
      split; [vm_compute; reflexivity|].
      right. vm_compute. discriminate.
    - vm_compute. reflexivity. }
  destruct Hacc as (work & item & Hacc & Hitem).
  destruct (ack_resets_retries 200 201 (retried 200 201)
              (ack_read 3 0 239 239) env_ok work [] Hacc eq_refl)
    as (st' & acts & Hp & [(_ & work' & Hq & Hr & Hs) | (Hsf & _)]).
  - left. exists item. split; [exact Hitem|]. right. reflexivity.
  - rewrite Hp. cbn [fst snd]. rewrite Hq. cbn [map]. rewrite Hr.
    split; [reflexivity | exact Hs].
  - rewrite Hitem in Hsf. unfold stream_fails in Hsf. cbn in Hsf.
    discriminate Hsf.
Defined.

(** ** Instances of the further properties *)

Lemma seq_lt_order_witness :
  seq_lt 65535 65535 = false
  /\ (seq_lt 65535 0 = true -> seq_lt 0 65535 = false)
  /\ seq_lt 65535 (u16 (65535 + 1)) = true.
Proof. apply (seq_lt_order 65535 0); lia. Defined.

Lemma seq_lt_incomparable_witness :
  (seq_lt 0 32767 = false /\ seq_lt 32767 0 = false)
  <-> Z.abs (0 - 32767) = 32767.
Proof. apply (seq_lt_incomparable 0 32767); lia. Defined.

Lemma head_popped_iff_terminal_result_witness :
  calls_only 1%nat (snd (step 200 201 (reading_large 200 201) EvTimeout))
  = true.
Proof.
  assert (H : exists w,
             _work_queue (reading_large 200 201) = [w]
             /\ item_callback (Work.item w) = 1%nat).
  { eexists. split; vm_compute; reflexivity. }
  destruct H as (w & Hq & Hcb).
  destruct (head_popped_iff_terminal_result 200 201 (reading_large 200 201)
              EvTimeout w [] eq_refl Hq) as [H _].
  rewrite Hcb in H. exact H.
Defined.

Lemma sent_payload_is_stored_witness :
  sent (snd (step 200 201 (reading_large 200 201) EvTimeout)) = []
  \/ exists w' rest,
       _work_queue (fst (step 200 201 (reading_large 200 201) EvTimeout))
       = w' :: rest
       /\ sent (snd (step 200 201 (reading_large 200 201) EvTimeout))
          = [Work.payload w'].
Proof.
  apply (sent_payload_is_stored 200 201 (reading_large 200 201) EvTimeout).
  reflexivity.
Defined.

Lemma requests_numbered_from_counter_witness :
  map PayloadHeader.seq_number
      (sent (snd (step 200 201 (queued_download 7) (EvDoWork env_ok))))
  = [7].
Proof.
  assert (H : exists p,
             sent (snd (step 200 201 (queued_download 7) (EvDoWork env_ok)))
             = [p]).
  { eexists. vm_compute. reflexivity. }
  destruct H as (p & Hs).
  destruct (requests_numbered_from_counter 200 201 (queued_download 7)
              (EvDoWork env_ok) p eq_refl) as [Hn _].
  { rewrite Hs. left. reflexivity. }
  rewrite Hs. cbn [map]. rewrite Hn. reflexivity.
Defined.

Lemma only_head_started_invariant_witness :
  only_head_started
    (fst (run 200 201 (idle_engine 0)
            [EvDownload "/a/data.bin" "/tmp/d" 1%nat;
             EvDownload "/a/more.bin" "/tmp/d" 2%nat;
             EvDoWork env_ok; EvTimeout])).
Proof.
  apply (only_head_started_invariant 200 201).
  unfold only_head_started. cbn. constructor.
Defined.

Lemma foreign_response_ignored_witness :
  process_mavlink_ftp_message 200 201 (reading_large 200 201)
    (ack_open 3 0 50) env_ok = (reading_large 200 201, []).
Proof.
  apply (foreign_response_ignored 200 201). vm_compute. discriminate.
Defined.

Lemma older_interface_stays_busy_witness :
  rename_async (fst (run 200 201 (idle_engine 0) [EvReset 1%nat; EvTimeout]))
    "/a" "/b" 2%nat
  = (fst (run 200 201 (idle_engine 0) [EvReset 1%nat; EvTimeout]),
     [CallResult 2%nat Busy]).
Proof.
  assert (Hs : sent (snd (step 200 201 (idle_engine 0) (EvReset 1%nat)))
               <> []).
  { vm_compute. discriminate. }
  destruct (older_interface_stays_busy 200 201 (idle_engine 0)
              (EvReset 1%nat) [EvTimeout] I Hs) as (_ & H & _).
  apply H.
Defined.

Lemma download_writes_the_file_witness :
  results_of 1%nat
    (snd (run 200 201 (reading 200 201 0 0 339)
            (read_acks 2 0 [repeat 170 239; repeat 11 100])))
  = [Next; Next].
Proof.
  assert (H : exists w item,
             _work_queue (reading 200 201 0 0 339) = [w]
             /\ Work.item w = IDownload item
             /\ Work.last_opcode w = CMD_READ_FILE
             /\ Work.last_seq_number w = 1
             /\ DownloadItem.callback item = 1%nat
             /\ DownloadItem.bytes_transferred item = 0
             /\ DownloadItem.file_size item = 339).
  { do 2 eexists. conjuncts; vm_compute; reflexivity. }
  destruct H as (w & item & Hq & Hi & Hop & Hseq & Hcb & Hb & Hf).
  destruct (download_writes_the_file 200 201
              [repeat 170 239; repeat 11 100]
              (reading 200 201 0 0 339) w [] item 2 Hq Hi Hop)
    as (st' & acts & w' & item' & Hrun & _ & _ & _ & _ & Hres & _).
  - right. rewrite Hseq. discriminate.
  - lia.
  - discriminate.
  - repeat (constructor; [rewrite repeat_length; lia|]). constructor.
  - rewrite Hb, Hf. reflexivity.
  - rewrite Hb in Hrun. rewrite Hrun. cbn [snd]. rewrite <- Hcb. exact Hres.
Defined.

Lemma upload_sends_the_file_witness :
  map carried
      (sent (snd (run 200 201 (uploading 200 201)
                    (write_acks 1 CMD_OPEN_FILE_WO
                                [repeat 170 239; repeat 11 100]))))
  = [repeat 170 239; repeat 11 100].
Proof.
  assert (H : exists w item,
             _work_queue (uploading 200 201) = [w]
             /\ Work.item w = IUpload item
             /\ Work.last_opcode w = CMD_OPEN_FILE_WO
             /\ Work.last_seq_number w = 0
             /\ UploadItem.bytes_transferred item = 0
             /\ UploadItem.file_size item = 339).
  { do 2 eexists. conjuncts; vm_compute; reflexivity. }
  destruct H as (w & item & Hq & Hi & Hop & Hseq & Hb & Hf).
  destruct (upload_sends_the_file 200 201
              [repeat 170 239; repeat 11 100]
              (uploading 200 201) w [] item 1 CMD_OPEN_FILE_WO Hq Hi Hop)
    as (st' & acts & Hrun & _ & Hc & _).
  - left. reflexivity.
  - left. exact Hseq.
  - lia.
  - discriminate.
  - repeat (constructor; [rewrite repeat_length; lia|]). constructor.
  - rewrite Hb, Hf. reflexivity.
  - rewrite Hrun. cbn [snd]. exact Hc.
Defined.

Lemma one_session_at_a_time_witness :
  _work_open fs_ok
    (server_of (_work_open fs_ok server_idle
                  (request CMD_OPEN_FILE_RO 0 "a.txt") O_RDONLY))
    (request CMD_OPEN_FILE_RO 0 "b.txt") O_RDONLY
  = (ERR_NO_SESSIONS_AVAILABLE,
     server_of (_work_open fs_ok server_idle
                  (request CMD_OPEN_FILE_RO 0 "a.txt") O_RDONLY),
     request CMD_OPEN_FILE_RO 0 "b.txt", []).
Proof.
  assert (H : exists srv' payload' ops,
             _work_open fs_ok server_idle
               (request CMD_OPEN_FILE_RO 0 "a.txt") O_RDONLY
             = (SUCCESS, srv', payload', ops)).
  { do 3 eexists. vm_compute. reflexivity. }
  destruct H as (srv' & payload' & ops & H).
  destruct (one_session_at_a_time fs_ok server_idle srv'
              (request CMD_OPEN_FILE_RO 0 "a.txt") payload' O_RDONLY ops H)
    as [_ Hn].
  rewrite H. apply Hn.
Defined.

Lemma closed_session_is_invalid_witness :
  _work_terminate server_idle (request CMD_TERMINATE_SESSION 0 EmptyString)
  = (ERR_INVALID_SESSION, server_idle,
     request CMD_TERMINATE_SESSION 0 EmptyString, []).
Proof.
  destruct (closed_session_is_invalid server_idle
              (request CMD_TERMINATE_SESSION 0 EmptyString))
    as (_ & _ & H).
  apply H. cbn. lia.
Defined.

Lemma read_within_the_file_witness :
  _work_read fs_ok server_open (request CMD_READ_FILE 1000 EmptyString)
  = (ERR_EOF, server_open, request CMD_READ_FILE 1000 EmptyString, []).
Proof.
  destruct (read_within_the_file fs_ok server_open
              (request CMD_READ_FILE 1000 EmptyString)) as [H _].
  - reflexivity.
  - cbn. lia.
  - vm_compute. reflexivity.
  - apply H. cbn. lia.
Defined.

Lemma write_guard_admits_session_zero_witness :
  exists code srv' payload' ops,
    _work_write fs_ok server_idle (request CMD_WRITE_FILE 0 "abc")
    = (code, srv', payload',
       OpLseek (si_fd (_session_info server_idle))
               (PayloadHeader.offset (request CMD_WRITE_FILE 0 "abc"))
       :: ops)
    /\ code <> ERR_INVALID_SESSION.
Proof.
  apply (proj1 (write_guard_admits_session_zero fs_ok server_idle
                  (request CMD_WRITE_FILE 0 "abc") eq_refl)).
Defined.

Lemma data_as_string_terminated_witness :
  _data_as_string (fst (_data_as_string (request CMD_OPEN_FILE_RO 0 "a.txt")))
  = _data_as_string (request CMD_OPEN_FILE_RO 0 "a.txt").
Proof.
  destruct (data_as_string_terminated (request CMD_OPEN_FILE_RO 0 "a.txt"))
    as (_ & H & _).
  - cbn. lia.
  - vm_compute. reflexivity.
  - exact H.
Defined.

Lemma handlers_confined_to_root_witness :
  code_of (_work_remove_file fs_dotdot server_idle
             (request CMD_REMOVE_FILE 0 "../etc")) = ERR_FAIL
  /\ ops_of (_work_remove_file fs_dotdot server_idle
               (request CMD_REMOVE_FILE 0 "../etc")) = [].
Proof.
  destruct (handlers_confined_to_root fs_dotdot server_idle
              (request CMD_REMOVE_FILE 0 "../etc"))
    as (_ & _ & _ & H & _).
  - vm_compute. reflexivity.
  - exact H.
Defined.

Lemma write_tmp_file_stages_witness :
  write_tmp_file fs_ok server_idle "../x" "c" = (None, server_idle, []).
Proof.
  apply (proj1 (write_tmp_file_stages fs_ok server_idle "../x" "c")).
  vm_compute. reflexivity.
Defined.

Lemma open_reports_file_size_witness :
  read_u32 (PayloadHeader.data
              (payload_of (_work_open fs_ok server_idle
                             (request CMD_OPEN_FILE_RO 0 "a.txt") O_RDONLY)))
  = 1000.
Proof.
  assert (H : exists srv' payload' ops,
             _work_open fs_ok server_idle
               (request CMD_OPEN_FILE_RO 0 "a.txt") O_RDONLY
             = (SUCCESS, srv', payload', ops)).
  { do 3 eexists. vm_compute. reflexivity. }
  destruct H as (srv' & payload' & ops & H).
  destruct (open_reports_file_size fs_ok server_idle srv'
              (request CMD_OPEN_FILE_RO 0 "a.txt") payload' O_RDONLY ops H)
    as (_ & _ & Hr & Hs & _).
  - vm_compute. reflexivity.
  - rewrite H. cbn [payload_of fst snd]. rewrite Hr, Hs. reflexivity.
Defined.

Lemma staged_file_is_opened_witness :
  ops_of (_work_open fs_ok
            (snd (fst (write_tmp_file fs_ok server_idle "p.txt" "c")))
            (request CMD_OPEN_FILE_RO 0 "p.txt") O_RDONLY)
  = [OpOpen "/tmp/mavsdk-mavlink-ftp-tmp-files/p.txt" O_RDONLY].
Proof.
  assert (H : exists srv' ops,
             write_tmp_file fs_ok server_idle "p.txt" "c"
             = (Some "/tmp/mavsdk-mavlink-ftp-tmp-files/p.txt"%string,
                srv', ops)
             /\ si_fd (_session_info srv') = -1).
  { do 2 eexists. split; vm_compute; reflexivity. }
  destruct H as (srv' & ops & H & Hfd).
  rewrite H. cbn [fst snd].
  apply (staged_file_is_opened fs_ok fs_ok server_idle srv' "p.txt" "c"
           "/tmp/mavsdk-mavlink-ftp-tmp-files/p.txt" ops
           (request CMD_OPEN_FILE_RO 0 "p.txt") O_RDONLY H).
  - rewrite Hfd. lia.
  - vm_compute. reflexivity.
  - right. reflexivity.
Defined.

Lemma progress_reported_once_per_percent_witness :
  _call_op_progress_callback legacy_idle 10 0 = None.
Proof.
  destruct (progress_reported_once_per_percent legacy_idle 1%nat 10 11 1000)
    as [_ H].
  - reflexivity.
  - lia.
  - exact H.
Defined.

Lemma files_identical_verdict_witness :
  are_files_identical_async legacy_idle (FileDoesNotExist, 0) "/a/data.bin"
    (Some 2%nat)
  = (legacy_idle, [CallIdentical 2%nat FileDoesNotExist false]).
Proof.
  destruct (files_identical_verdict 200 201 legacy_idle 2%nat 0 "/a/data.bin")
    as (_ & H & _).
  - reflexivity.
  - vm_compute. reflexivity.
  - apply H. discriminate.
Defined.

Lemma directory_listing_accumulates_witness :
  exists l' acts,
    _process_ack 200 201 legacy_listing
      (msg_payload (response 1 0 RSP_ACK CMD_LIST_DIRECTORY 9 0
                             (encode_entries ["Fa"%string; "Dlogs"%string]))) env_ok
    = Some (l', acts)
    /\ _curr_directory_list (engine l') = ["Fa"%string; "Dlogs"%string].
Proof.
  destruct (directory_listing_accumulates 200 201 legacy_listing
              (msg_payload (response 1 0 RSP_ACK CMD_LIST_DIRECTORY 9 0
                                     (encode_entries ["Fa"%string; "Dlogs"%string])))
              env_ok ["Fa"%string; "Dlogs"%string] (repeat 0 230))
    as (l' & acts & Hrun & Hl & _).
  - reflexivity.
  - reflexivity.
  - vm_compute. reflexivity.
  - vm_compute. reflexivity.
  - vm_compute. reflexivity.
  - repeat (constructor;
            [split;
             [unfold nul_free; vm_compute;
              repeat (constructor; [intro Hb; discriminate Hb|]); constructor
             |discriminate]|]).
    constructor.
  - vm_compute. reflexivity.
  - exists l', acts. split; [exact Hrun|]. rewrite Hl. reflexivity.
Defined.

Lemma listing_round_trip_witness :
  parse_entries
    (payload_of (_work_list fs_ok server_idle
                   (request CMD_LIST_DIRECTORY 0 "logs") false))
  = map (list_entry fs_ok server_idle "/srv/logs" false) dirents_ok.
Proof.
  destruct (listing_round_trip fs_ok server_idle
              (request CMD_LIST_DIRECTORY 0 "logs") false dirents_ok)
    as (_ & H & _).
  - vm_compute. reflexivity.
  - cbn. lia.
  - vm_compute. reflexivity.
  - reflexivity.
  - vm_compute. reflexivity.
  - repeat (constructor;
            [unfold nul_free; vm_compute;
             repeat (constructor; [intro Hb; discriminate Hb|]); constructor
            |]).
    constructor.
  - rewrite H. vm_compute. reflexivity.
Defined.

Lemma rename_request_decoded_witness :
  exists p h,
    snd (rename_async (idle_engine 0) "a.txt" "b.txt" 1%nat) = [Send p]
    /\ _work_rename fs_ok server_idle p = Some h
    /\ ops_of h = [OpRename "/srv/a.txt" "/srv/b.txt"].
Proof.
  destruct (rename_request_decoded (idle_engine 0) fs_ok server_idle
              "a.txt" "b.txt" 1%nat) as (p & Hs & _ & _ & h & Hh & _ & Hops).
  - reflexivity.
  - unfold nul_free. vm_compute.
    repeat (constructor; [intro Hb; discriminate Hb|]). constructor.
  - unfold nul_free. vm_compute.
    repeat (constructor; [intro Hb; discriminate Hb|]). constructor.
  - vm_compute. reflexivity.
  - exists p, h. split; [exact Hs|]. split; [exact Hh|].
    rewrite Hops. vm_compute. reflexivity.
Defined.

Lemma download_request_path_decoded_witness :
  exists p,
    snd (do_work (fst (download_async (idle_engine 0) long_path "/tmp/d"
                                      1%nat)) env_ok)
    = [StartTimer; Send p]
    /\ snd (_data_as_string p) = longest_path.
Proof.
  assert (H : exists w item,
             _work_queue (fst (download_async (idle_engine 0) long_path
                                              "/tmp/d" 1%nat)) = [w]
             /\ Work.started w = false
             /\ Work.item w = IDownload item
             /\ DownloadItem.remote_path item = long_path).
  { do 2 eexists. conjuncts; reflexivity. }
  destruct H as (w & item & Hq & Hst & Hi & Hp).
  destruct (download_request_path_decoded
              (fst (download_async (idle_engine 0) long_path "/tmp/d" 1%nat))
              env_ok w [] item Hq Hst Hi eq_refl)
    as (p & Hs & _ & Hd & _).
  - rewrite Hp. unfold nul_free. vm_compute.
    repeat (constructor; [intro Hb; discriminate Hb|]). constructor.
  - rewrite Hp. vm_compute. discriminate.
  - exists p. split; [exact Hs|]. rewrite Hd, Hp. vm_compute. reflexivity.
Defined.

Lemma upload_request_path_decoded_witness :
  exists p,
    snd (do_work (fst (upload_async (idle_engine 0) "/tmp/f.bin" "/remote"
                                    1%nat)) (mkEnv true true 339 []))
    = [StartTimer; Send p]
    /\ snd (_data_as_string p) = "/remote/f.bin"%string.
Proof.
  assert (H : exists w item,
             _work_queue (fst (upload_async (idle_engine 0) "/tmp/f.bin"
                                            "/remote" 1%nat)) = [w]
             /\ Work.started w = false
             /\ Work.item w = IUpload item
             /\ (UploadItem.remote_folder item ++ path_separator
                 ++ fs_filename (UploadItem.local_file_path item))%string
                = "/remote/f.bin"%string).
  { do 2 eexists. conjuncts; reflexivity. }
  destruct H as (w & item & Hq & Hst & Hi & Hp).
  destruct (upload_request_path_decoded
              (fst (upload_async (idle_engine 0) "/tmp/f.bin" "/remote"
                                 1%nat))
              (mkEnv true true 339 []) w [] item Hq Hst Hi eq_refl eq_refl)
    as [H _].
  - rewrite Hp. unfold nul_free. vm_compute.
    repeat (constructor; [intro Hb; discriminate Hb|]). constructor.
  - destruct H as (p & Hs & _ & Hd).
    + rewrite Hp. vm_compute. reflexivity.
    + exists p. split; [exact Hs|]. rewrite Hd. exact Hp.
Defined.
